(** * ocrreader2: box model, page layout, page orchestration and the
      hyphenation check, embedded from the Python sources

    - [src/page/ocr_box.py]              boxes, conversion, notification, records
    - [src/page/page_layout.py]          the ordered box sequence of a page, its record
    - [src/page/page.py]                 analysis, recognition, convert, merge, records
    - [src/ocr_engine/ocr_result_writer.py]  [_check_hyphenated_word]

    Python objects are mutable and shared, so boxes live in a store and the
    layout holds references into it.  Python [int] is [Z], [float] is a
    binary64 [float], [str] is [string], a raised exception is [Raise]. *)

From Stdlib Require Import ZArith String Ascii List Lia Permutation.
From Stdlib Require Import PrimFloat SpecFloat FloatOps FloatAxioms.
From Stdlib Require Import Sorted.
From stdpp Require Import base list strings.

Local Open Scope string_scope.
Local Open Scope Z_scope.

(** ** Exceptions, results, and the state-and-exception monad *)

(** The exceptions of Python that the embedded code can raise.  [Unmodelled]
    is not one of them: it ends a run of the model that has met a value
    outside of the typed model (a record field of another type than the
    source annotates, which the code stores as it is and the box record here
    cannot hold).  The model makes no statement about what the code does on
    such a run. *)
Inductive exn : Type :=
| IndexError
| KeyError (key : string)
| ZeroDivisionError
| OverflowError
| AttributeError (attr : string)
| ValueError
| TypeError
| Exception (msg : string)
| Unmodelled.

Inductive result (A : Type) : Type :=
| Ok (a : A)
| Raise (e : exn).

Arguments Ok {A} a.
Arguments Raise {A} e.

(** A computation runs on a state; a raised exception keeps the state reached
    so far, as in Python (mutations before a [raise] are not rolled back). *)
Definition M (S A : Type) : Type := S -> result A * S.

Definition ret {S A} (a : A) : M S A := fun s => (Ok a, s).
Definition raise {S A} (e : exn) : M S A := fun s => (Raise e, s).
Definition bind {S A B} (m : M S A) (k : A -> M S B) : M S B :=
  fun s => match m s with
           | (Ok a, s') => k a s'
           | (Raise e, s') => (Raise e, s')
           end.
Definition gets {S A} (f : S -> A) : M S A := fun s => (Ok (f s), s).
Definition modify {S} (f : S -> S) : M S unit := fun s => (Ok tt, f s).
Definition lift_result {S A} (r : result A) : M S A := fun s => (r, s).

Declare Scope py_scope.
Delimit Scope py_scope with py.
Notation "x <- m ;; k" := (bind m (fun x => k))
  (at level 100, m at next level, right associativity) : py_scope.
Notation "m ;;; k" := (bind m (fun _ => k))
  (at level 100, right associativity) : py_scope.
Local Open Scope py_scope.

(** [for x in xs: body x] *)
Fixpoint for_each {S A} (xs : list A) (body : A -> M S unit) : M S unit :=
  match xs with
  | [] => ret tt
  | x :: rest => body x ;;; for_each rest body
  end.

(** [try: m  except Exception: handler] *)
Definition try_except {S A} (m : M S A) (handler : exn -> M S A) : M S A :=
  fun s => match m s with
           | (Ok a, s') => (Ok a, s')
           | (Raise Unmodelled, s') => (Raise Unmodelled, s')
           | (Raise e, s') => handler e s'
           end.

(** ** Python list operations, with their index conventions *)

(** A negative index counts from the end. *)
Definition norm_index (len : nat) (i : Z) : Z :=
  if i <? 0 then i + Z.of_nat len else i.

Definition in_range (len : nat) (j : Z) : bool :=
  (0 <=? j) && (j <? Z.of_nat len).

(** [l[i]] *)
Definition py_getitem {A} (l : list A) (i : Z) : result A :=
  let j := norm_index (length l) i in
  if in_range (length l) j then
    match l !! Z.to_nat j with
    | Some a => Ok a
    | None => Raise IndexError
    end
  else Raise IndexError.

(** [l[i] = a] *)
Definition py_setitem {A} (l : list A) (i : Z) (a : A) : result (list A) :=
  let j := norm_index (length l) i in
  if in_range (length l) j then Ok (<[Z.to_nat j := a]> l)
  else Raise IndexError.

(** [l.pop(i)] *)
Definition py_pop {A} (l : list A) (i : Z) : result (A * list A) :=
  let j := norm_index (length l) i in
  if in_range (length l) j then
    match l !! Z.to_nat j with
    | Some a => Ok (a, delete (Z.to_nat j) l)
    | None => Raise IndexError
    end
  else Raise IndexError.

(** [l.insert(i, a)]: the index is clamped into [0 .. len(l)]. *)
Definition py_insert {A} (l : list A) (i : Z) (a : A) : list A :=
  let j := norm_index (length l) i in
  let k := Z.to_nat (Z.max 0 (Z.min j (Z.of_nat (length l)))) in
  take k l ++ a :: drop k l.

(** [enumerate(l)] *)
Definition enumerate {A} (l : list A) : list (Z * A) :=
  imap (fun i a => (Z.of_nat i, a)) l.

(** [l.sort(key=...)] is stable: equal keys keep their order. *)
Fixpoint insert_by_key {A} (key : A -> Z) (a : A) (l : list A) : list A :=
  match l with
  | [] => [a]
  | b :: rest =>
      if key a <=? key b then a :: b :: rest
      else b :: insert_by_key key a rest
  end.

Fixpoint sort_by_key {A} (key : A -> Z) (l : list A) : list A :=
  match l with
  | [] => []
  | a :: rest => insert_by_key key a (sort_by_key key rest)
  end.

(** A Python [int] as a binary float of unbounded mantissa. *)
Definition Z2SF (z : Z) : spec_float :=
  match z with
  | Z0 => S754_zero false
  | Zpos p => S754_finite false p 0
  | Zneg p => S754_finite true p 0
  end.

(** [a / b] on two [int]s: the quotient rounded to the nearest binary64
    float, ties to even; [ZeroDivisionError] for a zero divisor and
    [OverflowError] when the rounded quotient is beyond the largest float.
    A zero dividend gives a zero with the sign of the divisor. *)
Definition py_truediv (a b : Z) : result float :=
  if b =? 0 then Raise ZeroDivisionError
  else
    match SFdiv prec emax (Z2SF a) (Z2SF b) with
    | S754_infinity _ => Raise OverflowError
    | q => Ok (SF2Prim q)
    end.

(** [max(a, b)] on floats returns [a] unless [b > a]. *)
Definition py_max_float (a b : float) : float :=
  if PrimFloat.ltb a b then b else a.

(** ** Box types and box classes *)

(** Modelled from the spec: the enumeration [BoxType] of [page/box_type.py],
    which is not among the sources.  Its members are the keys of
    [BOX_TYPE_MAP] and [IGNORE], which [page.py] and the page editor use. *)
Inductive BoxType : Type :=
| UNKNOWN | FLOWING_TEXT | HEADING_TEXT | PULLOUT_TEXT | EQUATION
| INLINE_EQUATION | TABLE | VERTICAL_TEXT | CAPTION_TEXT
| FLOWING_IMAGE | HEADING_IMAGE | PULLOUT_IMAGE
| HORZ_LINE | VERT_LINE | NOISE | COUNT | IGNORE.

Definition all_box_types : list BoxType :=
  [UNKNOWN; FLOWING_TEXT; HEADING_TEXT; PULLOUT_TEXT; EQUATION;
   INLINE_EQUATION; TABLE; VERTICAL_TEXT; CAPTION_TEXT;
   FLOWING_IMAGE; HEADING_IMAGE; PULLOUT_IMAGE;
   HORZ_LINE; VERT_LINE; NOISE; COUNT; IGNORE].

Definition BoxType_eqb (a b : BoxType) : bool :=
  match a, b with
  | UNKNOWN, UNKNOWN | FLOWING_TEXT, FLOWING_TEXT | HEADING_TEXT, HEADING_TEXT
  | PULLOUT_TEXT, PULLOUT_TEXT | EQUATION, EQUATION
  | INLINE_EQUATION, INLINE_EQUATION | TABLE, TABLE
  | VERTICAL_TEXT, VERTICAL_TEXT | CAPTION_TEXT, CAPTION_TEXT
  | FLOWING_IMAGE, FLOWING_IMAGE | HEADING_IMAGE, HEADING_IMAGE
  | PULLOUT_IMAGE, PULLOUT_IMAGE | HORZ_LINE, HORZ_LINE
  | VERT_LINE, VERT_LINE | NOISE, NOISE | COUNT, COUNT | IGNORE, IGNORE => true
  | _, _ => false
  end.

(** [box_type.name] *)
Definition name (t : BoxType) : string :=
  match t with
  | UNKNOWN => "UNKNOWN" | FLOWING_TEXT => "FLOWING_TEXT"
  | HEADING_TEXT => "HEADING_TEXT" | PULLOUT_TEXT => "PULLOUT_TEXT"
  | EQUATION => "EQUATION" | INLINE_EQUATION => "INLINE_EQUATION"
  | TABLE => "TABLE" | VERTICAL_TEXT => "VERTICAL_TEXT"
  | CAPTION_TEXT => "CAPTION_TEXT" | FLOWING_IMAGE => "FLOWING_IMAGE"
  | HEADING_IMAGE => "HEADING_IMAGE" | PULLOUT_IMAGE => "PULLOUT_IMAGE"
  | HORZ_LINE => "HORZ_LINE" | VERT_LINE => "VERT_LINE"
  | NOISE => "NOISE" | COUNT => "COUNT" | IGNORE => "IGNORE"
  end.

(** [BoxType[s]]: lookup of a member by name; an unknown name is a [KeyError]. *)
Definition BoxType_of_name (s : string) : result BoxType :=
  match List.find (fun t => String.eqb (name t) s) all_box_types with
  | Some t => Ok t
  | None => Raise (KeyError s)
  end.

(** The classes of [ocr_box.py]: [OCRBox] and its seven subclasses. *)
Inductive BoxClass : Type :=
| OCRBox_cls | TextBox_cls | ImageBox_cls | LineBox_cls
| EquationBox_cls | TableBox_cls | NoiseBox_cls | CountBox_cls.

Definition BoxClass_eqb (a b : BoxClass) : bool :=
  match a, b with
  | OCRBox_cls, OCRBox_cls | TextBox_cls, TextBox_cls
  | ImageBox_cls, ImageBox_cls | LineBox_cls, LineBox_cls
  | EquationBox_cls, EquationBox_cls | TableBox_cls, TableBox_cls
  | NoiseBox_cls, NoiseBox_cls | CountBox_cls, CountBox_cls => true
  | _, _ => false
  end.

(** The table at the end of [ocr_box.py], in its order.  It has no entry for
    ["IGNORE"]. *)
Definition BOX_TYPE_MAP : list (string * BoxClass) :=
  [("UNKNOWN", OCRBox_cls);
   ("FLOWING_TEXT", TextBox_cls);
   ("HEADING_TEXT", TextBox_cls);
   ("PULLOUT_TEXT", TextBox_cls);
   ("EQUATION", EquationBox_cls);
   ("INLINE_EQUATION", TextBox_cls);
   ("TABLE", TableBox_cls);
   ("VERTICAL_TEXT", TextBox_cls);
   ("CAPTION_TEXT", TextBox_cls);
   ("FLOWING_IMAGE", ImageBox_cls);
   ("HEADING_IMAGE", ImageBox_cls);
   ("PULLOUT_IMAGE", ImageBox_cls);
   ("HORZ_LINE", LineBox_cls);
   ("VERT_LINE", LineBox_cls);
   ("NOISE", NoiseBox_cls);
   ("COUNT", CountBox_cls)].

(** [d.get(k)] on a keyed record, and [d[k]] with its [KeyError]. *)
Fixpoint assoc_get {V} (d : list (string * V)) (k : string) : option V :=
  match d with
  | [] => None
  | (k', v) :: rest => if String.eqb k' k then Some v else assoc_get rest k
  end.

Definition assoc_index {V} (d : list (string * V)) (k : string) : result V :=
  match assoc_get d k with
  | Some v => Ok v
  | None => Raise (KeyError k)
  end.

(** ** Generic keyed records (what [to_dict] builds and [json] carries) *)

#[local] Unset Elimination Schemes.
Inductive PyVal : Type :=
| PyNone
| PyInt (z : Z)
| PyFloat (f : float)
| PyStr (s : string)
| PyList (l : list PyVal)
| PyDict (d : list (string * PyVal)).
#[local] Set Elimination Schemes.

(** Truth value of a Python value: [None], [0], [0.0], [""], [[]] and [{}]
    are false. *)
Definition py_truthy (v : PyVal) : bool :=
  match v with
  | PyNone => false
  | PyInt z => negb (z =? 0)
  | PyFloat f => negb (PrimFloat.eqb f 0%float)
  | PyStr s => negb (String.eqb s "")
  | PyList l => match l with [] => false | _ => true end
  | PyDict d => match d with [] => false | _ => true end
  end.

(** The integer a float denotes, when it denotes one. *)
Definition float_exact_Z (f : float) : option Z :=
  match Prim2SF f with
  | S754_zero _ => Some 0
  | S754_finite s m e =>
      let v := if s then - Z.pos m else Z.pos m in
      if 0 <=? e then Some (v * 2 ^ e)
      else if Z.pos m mod 2 ^ (- e) =? 0 then Some (v / 2 ^ (- e))
      else None
  | _ => None
  end.

(** [v1 == v2]: floats compare by IEEE equality, an [int] and a [float] by
    value, dictionaries by their key/value pairs whatever their order. *)
Fixpoint py_val_eqb (v1 v2 : PyVal) {struct v1} : bool :=
  match v1, v2 with
  | PyNone, PyNone => true
  | PyInt a, PyInt b => a =? b
  | PyFloat a, PyFloat b => PrimFloat.eqb a b
  | PyInt a, PyFloat b | PyFloat b, PyInt a =>
      match float_exact_Z b with
      | Some z => a =? z
      | None => false
      end
  | PyStr a, PyStr b => String.eqb a b
  | PyList l1, PyList l2 =>
      (fix go (l1 l2 : list PyVal) {struct l1} : bool :=
         match l1, l2 with
         | [], [] => true
         | a :: r1, b :: r2 => py_val_eqb a b && go r1 r2
         | _, _ => false
         end) l1 l2
  | PyDict d1, PyDict d2 =>
      (length d1 =? length d2)%nat &&
      (fix go (d1 : list (string * PyVal)) : bool :=
         match d1 with
         | [] => true
         | (k, a) :: r1 =>
             match assoc_get d2 k with
             | Some b => py_val_eqb a b
             | None => false
             end && go r1
         end) d1
  | _, _ => false
  end.

(** ** Recognition results *)

(** Modelled from the spec: the recognition result tree of
    [ocr_engine/ocr_result.py], which is not among the sources: a block is a
    list of paragraphs, a paragraph a list of lines, a line a list of words, a
    word carries confidence, text, bounding box and symbols, a symbol carries
    confidence and text. *)
Record OCRResultSymbol : Type := {
  symbol_confidence : float;
  symbol_text : string;
}.

Record OCRResultWord : Type := {
  word_confidence : float;
  word_text : string;
  word_bbox : Z * Z * Z * Z;
  symbols : list OCRResultSymbol;
}.

Record OCRResultLine : Type := {
  words : list OCRResultWord;
  baseline : option (Z * Z * Z * Z);
}.

Record OCRResultParagraph : Type := {
  lines : list OCRResultLine;
}.

Record OCRResultBlock : Type := {
  paragraphs : list OCRResultParagraph;
}.

(** What the attribute [ocr_results] of a box can hold: [None], a block, or,
    after the [from_dict] of the six plain subclasses, the raw record taken
    from the input ([data.get("ocr_results")]). *)
Inductive OcrResults : Type :=
| NoResults
| Block (b : OCRResultBlock)
| RawRecord (v : PyVal).

(** Modelled from the spec: an [OCRResultBlock] object is true in a boolean
    context (the class is not among the sources; a Python object is true
    unless its class says otherwise). *)
Definition results_truthy (r : OcrResults) : bool :=
  match r with
  | NoResults => false
  | Block _ => true
  | RawRecord v => py_truthy v
  end.

(** ** Boxes *)

(** A reference to a box object, and a handle of a registered observer. *)
Abbreviation Ref := nat (only parsing).
Abbreviation Callback := nat (only parsing).

(** The state a subclass adds to the base class: [user_text], which the
    constructor of [TextBox] assigns, and [flows_into_next], which no
    constructor assigns: the attribute exists on an object once it has been
    assigned ([page.py] and the page editor do), and is [None] here until
    then. *)
Record TextState : Type := {
  user_text : string;
  flows_into_next : option bool;
}.

(** An [OCRBox] object.  [cls] is the class of the object, [type] its
    [BoxType] attribute; [text_state] is present exactly for a [TextBox].
    [user_data] is an attribute that [page.py] reads and assigns and no
    constructor assigns: [None] here is an object without the attribute,
    as every object is that [ocr_box.py] makes. *)
Record OCRBox : Type := {
  cls : BoxClass;
  id : string;
  order : Z;
  x : Z;
  y : Z;
  width : Z;
  height : Z;
  type : BoxType;
  class_ : string;
  tag : string;
  confidence : float;
  ocr_results : OcrResults;
  _callbacks : list Callback;
  _update_source : option string;
  text_state : option TextState;
  user_data : option (list (string * PyVal));
}.

Definition set_order (v : Z) (b : OCRBox) : OCRBox :=
  {| cls := cls b; id := id b; order := v; x := x b; y := y b;
     width := width b; height := height b; type := type b;
     class_ := class_ b; tag := tag b; confidence := confidence b;
     ocr_results := ocr_results b; _callbacks := _callbacks b;
     _update_source := _update_source b; text_state := text_state b;
     user_data := user_data b |}.

Definition set_id (v : string) (b : OCRBox) : OCRBox :=
  {| cls := cls b; id := v; order := order b; x := x b; y := y b;
     width := width b; height := height b; type := type b;
     class_ := class_ b; tag := tag b; confidence := confidence b;
     ocr_results := ocr_results b; _callbacks := _callbacks b;
     _update_source := _update_source b; text_state := text_state b;
     user_data := user_data b |}.

Definition set_x (v : Z) (b : OCRBox) : OCRBox :=
  {| cls := cls b; id := id b; order := order b; x := v; y := y b;
     width := width b; height := height b; type := type b;
     class_ := class_ b; tag := tag b; confidence := confidence b;
     ocr_results := ocr_results b; _callbacks := _callbacks b;
     _update_source := _update_source b; text_state := text_state b;
     user_data := user_data b |}.

Definition set_y (v : Z) (b : OCRBox) : OCRBox :=
  {| cls := cls b; id := id b; order := order b; x := x b; y := v;
     width := width b; height := height b; type := type b;
     class_ := class_ b; tag := tag b; confidence := confidence b;
     ocr_results := ocr_results b; _callbacks := _callbacks b;
     _update_source := _update_source b; text_state := text_state b;
     user_data := user_data b |}.

Definition set_width (v : Z) (b : OCRBox) : OCRBox :=
  {| cls := cls b; id := id b; order := order b; x := x b; y := y b;
     width := v; height := height b; type := type b;
     class_ := class_ b; tag := tag b; confidence := confidence b;
     ocr_results := ocr_results b; _callbacks := _callbacks b;
     _update_source := _update_source b; text_state := text_state b;
     user_data := user_data b |}.

Definition set_height (v : Z) (b : OCRBox) : OCRBox :=
  {| cls := cls b; id := id b; order := order b; x := x b; y := y b;
     width := width b; height := v; type := type b;
     class_ := class_ b; tag := tag b; confidence := confidence b;
     ocr_results := ocr_results b; _callbacks := _callbacks b;
     _update_source := _update_source b; text_state := text_state b;
     user_data := user_data b |}.

Definition set_type (v : BoxType) (b : OCRBox) : OCRBox :=
  {| cls := cls b; id := id b; order := order b; x := x b; y := y b;
     width := width b; height := height b; type := v;
     class_ := class_ b; tag := tag b; confidence := confidence b;
     ocr_results := ocr_results b; _callbacks := _callbacks b;
     _update_source := _update_source b; text_state := text_state b;
     user_data := user_data b |}.

Definition set_class_ (v : string) (b : OCRBox) : OCRBox :=
  {| cls := cls b; id := id b; order := order b; x := x b; y := y b;
     width := width b; height := height b; type := type b;
     class_ := v; tag := tag b; confidence := confidence b;
     ocr_results := ocr_results b; _callbacks := _callbacks b;
     _update_source := _update_source b; text_state := text_state b;
     user_data := user_data b |}.

Definition set_tag (v : string) (b : OCRBox) : OCRBox :=
  {| cls := cls b; id := id b; order := order b; x := x b; y := y b;
     width := width b; height := height b; type := type b;
     class_ := class_ b; tag := v; confidence := confidence b;
     ocr_results := ocr_results b; _callbacks := _callbacks b;
     _update_source := _update_source b; text_state := text_state b;
     user_data := user_data b |}.

Definition set_confidence (v : float) (b : OCRBox) : OCRBox :=
  {| cls := cls b; id := id b; order := order b; x := x b; y := y b;
     width := width b; height := height b; type := type b;
     class_ := class_ b; tag := tag b; confidence := v;
     ocr_results := ocr_results b; _callbacks := _callbacks b;
     _update_source := _update_source b; text_state := text_state b;
     user_data := user_data b |}.

Definition set_ocr_results (v : OcrResults) (b : OCRBox) : OCRBox :=
  {| cls := cls b; id := id b; order := order b; x := x b; y := y b;
     width := width b; height := height b; type := type b;
     class_ := class_ b; tag := tag b; confidence := confidence b;
     ocr_results := v; _callbacks := _callbacks b;
     _update_source := _update_source b; text_state := text_state b;
     user_data := user_data b |}.

Definition set__callbacks (v : list Callback) (b : OCRBox) : OCRBox :=
  {| cls := cls b; id := id b; order := order b; x := x b; y := y b;
     width := width b; height := height b; type := type b;
     class_ := class_ b; tag := tag b; confidence := confidence b;
     ocr_results := ocr_results b; _callbacks := v;
     _update_source := _update_source b; text_state := text_state b;
     user_data := user_data b |}.

Definition set__update_source (v : option string) (b : OCRBox) : OCRBox :=
  {| cls := cls b; id := id b; order := order b; x := x b; y := y b;
     width := width b; height := height b; type := type b;
     class_ := class_ b; tag := tag b; confidence := confidence b;
     ocr_results := ocr_results b; _callbacks := _callbacks b;
     _update_source := v; text_state := text_state b;
     user_data := user_data b |}.

Definition set_text_state (v : option TextState) (b : OCRBox) : OCRBox :=
  {| cls := cls b; id := id b; order := order b; x := x b; y := y b;
     width := width b; height := height b; type := type b;
     class_ := class_ b; tag := tag b; confidence := confidence b;
     ocr_results := ocr_results b; _callbacks := _callbacks b;
     _update_source := _update_source b; text_state := v;
     user_data := user_data b |}.

(** [box.user_data = v]: the assignment makes the attribute. *)
Definition set_user_data (v : list (string * PyVal)) (b : OCRBox) : OCRBox :=
  {| cls := cls b; id := id b; order := order b; x := x b; y := y b;
     width := width b; height := height b; type := type b;
     class_ := class_ b; tag := tag b; confidence := confidence b;
     ocr_results := ocr_results b; _callbacks := _callbacks b;
     _update_source := _update_source b; text_state := text_state b;
     user_data := Some v |}.

(** Writing the attributes [user_text] and [flows_into_next]. *)
Definition set_user_text (v : string) (b : OCRBox) : OCRBox :=
  set_text_state
    (Some {| user_text := v;
             flows_into_next :=
               match text_state b with
               | Some ts => flows_into_next ts
               | None => None
               end |}) b.

Definition set_flows_into_next (v : bool) (b : OCRBox) : OCRBox :=
  set_text_state
    (Some {| user_text :=
               match text_state b with
               | Some ts => user_text ts
               | None => ""
               end;
             flows_into_next := Some v |}) b.

(** [isinstance(box, TextBox)] *)
Definition is_TextBox (b : OCRBox) : bool := BoxClass_eqb (cls b) TextBox_cls.

(** The constructors [C(x, y, width, height, type)].  Every subclass
    constructor calls the base one and then sets [type]; [TextBox] also sets
    [user_text].  Neither assigns [user_data] or [flows_into_next].  The
    constructor draws a [uuid4] identity; each caller embedded here assigns
    [id] right after the construction, so the new object starts with the
    empty string. *)
Definition construct (c : BoxClass) (x0 y0 w0 h0 : Z) (t : BoxType) : OCRBox :=
  {| cls := c; id := ""; order := 0; x := x0; y := y0;
     width := w0; height := h0; type := t;
     class_ := ""; tag := ""; confidence := 0%float;
     ocr_results := NoResults; _callbacks := []; _update_source := None;
     text_state :=
       match c with
       | TextBox_cls => Some {| user_text := ""; flows_into_next := None |}
       | _ => None
       end;
     user_data := None |}.

(** The default of the constructor's [type] parameter, per class. *)
Definition default_type (c : BoxClass) : BoxType :=
  match c with
  | EquationBox_cls => EQUATION
  | TableBox_cls => TABLE
  | NoiseBox_cls => NOISE
  | CountBox_cls => COUNT
  | _ => UNKNOWN
  end.

#[global] Instance OCRBox_inhabited : Inhabited OCRBox :=
  populate (construct OCRBox_cls 0 0 0 0 UNKNOWN).

(** ** The page, its layout, and the program state *)

Definition Region : Type := (Z * Z * Z * Z)%type.

(** [PageLayout]: the box sequence holds references to box objects. *)
Record PageLayout : Type := {
  ocr_boxes : list Ref;
  region : Region;
  header_y : Z;
  footer_y : Z;
}.

(** The recognition backend ([ocr_processor.py], not among the sources), as
    the two calls [page.py] makes: [analyze_layout] returns new boxes,
    [recognize_boxes] updates the given box objects in place. *)
Record OCRProcessor : Type := {
  analyze_layout : string -> Region -> list OCRBox;
  recognize_boxes : string -> list Ref -> list OCRBox -> list OCRBox;
}.

Record Page : Type := {
  image_path : option string;
  page_order : Z;
  ocr_processor : option OCRProcessor;
  layout : PageLayout;
}.

Inductive LogEntry : Type :=
| LogInfo (msg : string)
| LogError (msg : string).

(** A call [callback(box)] made by [notify_callbacks]. *)
Record Call : Type := {
  call_callback : Callback;
  call_box : Ref;
}.

(** The store of box objects, the page, what [logger] received, and the
    observer calls made so far.  Observers belong to the editing surface:
    a call is recorded, what the observer then does is outside the model. *)
Record State : Type := {
  heap : list OCRBox;
  page : Page;
  log : list LogEntry;
  calls : list Call;
}.

Definition set_heap (h : list OCRBox) (s : State) : State :=
  {| heap := h; page := page s; log := log s; calls := calls s |}.

Definition set_page (p : Page) (s : State) : State :=
  {| heap := heap s; page := p; log := log s; calls := calls s |}.

Definition set_layout (l : PageLayout) (p : Page) : Page :=
  {| image_path := image_path p; page_order := page_order p;
     ocr_processor := ocr_processor p; layout := l |}.

Definition set_ocr_boxes (l : list Ref) (lay : PageLayout) : PageLayout :=
  {| ocr_boxes := l; region := region lay; header_y := header_y lay;
     footer_y := footer_y lay |}.

Definition set_region_field (r : Region) (lay : PageLayout) : PageLayout :=
  {| ocr_boxes := ocr_boxes lay; region := r; header_y := header_y lay;
     footer_y := footer_y lay |}.

Definition Py (A : Type) : Type := M State A.

Definition logger_info (msg : string) : Py unit :=
  modify (fun s => {| heap := heap s; page := page s;
                      log := log s ++ [LogInfo msg]; calls := calls s |}).

Definition logger_error (msg : string) : Py unit :=
  modify (fun s => {| heap := heap s; page := page s;
                      log := log s ++ [LogError msg]; calls := calls s |}).

Definition record_call (cb : Callback) (r : Ref) : Py unit :=
  modify (fun s => {| heap := heap s; page := page s; log := log s;
                      calls := calls s ++ [{| call_callback := cb;
                                              call_box := r |}] |}).

(** Reading and writing the object behind a reference. *)
Definition get_box (r : Ref) : Py OCRBox := gets (fun s => heap s !!! r).

Definition update_box (r : Ref) (f : OCRBox -> OCRBox) : Py unit :=
  modify (fun s => set_heap (alter f r (heap s)) s).

(** A new object: its reference is the next free slot of the store. *)
Definition alloc (b : OCRBox) : Py Ref :=
  fun s => (Ok (length (heap s)), set_heap (heap s ++ [b]) s).

Definition get_ocr_boxes : Py (list Ref) :=
  gets (fun s => ocr_boxes (layout (page s))).

Definition put_ocr_boxes (l : list Ref) : Py unit :=
  modify (fun s => set_page (set_layout (set_ocr_boxes l (layout (page s)))
                                        (page s)) s).

(** ** [ocr_box.py] *)

Definition option_string_eqb (a b : option string) : bool :=
  match a, b with
  | None, None => true
  | Some s1, Some s2 => String.eqb s1 s2
  | _, _ => false
  end.

(** [OCRBox.position] *)
Definition position (b : OCRBox) : PyVal :=
  PyDict [("x", PyInt (x b)); ("y", PyInt (y b));
          ("width", PyInt (width b)); ("height", PyInt (height b))].

(** [OCRBox.expand], [OCRBox.shrink] *)
Definition expand (expansion_amount : Z) (b : OCRBox) : OCRBox :=
  set_height (height b + 2 * expansion_amount)
    (set_width (width b + 2 * expansion_amount)
       (set_y (y b - expansion_amount) (set_x (x b - expansion_amount) b))).

Definition shrink (shrink_amount : Z) (b : OCRBox) : OCRBox :=
  set_height (height b - 2 * shrink_amount)
    (set_width (width b - 2 * shrink_amount)
       (set_y (y b + shrink_amount) (set_x (x b + shrink_amount) b))).

(** [OCRBox.contains], [OCRBox.intersects] *)
Definition contains (self other : OCRBox) : bool :=
  (x self <=? x other) && (y self <=? y other)
  && (x self + width self >=? x other + width other)
  && (y self + height self >=? y other + height other).

Definition intersects (self other : OCRBox) : bool :=
  (x self <? x other + width other) && (x self + width self >? x other)
  && (y self <? y other + height other) && (y self + height self >? y other).

(** The types for which [convert_to] drops the recognition result. *)
Definition drops_results (box_type : BoxType) : bool :=
  match box_type with
  | FLOWING_IMAGE | HEADING_IMAGE | PULLOUT_IMAGE | HORZ_LINE | VERT_LINE => true
  | _ => false
  end.

(** [OCRBox.convert_to], on the value of the receiver: the new object. *)
Definition convert_to_box (self : OCRBox) (box_type : BoxType) : result OCRBox :=
  match assoc_index BOX_TYPE_MAP (name box_type) with
  | Raise e => Raise e
  | Ok c =>
      let new_box := construct c (x self) (y self) (width self) (height self) box_type in
      let new_box := set_id (id self) new_box in
      let new_box := set_order (order self) new_box in
      let new_box := set_class_ (class_ self) new_box in
      let new_box := set_tag (tag self) new_box in
      let new_box := set_confidence (confidence self) new_box in
      if drops_results box_type
      then Ok (set_ocr_results NoResults new_box)
      else Ok (set_ocr_results (ocr_results self) new_box)
  end.

(** [OCRBox.convert_to]: the new object is put in the store and returned. *)
Definition convert_to (self : Ref) (box_type : BoxType) : Py Ref :=
  b <- get_box self ;;
  new_box <- lift_result (convert_to_box b box_type) ;;
  alloc new_box.

(** [OCRBox.add_callback] *)
Definition add_callback (self : Ref) (callback : Callback) : Py unit :=
  update_box self (fun b => set__callbacks (_callbacks b ++ [callback]) b).

(** [OCRBox.notify_callbacks] *)
Definition notify_callbacks (self : Ref) (source : option string) : Py unit :=
  b <- get_box self ;;
  if negb (option_string_eqb source (_update_source b))
  then for_each (_callbacks b) (fun callback => record_call callback self)
  else ret tt.

(** [OCRBox.update_position] *)
Definition update_position (self : Ref) (dx dy : Z) (source : option string)
  : Py unit :=
  b <- get_box self ;;
  let new_x := x b + dx in
  let new_y := y b + dy in
  logger_info "Updating box position" ;;;
  update_box self (set_x new_x) ;;;
  update_box self (set_y new_y) ;;;
  update_box self (set__update_source source) ;;;
  notify_callbacks self source ;;;
  update_box self (set__update_source None).

(** [OCRBox.update_size] *)
Definition update_size (self : Ref) (w h : Z) (source : option string)
  : Py unit :=
  logger_info "Updating box size" ;;;
  update_box self (set_width w) ;;;
  update_box self (set_height h) ;;;
  update_box self (set__update_source source) ;;;
  notify_callbacks self source ;;;
  update_box self (set__update_source None).

(** [OCRBox.similarity]: the division is Python's true division of two
    [int]s, the subtraction is that of two floats. *)
Definition similarity (self other : OCRBox) : result float :=
  match py_truediv (Z.abs (x self - x other) + Z.abs (y self - y other)
                    + Z.abs (width self - width other)
                    + Z.abs (height self - height other))
                   (width self + height self) with
  | Ok q => Ok (1 - q)%float
  | Raise e => Raise e
  end.

(** ** Records: [to_dict], [from_dict], [__eq__] *)

(** A value of a record as the typed box holds it: an [int] where the source
    annotates [int], and so on.  Python stores a value of any type; a value
    of another type leaves the model. *)
Definition as_int (v : PyVal) : result Z :=
  match v with PyInt z => Ok z | _ => Raise Unmodelled end.

Definition as_float (v : PyVal) : result float :=
  match v with PyFloat f => Ok f | _ => Raise Unmodelled end.

Definition as_str (v : PyVal) : result string :=
  match v with PyStr s => Ok s | _ => Raise Unmodelled end.

(** The value that [v[k]] indexes by a string key [k]: a [dict]; [None], a
    number, a string and a list raise [TypeError] there. *)
Definition as_dict (v : PyVal) : result (list (string * PyVal)) :=
  match v with PyDict d => Ok d | _ => Raise TypeError end.

Definition rbind {A B} (r : result A) (k : A -> result B) : result B :=
  match r with Ok a => k a | Raise e => Raise e end.

Notation "x <-r m ;; k" := (rbind m (fun x => k))
  (at level 100, m at next level, right associativity) : py_scope.

(** [d[k]] read at a type, and [d.get(k, default)] read at a type. *)
Definition index_as {A} (conv : PyVal -> result A) (d : list (string * PyVal))
    (k : string) : result A :=
  v <-r assoc_index d k ;; conv v.

Definition get_as {A} (conv : PyVal -> result A) (d : list (string * PyVal))
    (k : string) (default : A) : result A :=
  match assoc_get d k with
  | Some v => conv v
  | None => Ok default
  end.

(** [d.get(k, default)], the value as it is. *)
Definition dict_get (d : list (string * PyVal)) (k : string) (default : PyVal)
  : PyVal :=
  match assoc_get d k with
  | Some v => v
  | None => default
  end.

(** [BoxType[v]]: a member is looked up by its name.  A key that is not a
    string finds no member; the [KeyError] here carries a string, so such
    a key leaves the model. *)
Definition BoxType_getitem (v : PyVal) : result BoxType :=
  match v with
  | PyStr s => BoxType_of_name s
  | _ => Raise Unmodelled
  end.

(** [data.get("ocr_results")]: an absent key reads as [None]. *)
Definition get_ocr_results_data (d : list (string * PyVal)) : PyVal :=
  match assoc_get d "ocr_results" with
  | Some v => v
  | None => PyNone
  end.

Section Records.

(** [OCRResultBlock.to_dict] and [OCRResultBlock.from_dict], of
    [ocr_engine/ocr_result.py], which is not among the sources. *)
Variable block_to_dict : OCRResultBlock -> PyVal.
Variable block_from_dict : PyVal -> result OCRResultBlock.

(** [self.ocr_results.to_dict() if self.ocr_results else None]; a raw
    record (a [dict]) has no method [to_dict]. *)
Definition results_to_dict (r : OcrResults) : result PyVal :=
  match r with
  | NoResults => Ok PyNone
  | Block b => Ok (block_to_dict b)
  | RawRecord v =>
      if py_truthy v then Raise (AttributeError "to_dict") else Ok PyNone
  end.

(** [OCRBox.to_dict] *)
Definition OCRBox_to_dict (self : OCRBox) : result PyVal :=
  res <-r results_to_dict (ocr_results self) ;;
  Ok (PyDict [("id", PyStr (id self));
              ("position", position self);
              ("type", PyStr (name (type self)));
              ("class", PyStr (class_ self));
              ("tag", PyStr (tag self));
              ("confidence", PyFloat (confidence self));
              ("order", PyInt (order self));
              ("ocr_results", res)]).

(** [{**d, k: v}] *)
Definition dict_with (d : list (string * PyVal)) (k : string) (v : PyVal)
  : list (string * PyVal) :=
  match assoc_get d k with
  | Some _ => map (fun kv => if String.eqb (fst kv) k then (k, v) else kv) d
  | None => d ++ [(k, v)]
  end.

(** [to_dict], dispatched on the class of the object: [TextBox] adds
    [user_text], the other subclasses return the base record. *)
Definition to_dict (self : OCRBox) : result PyVal :=
  match cls self with
  | TextBox_cls =>
      base <-r OCRBox_to_dict self ;;
      d <-r as_dict base ;;
      match text_state self with
      | Some ts => Ok (PyDict (dict_with d "user_text" (PyStr (user_text ts))))
      | None => Raise (AttributeError "user_text")
      end
  | _ => OCRBox_to_dict self
  end.

(** [OCRBox.load_ocr_results] *)
Definition load_ocr_results (ocr_result_data : PyVal) : result OcrResults :=
  if negb (py_truthy ocr_result_data) then Ok NoResults
  else b <-r block_from_dict ocr_result_data ;; Ok (Block b).

(** [OCRBox.from_dict], as a class method run with class [c].  The reads
    are made in the order of the source and raise what the source raises,
    whatever the types of the values read; the values are given their types
    when every read has succeeded. *)
Definition OCRBox_from_dict (c : BoxClass) (data : PyVal) : result OCRBox :=
  d <-r as_dict data ;;
  position_data <-r index_as as_dict d "position" ;;
  vx <-r assoc_index position_data "x" ;;
  vy <-r assoc_index position_data "y" ;;
  vwidth <-r assoc_index position_data "width" ;;
  vheight <-r assoc_index position_data "height" ;;
  vid <-r assoc_index d "id" ;;
  let vorder := dict_get d "order" (PyInt 0) in
  vtype <-r assoc_index d "type" ;;
  t <-r BoxType_getitem vtype ;;
  let vclass := dict_get d "class" (PyStr "") in
  let vtag := dict_get d "tag" (PyStr "") in
  let vconfidence := dict_get d "confidence" (PyFloat 0%float) in
  res <-r load_ocr_results (get_ocr_results_data d) ;;
  px <-r as_int vx ;;
  py <-r as_int vy ;;
  pw <-r as_int vwidth ;;
  ph <-r as_int vheight ;;
  let box := construct c px py pw ph (default_type c) in
  v <-r as_str vid ;;
  let box := set_id v box in
  v <-r as_int vorder ;;
  let box := set_order v box in
  let box := set_type t box in
  v <-r as_str vclass ;;
  let box := set_class_ v box in
  v <-r as_str vtag ;;
  let box := set_tag v box in
  v <-r as_float vconfidence ;;
  let box := set_confidence v box in
  Ok (set_ocr_results res box).

(** [TextBox.from_dict] *)
Definition TextBox_from_dict (data : PyVal) : result OCRBox :=
  d <-r as_dict data ;;
  position_data <-r index_as as_dict d "position" ;;
  vx <-r assoc_index position_data "x" ;;
  vy <-r assoc_index position_data "y" ;;
  vwidth <-r assoc_index position_data "width" ;;
  vheight <-r assoc_index position_data "height" ;;
  vid <-r assoc_index d "id" ;;
  let vorder := dict_get d "order" (PyInt 0) in
  vtype <-r assoc_index d "type" ;;
  t <-r BoxType_getitem vtype ;;
  let vclass := dict_get d "class" (PyStr "") in
  let vtag := dict_get d "tag" (PyStr "") in
  let vconfidence := dict_get d "confidence" (PyFloat 0%float) in
  res <-r load_ocr_results (get_ocr_results_data d) ;;
  let vuser_text := dict_get d "user_text" (PyStr "") in
  px <-r as_int vx ;;
  py <-r as_int vy ;;
  pw <-r as_int vwidth ;;
  ph <-r as_int vheight ;;
  let box := construct TextBox_cls px py pw ph (default_type TextBox_cls) in
  v <-r as_str vid ;;
  let box := set_id v box in
  v <-r as_int vorder ;;
  let box := set_order v box in
  let box := set_type t box in
  v <-r as_str vclass ;;
  let box := set_class_ v box in
  v <-r as_str vtag ;;
  let box := set_tag v box in
  v <-r as_float vconfidence ;;
  let box := set_confidence v box in
  let box := set_ocr_results res box in
  v <-r as_str vuser_text ;;
  Ok (set_user_text v box).

(** [ImageBox.from_dict], and the same body in [LineBox], [EquationBox],
    [TableBox], [NoiseBox] and [CountBox]: the base method is run first,
    then a second object is built and its [ocr_results] is the value of
    the input record as it is.  The reads that follow the base method
    repeat reads that it has made. *)
Definition plain_from_dict (c : BoxClass) (data : PyVal) : result OCRBox :=
  ocr_box <-r OCRBox_from_dict c data ;;
  let box := construct c (x ocr_box) (y ocr_box) (width ocr_box)
                     (height ocr_box) (default_type c) in
  d <-r as_dict data ;;
  let box :=
    set_ocr_results
      (match get_ocr_results_data d with
       | PyNone => NoResults
       | v => RawRecord v
       end) box in
  v <-r index_as as_str d "id" ;;
  let box := set_id v box in
  v <-r as_int (dict_get d "order" (PyInt 0)) ;;
  let box := set_order v box in
  vtype <-r assoc_index d "type" ;;
  t <-r BoxType_getitem vtype ;;
  let box := set_type t box in
  v <-r as_str (dict_get d "class" (PyStr "")) ;;
  let box := set_class_ v box in
  v <-r as_str (dict_get d "tag" (PyStr "")) ;;
  let box := set_tag v box in
  v <-r as_float (dict_get d "confidence" (PyFloat 0%float)) ;;
  Ok (set_confidence v box).

(** [C.from_dict(data)] for each class [C]. *)
Definition from_dict (c : BoxClass) (data : PyVal) : result OCRBox :=
  match c with
  | OCRBox_cls => OCRBox_from_dict OCRBox_cls data
  | TextBox_cls => TextBox_from_dict data
  | _ => plain_from_dict c data
  end.

(** [a == b] on boxes: every class defines [__eq__] as an [isinstance]
    test against itself followed by the comparison of the two records, and
    Python asks the subclass first; so two objects of different classes
    are unequal and two of one class are compared by [to_dict]. *)
Definition box_eq (a b : OCRBox) : result bool :=
  if BoxClass_eqb (cls a) (cls b) then
    da <-r to_dict a ;;
    db <-r to_dict b ;;
    Ok (py_val_eqb da db)
  else Ok false.

(** [l.remove(value)]: the first item that is [value] or equals it goes;
    none is a [ValueError]. *)
Fixpoint py_remove (h : list OCRBox) (l : list Ref) (value : Ref)
  : result (list Ref) :=
  match l with
  | [] => Raise ValueError
  | item :: rest =>
      if (item =? value)%nat then Ok rest
      else
        e <-r box_eq (h !!! item) (h !!! value) ;;
        if (e : bool) then Ok rest
        else rest' <-r py_remove h rest value ;; Ok (item :: rest')
  end.

(** A recognition result that its own record brings back. *)
Definition results_round_trip (r : OcrResults) : Prop :=
  match r with
  | NoResults => True
  | Block blk =>
      py_truthy (block_to_dict blk) = true
      /\ block_from_dict (block_to_dict blk) = Ok blk
  | RawRecord _ => False
  end.

End Records.

(** ** [page_layout.py] *)

(** [PageLayout.get_page_region] *)
Definition get_page_region (lay : PageLayout) : Region :=
  match region lay with
  | (r0, _, r2, r3) => (r0, header_y lay, r2, r3 - header_y lay - footer_y lay)
  end.

(** [PageLayout.update_order] *)
Definition update_order : Py unit :=
  boxes <- get_ocr_boxes ;;
  for_each (enumerate boxes)
           (fun ib => update_box (snd ib) (set_order (fst ib))).

(** [PageLayout.sort_boxes] *)
Definition sort_boxes : Py unit :=
  boxes <- get_ocr_boxes ;;
  h <- gets heap ;;
  put_ocr_boxes (sort_by_key (fun r => order (h !!! r)) boxes) ;;;
  update_order.

(** [PageLayout.move_ocr_box] *)
Definition move_ocr_box (index new_index : Z) : Py unit :=
  boxes <- get_ocr_boxes ;;
  popped <- lift_result (py_pop boxes index) ;;
  put_ocr_boxes (snd popped) ;;;
  put_ocr_boxes (py_insert (snd popped) new_index (fst popped)) ;;;
  update_order.

(** [PageLayout.remove_ocr_box] *)
Definition remove_ocr_box (index : Z) : Py unit :=
  boxes <- get_ocr_boxes ;;
  popped <- lift_result (py_pop boxes index) ;;
  put_ocr_boxes (snd popped) ;;;
  update_order.

(** The loop of [PageLayout.remove_box_by_id] over [enumerate(self.ocr_boxes)],
    left by [return] at the first match. *)
Fixpoint remove_box_by_id_loop (items : list (Z * Ref)) (box_id : string)
  : Py unit :=
  match items with
  | [] => ret tt
  | (index, r) :: rest =>
      b <- get_box r ;;
      if String.eqb (id b) box_id then remove_ocr_box index
      else remove_box_by_id_loop rest box_id
  end.

(** [PageLayout.remove_box_by_id] *)
Definition remove_box_by_id (box_id : string) : Py unit :=
  boxes <- get_ocr_boxes ;;
  remove_box_by_id_loop (enumerate boxes) box_id.

(** [PageLayout.add_ocr_box] *)
Definition add_ocr_box (box : Ref) (index : option Z) : Py unit :=
  boxes <- get_ocr_boxes ;;
  match index with
  | None => put_ocr_boxes (boxes ++ [box])
  | Some i => put_ocr_boxes (py_insert boxes i box)
  end ;;;
  update_order.

(** [PageLayout.get_ocr_box] *)
Definition get_ocr_box (index : Z) : Py Ref :=
  boxes <- get_ocr_boxes ;;
  lift_result (py_getitem boxes index).

(** [PageLayout.get_ocr_box_by_id] *)
Fixpoint find_box_by_id (h : list OCRBox) (l : list Ref) (box_id : string)
  : option Ref :=
  match l with
  | [] => None
  | r :: rest =>
      if String.eqb (id (h !!! r)) box_id then Some r
      else find_box_by_id h rest box_id
  end.

Definition get_ocr_box_by_id (box_id : string) : Py (option Ref) :=
  boxes <- get_ocr_boxes ;;
  h <- gets heap ;;
  ret (find_box_by_id h boxes box_id).

(** [PageLayout.replace_ocr_box] *)
Definition replace_ocr_box (index : Z) (box : Ref) : Py unit :=
  boxes <- get_ocr_boxes ;;
  boxes' <- lift_result (py_setitem boxes index box) ;;
  put_ocr_boxes boxes'.

(** The public structural mutations of a layout, as one type. *)
Inductive LayoutOp : Type :=
| OpAdd (box : Ref) (index : option Z)
| OpRemove (index : Z)
| OpRemoveById (box_id : string)
| OpMove (index new_index : Z)
| OpReplace (index : Z) (box : Ref)
| OpSort.

Definition run_op (op : LayoutOp) : Py unit :=
  match op with
  | OpAdd box index => add_ocr_box box index
  | OpRemove index => remove_ocr_box index
  | OpRemoveById box_id => remove_box_by_id box_id
  | OpMove index new_index => move_ocr_box index new_index
  | OpReplace index box => replace_ocr_box index box
  | OpSort => sort_boxes
  end.

(** The [order] values of the boxes of the layout, in sequence. *)
Definition orders (s : State) : list Z :=
  map (fun r => order (heap s !!! r)) (ocr_boxes (layout (page s))).

(** [0, 1, ..., n-1] *)
Definition iota (n : nat) : list Z := map Z.of_nat (seq 0 n).

(** ** [page.py] *)

(** The settings read by [analyze_page] ([settings/settings.py] is not among
    the sources): the three keys it gets. *)
Record Settings : Type := {
  box_types : option (list Z);
  x_size_threshold : option Z;
  y_size_threshold : option Z;
}.

(** [Page.is_valid_box_index] *)
Definition is_valid_box_index (box_index : Z) : Py bool :=
  boxes <- get_ocr_boxes ;;
  ret ((0 <=? box_index) && (box_index <? Z.of_nat (length boxes))).

(** [not self.image_path]: [None] and the empty string are false. *)
Definition image_path_set (p : Page) : option string :=
  match image_path p with
  | Some path => if String.eqb path "" then None else Some path
  | None => None
  end.

(** [Page.convert_ocr_box] *)
Definition convert_ocr_box (box_index : Z) (box_type : BoxType) : Py unit :=
  valid <- is_valid_box_index box_index ;;
  if negb valid then logger_error "Invalid ocr_box index: %d"
  else
    boxes <- get_ocr_boxes ;;
    ocr_box <- lift_result (py_getitem boxes box_index) ;;
    new_box <- convert_to ocr_box box_type ;;
    boxes <- get_ocr_boxes ;;
    boxes' <- lift_result (py_setitem boxes box_index new_box) ;;
    put_ocr_boxes boxes'.

(** [d1.update(d2)] *)
Definition dict_update (d1 d2 : list (string * PyVal)) : list (string * PyVal) :=
  fold_left (fun d kv => dict_with d (fst kv) (snd kv)) d2 d1.

(** Reading [user_text] of an object. *)
Definition read_text_state (b : OCRBox) : result TextState :=
  match text_state b with
  | Some ts => Ok ts
  | None => Raise (AttributeError "user_text")
  end.

(** Reading [flows_into_next] and [user_data] of an object: an attribute
    that has not been assigned raises [AttributeError]. *)
Definition read_flows_into_next (b : OCRBox) : result bool :=
  match text_state b with
  | Some {| flows_into_next := Some f |} => Ok f
  | _ => Raise (AttributeError "flows_into_next")
  end.

Definition read_user_data (b : OCRBox) : result (list (string * PyVal)) :=
  match user_data b with
  | Some d => Ok d
  | None => Raise (AttributeError "user_data")
  end.

(** [self.layout.name(...)] for a name that [PageLayout] does not define:
    the lookup of the attribute raises, before any argument is evaluated. *)
Definition missing_method {A} (name : string) : Py A :=
  raise (AttributeError name).

(** [max(l, default=d)] *)
Definition py_max_default (l : list Z) (d : Z) : Z :=
  match l with
  | [] => d
  | a :: rest => fold_left Z.max rest a
  end.

(** The boxes a backend call returns are new objects. *)
Fixpoint alloc_all (bs : list OCRBox) : Py (list Ref) :=
  match bs with
  | [] => ret []
  | b :: rest => r <- alloc b ;; rs <- alloc_all rest ;; ret (r :: rs)
  end.

(** [r.paragraphs]: an attribute of a block, not of a raw record. *)
Definition results_paragraphs (r : OcrResults) : result (list OCRResultParagraph) :=
  match r with
  | Block b => Ok (paragraphs b)
  | _ => Raise (AttributeError "paragraphs")
  end.

Section PageOps.

Variable block_to_dict : OCRResultBlock -> PyVal.
(** [OCRResultBlock.get_text], not among the sources. *)
Variable block_get_text : OCRResultBlock -> string.
(** [BoxType.value], not among the sources. *)
Variable box_type_value : BoxType -> Z.
(** [ImagePreprocessor(path).erase_boxes(boxes, temp_dir)], not among the
    sources; it returns the path of the scratch image. *)
Variable erase_boxes : string -> list Region -> string.

(** [Page.merge_ocr_box_with_ocr_box].  Each attribute is read from the
    store when the source reads it, so that the writes to the first box
    are seen by the later reads (also when both indices name one object). *)
Definition merge_ocr_box_with_ocr_box (index1 index2 : Z) : Py unit :=
  valid1 <- is_valid_box_index index1 ;;
  valid2 <- is_valid_box_index index2 ;;
  if negb valid1 || negb valid2
  then logger_error "Invalid ocr_box index: %d or %d"
  else
    boxes <- get_ocr_boxes ;;
    ocr_box1 <- lift_result (py_getitem boxes index1) ;;
    ocr_box2 <- lift_result (py_getitem boxes index2) ;;
    b1 <- get_box ocr_box1 ;; b2 <- get_box ocr_box2 ;;
    update_box ocr_box1 (set_x (Z.min (x b1) (x b2))) ;;;
    b1 <- get_box ocr_box1 ;; b2 <- get_box ocr_box2 ;;
    update_box ocr_box1 (set_y (Z.min (y b1) (y b2))) ;;;
    b1 <- get_box ocr_box1 ;; b2 <- get_box ocr_box2 ;;
    update_box ocr_box1
      (set_width (Z.max (x b1 + width b1) (x b2 + width b2) - x b1)) ;;;
    b1 <- get_box ocr_box1 ;; b2 <- get_box ocr_box2 ;;
    update_box ocr_box1
      (set_height (Z.max (y b1 + height b1) (y b2 + height b2) - y b1)) ;;;
    b1 <- get_box ocr_box1 ;; b2 <- get_box ocr_box2 ;;
    update_box ocr_box1
      (set_confidence (py_max_float (confidence b1) (confidence b2))) ;;;
    b1 <- get_box ocr_box1 ;;
    data1 <- lift_result (read_user_data b1) ;;
    b2 <- get_box ocr_box2 ;;
    data2 <- lift_result (read_user_data b2) ;;
    update_box ocr_box1 (set_user_data (dict_update data1 data2)) ;;;
    b1 <- get_box ocr_box1 ;; b2 <- get_box ocr_box2 ;;
    (if results_truthy (ocr_results b1) && results_truthy (ocr_results b2)
     then
       p1 <- lift_result (results_paragraphs (ocr_results b1)) ;;
       p2 <- lift_result (results_paragraphs (ocr_results b2)) ;;
       update_box ocr_box1
         (set_ocr_results (Block {| paragraphs := p1 ++ p2 |}))
     else ret tt) ;;;
    b1 <- get_box ocr_box1 ;; b2 <- get_box ocr_box2 ;;
    (if is_TextBox b1 && is_TextBox b2
     then
       t1 <- lift_result (read_text_state b1) ;;
       t2 <- lift_result (read_text_state b2) ;;
       update_box ocr_box1
         (set_user_text (user_text t1 ++ " " ++ user_text t2)) ;;;
       b2 <- get_box ocr_box2 ;;
       flows <- lift_result (read_flows_into_next b2) ;;
       update_box ocr_box1 (set_flows_into_next flows)
     else ret tt) ;;;
    boxes <- get_ocr_boxes ;;
    h <- gets heap ;;
    boxes' <- lift_result (py_remove block_to_dict h boxes ocr_box2) ;;
    put_ocr_boxes boxes' ;;;
    notify_callbacks ocr_box1 (Some "Backend") ;;;
    logger_info "Merged box".

(** [TextBox.get_text] and [TextBox.has_text] *)
Definition get_text (b : OCRBox) : result string :=
  if results_truthy (ocr_results b) then
    match ocr_results b with
    | Block blk => Ok (block_get_text blk)
    | _ => Raise (AttributeError "get_text")
    end
  else Ok "".

Definition has_text (b : OCRBox) : result bool :=
  if negb (results_truthy (ocr_results b)) then Ok false
  else text <-r get_text b ;; Ok (0 <? Z.of_nat (String.length text)).

(** [Page.analyze_region] *)
Definition analyze_region (region : Region) : Py (list Ref) :=
  p <- gets page ;;
  match image_path_set p with
  | None => logger_error "No image path set for page" ;;; ret []
  | Some path =>
      match ocr_processor p with
      | Some proc =>
          alloc_all (analyze_layout proc path region)
      | None => raise (Exception "No OCR processor set for page")
      end
  end.

(** [Page.analyze_ocr_box_] *)
Definition analyze_ocr_box_ (box_index : Z) : Py (list Ref) :=
  valid <- is_valid_box_index box_index ;;
  if negb valid then logger_error "Invalid ocr_box index: %d" ;;; ret []
  else
    boxes <- get_ocr_boxes ;;
    region <- lift_result (py_getitem boxes box_index) ;;
    b <- get_box region ;;
    try_except (analyze_region (x b, y b, width b, height b))
      (fun e =>
         logger_error "Error analyzing layout for ocr_box at index %d: %s" ;;;
         ret []).

(** [Page.analyze_ocr_box] *)
Definition analyze_ocr_box (ocr_box_index : Z) : Py unit :=
  recognized_boxes <- analyze_ocr_box_ ocr_box_index ;;
  match recognized_boxes with
  | [recognized] =>
      boxes <- get_ocr_boxes ;;
      old <- lift_result (py_getitem boxes ocr_box_index) ;;
      b <- get_box old ;;
      update_box recognized (set_id (id b)) ;;;
      b <- get_box old ;;
      update_box recognized (set_order (order b)) ;;;
      b <- get_box old ;;
      update_box recognized (set__callbacks (_callbacks b)) ;;;
      b <- get_box old ;;
      data <- lift_result (read_user_data b) ;;
      update_box recognized (set_user_data data) ;;;
      boxes <- get_ocr_boxes ;;
      boxes' <- lift_result (py_setitem boxes ocr_box_index recognized) ;;
      put_ocr_boxes boxes' ;;;
      notify_callbacks recognized (Some "Backend")
  | _ =>
      remove_ocr_box ocr_box_index ;;;
      for_each recognized_boxes (fun r => add_ocr_box r None)
  end.

(** The loop of [Page.align_ocr_box] that keeps the most similar box. *)
Fixpoint best_of (h : list OCRBox) (current : OCRBox)
    (recognized_boxes : list Ref) (best_box : option Ref)
  : result (option Ref) :=
  match recognized_boxes with
  | [] => Ok best_box
  | r :: rest =>
      match best_box with
      | None => best_of h current rest (Some r)
      | Some best =>
          s1 <-r similarity (h !!! r) current ;;
          s2 <-r similarity (h !!! best) current ;;
          if PrimFloat.ltb s2 s1 then best_of h current rest (Some r)
          else best_of h current rest (Some best)
      end
  end.

(** [Page.align_ocr_box] *)
Definition align_ocr_box (ocr_box_index : Z) : Py unit :=
  recognized_boxes <- analyze_ocr_box_ ocr_box_index ;;
  match recognized_boxes with
  | [] => remove_ocr_box ocr_box_index
  | _ =>
      boxes <- get_ocr_boxes ;;
      h <- gets heap ;;
      current <- lift_result (py_getitem boxes ocr_box_index) ;;
      best_box <- lift_result (best_of h (h !!! current) recognized_boxes None) ;;
      match best_box with
      | Some best =>
          b <- get_box best ;; update_box current (set_x (x b)) ;;;
          b <- get_box best ;; update_box current (set_y (y b)) ;;;
          b <- get_box best ;; update_box current (set_width (width b)) ;;;
          b <- get_box best ;; update_box current (set_height (height b))
      | None => ret tt
      end
  end.

(** [Page.analyze_page].  [PageLayout] defines none of [set_region],
    [get_final_page_region] and [sort_ocr_boxes_by_order], so the call
    without a region raises at the first of them (once the image
    preprocessor, which is not among the sources, has been constructed),
    and the call with a region raises at the last, when the new boxes have
    got their orders and the layout its new box sequence. *)
Definition analyze_page (project_settings : option Settings)
    (region : option Region) (keep_existing_boxes : bool)
    (filter_by_box_types filter_by_size : bool) : Py (list Ref) :=
  p <- gets page ;;
  match image_path_set p with
  | None => logger_error "No image path set for page" ;;; ret []
  | Some path =>
      region <-
        match region with
        | Some r => ret r
        | None =>
            missing_method (A:=unit) "set_region" ;;;
            missing_method "get_final_page_region"
        end ;;
      p <- gets page ;;
      ocr_boxes <-
        match ocr_processor p with
        | Some proc =>
            alloc_all (analyze_layout proc path region)
        | None => raise (Exception "No OCR processor set for page")
        end ;;
      h <- gets heap ;;
      let ocr_boxes :=
        match project_settings with
        | Some settings =>
            let ocr_boxes :=
              if filter_by_box_types then
                match box_types settings with
                | Some types =>
                    List.filter
                      (fun r => existsb (Z.eqb (box_type_value (type (h !!! r))))
                                        types) ocr_boxes
                | None => ocr_boxes
                end
              else ocr_boxes in
            if filter_by_size then
              let xt := default 0 (x_size_threshold settings) in
              let yt := default 0 (y_size_threshold settings) in
              if (0 <? xt) || (0 <? yt) then
                List.filter (fun r => (xt <=? width (h !!! r))
                                      && (yt <=? height (h !!! r))) ocr_boxes
              else ocr_boxes
            else ocr_boxes
        | None => ocr_boxes
        end in
      existing <- get_ocr_boxes ;;
      let max_order :=
        py_max_default (map (fun r => order (h !!! r)) existing) (-1) in
      for_each (imap (fun i r => (max_order + 1 + Z.of_nat i, r)) ocr_boxes)
               (fun ib => update_box (snd ib) (set_order (fst ib))) ;;;
      (if keep_existing_boxes
       then put_ocr_boxes (existing ++ ocr_boxes)
       else put_ocr_boxes ocr_boxes) ;;;
      missing_method (A:=unit) "sort_ocr_boxes_by_order" ;;;
      ret ocr_boxes
  end.

(** [Page.recognize_ocr_boxes]; the progress callback is left out. *)
Definition recognize_ocr_boxes (box_index : option Z)
    (convert_empty_textboxes : bool) : Py unit :=
  p <- gets page ;;
  match image_path_set p with
  | None => logger_error "No image path set for page"
  | Some path =>
      valid <-
        match box_index with
        | Some i => is_valid_box_index i
        | None => ret true
        end ;;
      if negb valid then logger_error "Invalid ocr_box index: %d"
      else
        boxes <- get_ocr_boxes ;;
        boxes_to_recognize <-
          match box_index with
          | Some i => r <- lift_result (py_getitem boxes i) ;; ret [r]
          | None => ret boxes
          end ;;
        h <- gets heap ;;
        let image_boxes :=
          List.filter (fun r => negb (is_TextBox (h !!! r))
                                && BoxType_eqb (type (h !!! r)) IGNORE)
                      boxes_to_recognize in
        let erased_image_path :=
          erase_boxes path
            (map (fun r => (x (h !!! r), y (h !!! r),
                            width (h !!! r), height (h !!! r))) image_boxes) in
        match ocr_processor p with
        | None => raise (Exception "No OCR processor set for page")
        | Some proc =>
            modify (fun s => set_heap (recognize_boxes proc erased_image_path
                                         boxes_to_recognize (heap s)) s) ;;;
            logger_info "Recognized boxes" ;;;
            (if convert_empty_textboxes
                && match box_index with None => true | Some _ => false end
             then
               for_each (enumerate boxes)
                 (fun ib =>
                    current <- get_ocr_boxes ;;
                    ocr_box <- lift_result (py_getitem current (fst ib)) ;;
                    b <- get_box ocr_box ;;
                    if is_TextBox b then
                      t <- lift_result (has_text b) ;;
                      if negb t then convert_ocr_box (fst ib) FLOWING_IMAGE
                      else ret tt
                    else ret tt)
             else ret tt) ;;;
            (* with no index the list walked here is the layout's own list
               object, which [convert_ocr_box] has written to *)
            final <-
              match box_index with
              | Some _ => ret boxes_to_recognize
              | None => get_ocr_boxes
              end ;;
            for_each final
              (fun ocr_box =>
                 notify_callbacks ocr_box (Some "Backend") ;;;
                 b <- get_box ocr_box ;;
                 if is_TextBox b then update_box ocr_box (set_user_text "")
                 else ret tt)
        end
  end.

End PageOps.

(** ** [ocr_result_writer.py] *)

Section Writer.

(** [BeautifulSoup(s, "html.parser").get_text()], [str.strip],
    [str.lower] and [str.isupper] on a one-character string. *)
Variable bs_get_text : string -> string.
Variable str_strip : string -> string.
Variable str_lower : string -> string.
Variable chr_isupper : ascii -> bool.

(** [OCRResultWriter._check_hyphenated_word]: [True] is the decision to
    merge, [False] to keep the word split. *)
Definition _check_hyphenated_word (blacklist : option (list string))
    (first_part second_part : string) : result bool :=
  let first_part_stripped := str_strip (bs_get_text first_part) in
  let second_part_stripped := str_strip (bs_get_text second_part) in
  if match blacklist with
     | Some bl => existsb (String.eqb (str_lower second_part_stripped)) bl
     | None => false
     end
  then Ok false
  else
    match second_part_stripped with
    | EmptyString => Raise IndexError
    | String c _ => if chr_isupper c then Ok false else Ok true
    end.

(** The second fragment as the check sees it, and the two reasons to keep
    the word split. *)
Definition second_plain (second_part : string) : string :=
  str_strip (bs_get_text second_part).

Definition rejected (blacklist : option (list string)) (plain : string) : bool :=
  match blacklist with
  | Some bl => existsb (String.eqb (str_lower plain)) bl
  | None => false
  end.

Definition starts_upper (plain : string) : bool :=
  match plain with
  | String c _ => chr_isupper c
  | EmptyString => false
  end.

End Writer.

(** ** Stand-ins for the external collaborators, to run the model on examples *)

Definition ascii_isupper (c : ascii) : bool :=
  let n := nat_of_ascii c in ((65 <=? n) && (n <=? 90))%nat.

Definition ascii_lower_chr (c : ascii) : ascii :=
  if ascii_isupper c then ascii_of_nat (nat_of_ascii c + 32) else c.

Fixpoint ascii_lower (s : string) : string :=
  match s with
  | EmptyString => EmptyString
  | String c rest => String (ascii_lower_chr c) (ascii_lower rest)
  end.

Definition is_space (c : ascii) : bool :=
  let n := nat_of_ascii c in ((n =? 32) || ((9 <=? n) && (n <=? 13)))%nat.

Fixpoint lstrip (s : string) : string :=
  match s with
  | EmptyString => EmptyString
  | String c rest => if is_space c then lstrip rest else s
  end.

Fixpoint rstrip (s : string) : string :=
  match s with
  | EmptyString => EmptyString
  | String c rest =>
      match rstrip rest with
      | EmptyString => if is_space c then EmptyString else String c EmptyString
      | r => String c r
      end
  end.

Definition ascii_strip (s : string) : string := rstrip (lstrip s).

(** Text outside of [<...>] tags. *)
Fixpoint drop_tags (in_tag : bool) (s : string) : string :=
  match s with
  | EmptyString => EmptyString
  | String c rest =>
      if in_tag then drop_tags (negb (Ascii.eqb c ">")) rest
      else if Ascii.eqb c "<" then drop_tags true rest
      else String c (drop_tags false rest)
  end.

(** A block record that carries only the number of paragraphs. *)
Definition count_block_to_dict (b : OCRResultBlock) : PyVal :=
  PyDict [("paragraphs", PyInt (Z.of_nat (length (paragraphs b))))].

Definition count_block_from_dict (v : PyVal) : result OCRResultBlock :=
  d <-r as_dict v ;;
  n <-r index_as as_int d "paragraphs" ;;
  Ok {| paragraphs := repeat {| lines := [] |} (Z.to_nat n) |}.

Definition enum_value (t : BoxType) : Z :=
  match t with
  | UNKNOWN => 0 | FLOWING_TEXT => 1 | HEADING_TEXT => 2 | PULLOUT_TEXT => 3
  | EQUATION => 4 | INLINE_EQUATION => 5 | TABLE => 6 | VERTICAL_TEXT => 7
  | CAPTION_TEXT => 8 | FLOWING_IMAGE => 9 | HEADING_IMAGE => 10
  | PULLOUT_IMAGE => 11 | HORZ_LINE => 12 | VERT_LINE => 13 | NOISE => 14
  | COUNT => 15 | IGNORE => 16
  end.

Definition scratch_path (path : string) (boxes : list Region) : string :=
  path ++ ".erased".

Definition no_text (b : OCRResultBlock) : string := "".

Definition a_page (refs : list Ref) (path : option string)
    (proc : option OCRProcessor) : Page :=
  {| image_path := path; page_order := 0; ocr_processor := proc;
     layout := {| ocr_boxes := refs; region := (0, 0, 0, 0);
                  header_y := 0; footer_y := 0 |} |}.

Definition a_state (h : list OCRBox) (refs : list Ref) : State :=
  {| heap := h; page := a_page refs (Some "page.png") None;
     log := []; calls := [] |}.

(** ** Records of the layout and of the page *)

(** [Page.set_header], [Page.set_footer] *)
Definition set_header_y (v : Z) (lay : PageLayout) : PageLayout :=
  {| ocr_boxes := ocr_boxes lay; region := region lay; header_y := v;
     footer_y := footer_y lay |}.

Definition set_footer_y (v : Z) (lay : PageLayout) : PageLayout :=
  {| ocr_boxes := ocr_boxes lay; region := region lay;
     header_y := header_y lay; footer_y := v |}.

Definition modify_layout (f : PageLayout -> PageLayout) : Py unit :=
  modify (fun s => set_page (set_layout (f (layout (page s))) (page s)) s).

Definition set_header (header : Z) : Py unit := modify_layout (set_header_y header).

Definition set_footer (footer : Z) : Py unit := modify_layout (set_footer_y footer).

(** A region in a record.  The source stores the tuple itself; a record
    that went through JSON holds a list, and [Page.from_dict] applies
    [tuple(...)] to what it reads.  Tuple and list are one constructor here. *)
Definition region_to_val (r : Region) : PyVal :=
  match r with
  | (a, b, c, d) => PyList [PyInt a; PyInt b; PyInt c; PyInt d]
  end.

(** A region, a list of records and an image path as the typed layout and
    page hold them; a value of another shape leaves the model. *)
Definition as_region (v : PyVal) : result Region :=
  match v with
  | PyList [PyInt a; PyInt b; PyInt c; PyInt d] => Ok (a, b, c, d)
  | _ => Raise Unmodelled
  end.

Definition as_list (v : PyVal) : result (list PyVal) :=
  match v with PyList l => Ok l | _ => Raise Unmodelled end.

Definition as_opt_str (v : PyVal) : result (option string) :=
  match v with
  | PyNone => Ok None
  | PyStr s => Ok (Some s)
  | _ => Raise Unmodelled
  end.

(** The value on which [v.get(k, default)] is called: a [dict]; [None], a
    number, a string and a list have no attribute [get]. *)
Definition as_dict_get (v : PyVal) : result (list (string * PyVal)) :=
  match v with PyDict d => Ok d | _ => Raise (AttributeError "get") end.

(** [[f(x) for x in l]] *)
Fixpoint map_result {A B} (f : A -> result B) (l : list A) : result (list B) :=
  match l with
  | [] => Ok []
  | a :: rest => b <-r f a ;; bs <-r map_result f rest ;; Ok (b :: bs)
  end.

(** [BOX_TYPE_MAP[box_type] if box_type in BOX_TYPE_MAP else OCRBox] *)
Definition box_class_for (box_type : string) : BoxClass :=
  match assoc_get BOX_TYPE_MAP box_type with
  | Some c => c
  | None => OCRBox_cls
  end.

(** [Page(image_path, order)]: no backend, an empty layout. *)
Definition new_page (path : option string) (ord : Z) : Page :=
  {| image_path := path; page_order := ord; ocr_processor := None;
     layout := {| ocr_boxes := []; region := (0, 0, 0, 0);
                  header_y := 0; footer_y := 0 |} |}.

Section LayoutRecords.

Variable block_to_dict : OCRResultBlock -> PyVal.
Variable block_from_dict : PyVal -> result OCRResultBlock.

(** [PageLayout.to_dict] *)
Definition PageLayout_to_dict (h : list OCRBox) (lay : PageLayout)
  : result PyVal :=
  boxes <-r map_result (fun r => to_dict block_to_dict (h !!! r))
                       (ocr_boxes lay) ;;
  Ok (PyDict [("boxes", PyList boxes);
              ("region", region_to_val (region lay));
              ("header_y", PyInt (header_y lay));
              ("footer_y", PyInt (footer_y lay))]).

(** The comprehension of [PageLayout.from_dict]: every record is loaded
    with [OCRBox.from_dict], whatever its type. *)
Fixpoint load_base_boxes (records : list PyVal) : Py (list Ref) :=
  match records with
  | [] => ret []
  | box_data :: rest =>
      b <- lift_result (OCRBox_from_dict block_from_dict OCRBox_cls box_data) ;;
      r <- alloc b ;;
      rs <- load_base_boxes rest ;;
      ret (r :: rs)
  end.

(** [PageLayout.from_dict]: the new layout is returned, its boxes are new
    objects of the store. *)
Definition PageLayout_from_dict (data : PyVal) : Py PageLayout :=
  d <- lift_result (as_dict_get data) ;;
  reg <- lift_result (get_as as_region d "region" (0, 0, 0, 0)) ;;
  hy <- lift_result (get_as as_int d "header_y" 0) ;;
  fy <- lift_result (get_as as_int d "footer_y" 0) ;;
  records <- lift_result (get_as as_list d "boxes" []) ;;
  refs <- load_base_boxes records ;;
  ret {| ocr_boxes := refs; region := reg; header_y := hy; footer_y := fy |}.

(** [Page.to_dict] *)
Definition Page_to_dict (s : State) : result PyVal :=
  lay <-r PageLayout_to_dict (heap s) (layout (page s)) ;;
  Ok (PyDict
        [("page",
          PyDict [("image_path",
                   match image_path (page s) with
                   | Some path => PyStr path
                   | None => PyNone
                   end);
                  ("order", PyInt (page_order (page s)));
                  ("layout", lay)])]).

(** The body of the loop of [Page.from_dict]. *)
Definition load_box (box_data : PyVal) : Py unit :=
  bd <- lift_result (as_dict box_data) ;;
  box_type <- lift_result (index_as as_str bd "type") ;;
  ocr_box <- lift_result (from_dict block_from_dict (box_class_for box_type)
                                    box_data) ;;
  r <- alloc ocr_box ;;
  add_ocr_box r None.

(** [Page.from_dict].  The page that the class method builds and returns is
    the page of the state when the computation ends. *)
Definition Page_from_dict (data : PyVal) : Py unit :=
  d <- lift_result (as_dict data) ;;
  page_data <- lift_result (index_as as_dict d "page") ;;
  path <- lift_result (index_as as_opt_str page_data "image_path") ;;
  ord <- lift_result (get_as as_int page_data "order" 0) ;;
  modify (set_page (new_page path ord)) ;;;
  lay <- lift_result (index_as as_dict page_data "layout") ;;
  records <- lift_result (index_as as_list lay "boxes") ;;
  for_each records load_box ;;;
  lay <- lift_result (index_as as_dict page_data "layout") ;;
  reg <- lift_result (index_as as_region lay "region") ;;
  modify_layout (set_region_field reg) ;;;
  lay <- lift_result (index_as as_dict page_data "layout") ;;
  hy <- lift_result (get_as as_int lay "header_y" 0) ;;
  set_header hy ;;;
  lay <- lift_result (index_as as_dict page_data "layout") ;;
  fy <- lift_result (get_as as_int lay "footer_y" 0) ;;
  set_footer fy.

End LayoutRecords.

(** * The vocabulary of the properties *)

Definition add_calls (cs : list Call) (s : State) : State :=
  {| heap := heap s; page := page s; log := log s; calls := calls s ++ cs |}.

Definition calls_to (self : Ref) (cbs : list Callback) : list Call :=
  map (fun cb => {| call_callback := cb; call_box := self |}) cbs.

(** A box with one observer and no update in progress. *)
Definition observed_box : OCRBox :=
  set__callbacks [7%nat] (set_id "b0" (construct TextBox_cls 100 750 230 50 CAPTION_TEXT)).

(** The six subclasses whose [from_dict] has the body of [ImageBox.from_dict]. *)
Definition is_plain_subclass (c : BoxClass) : bool :=
  match c with
  | OCRBox_cls | TextBox_cls => false
  | _ => true
  end.

(** What a record keeps of a box: everything but the observers, the update
    source, the user data and the flow mark; the object made from the record
    has the last two attributes as little as any new object. *)
Definition persisted (b : OCRBox) : OCRBox :=
  {| cls := cls b; id := id b; order := order b; x := x b; y := y b;
     width := width b; height := height b; type := type b;
     class_ := class_ b; tag := tag b; confidence := confidence b;
     ocr_results := ocr_results b; _callbacks := []; _update_source := None;
     text_state :=
       match cls b, text_state b with
       | TextBox_cls, Some ts =>
           Some {| user_text := user_text ts; flows_into_next := None |}
       | TextBox_cls, None => Some {| user_text := ""; flows_into_next := None |}
       | _, _ => None
       end;
     user_data := None |}.

(** An equation box with a recognition result of one paragraph, as
    [convert_to(EQUATION)] makes it from a recognized text box. *)
Definition equation_with_result : OCRBox :=
  set_ocr_results (Block {| paragraphs := [{| lines := [] |}] |})
    (set_id "eq1" (construct EquationBox_cls 100 750 230 50 EQUATION)).

Definition box_at (x0 y0 w0 h0 : Z) : OCRBox :=
  construct OCRBox_cls x0 y0 w0 h0 UNKNOWN.

(** A property of the state that a computation keeps, also when it raises. *)
Definition preserves {A} (I : State -> Prop) (m : Py A) : Prop :=
  forall s, I s -> I (snd (m s)).

(** The geometry and confidence of the object behind a reference. *)
Definition geometry (b : OCRBox) : Z * Z * Z * Z := (x b, y b, width b, height b).

Definition has_geometry (r : Ref) (g : Z * Z * Z * Z) (c : float) (s : State)
  : Prop :=
  (r < length (heap s))%nat
  /\ geometry (heap s !!! r) = g /\ confidence (heap s !!! r) = c.

Definition valid_index (s : State) (i : Z) : bool :=
  (0 <=? i) && (i <? Z.of_nat (length (ocr_boxes (layout (page s))))).

(** The union bounding box of two boxes, as the spec words it: from the
    smaller left and top edges to the larger right and bottom edges. *)
Definition union_bbox (a b : OCRBox) : Z * Z * Z * Z :=
  let nx := Z.min (x a) (x b) in
  let ny := Z.min (y a) (y b) in
  (nx, ny,
   Z.max (x a + width a) (x b + width b) - nx,
   Z.max (y a + height a) (y b + height b) - ny).

Definition text_box_at (i : string) (x0 y0 w0 h0 : Z) (c : float) : OCRBox :=
  set_confidence c (set_id i (construct TextBox_cls x0 y0 w0 h0 FLOWING_TEXT)).

Definition merge_pair : State :=
  a_state [text_box_at "a" 10 0 5 5 0.5; text_box_at "b" 0 0 3 5 0.75]
          [0%nat; 1%nat].

Definition merge_triple : State :=
  a_state [text_box_at "a" 0 0 1 1 0.5; text_box_at "b" 5 0 1 1 0.75;
           text_box_at "c" (-1) 0 1 1 0.25]
          [0%nat; 1%nat; 2%nat].

(** The same boxes once [user_data] and [flows_into_next] have been assigned
    to each of them, as code outside of [ocr_box.py] can do. *)
Definition with_assigned_attributes (s : State) : State :=
  set_heap (map (fun b => set_flows_into_next false (set_user_data [] b))
                (heap s)) s.




(** The effect of [update_order] on the store: the box at position [k + i]
    of the walk gets the order [k + i]. *)
Fixpoint renumber_from (k : nat) (refs : list Ref) (h : list OCRBox)
  : list OCRBox :=
  match refs with
  | [] => h
  | r :: rest => renumber_from (S k) rest (alter (set_order (Z.of_nat k)) r h)
  end.

Definition with_ocr_boxes (l : list Ref) (s : State) : State :=
  set_page (set_layout (set_ocr_boxes l (layout (page s))) (page s)) s.

Definition renumbered (s : State) : State :=
  set_heap (renumber_from 0 (ocr_boxes (layout (page s))) (heap s)) s.

(** The boxes of the layout are distinct objects of the store. *)
Definition distinct_boxes (s : State) : Prop :=
  NoDup (ocr_boxes (layout (page s)))
  /\ forall r, r ∈ ocr_boxes (layout (page s)) -> (r < length (heap s))%nat.

(** The calls for which the code renumbers: [add] of a box that is in the
    store and not yet in the layout, [remove] and [move] with an index that
    [pop] accepts, [remove_box_by_id] with an id that some box has, and
    [sort].  [replace_ocr_box] is not among them. *)
Definition renumbering_call (op : LayoutOp) (s : State) : Prop :=
  let boxes := ocr_boxes (layout (page s)) in
  match op with
  | OpAdd box _ => (box ∉ boxes) /\ (box < length (heap s))%nat
  | OpRemove index | OpMove index _ =>
      in_range (length boxes) (norm_index (length boxes) index) = true
  | OpRemoveById box_id => exists r, r ∈ boxes /\ id (heap s !!! r) = box_id
  | OpReplace _ _ => False
  | OpSort => True
  end.

Definition ordered_box (i : string) (o : Z) : OCRBox :=
  set_order o (text_box_at i 0 (10 * o) 5 5 0.5).

Definition three_boxes : State :=
  a_state [ordered_box "a" 0; ordered_box "b" 1; ordered_box "c" 2]
          [0%nat; 1%nat; 2%nat].

Definition text_box_with_text : OCRBox :=
  set_user_text "edited by hand"
    (set_ocr_results (Block {| paragraphs := [{| lines := [] |}] |})
       (set_id "t1" (construct TextBox_cls 10 20 30 40 FLOWING_TEXT))).

(** A record as [to_dict] writes it, with a type that names no member of
    [BoxType], and a record without type whose fields hold values of other
    types than the source annotates. *)
Definition position_1234 : list (string * PyVal) :=
  [("x", PyInt 1); ("y", PyInt 2); ("width", PyInt 3); ("height", PyInt 4)].

Definition bogus_record : list (string * PyVal) :=
  [("id", PyStr "b1"); ("position", PyDict position_1234);
   ("type", PyStr "BOGUS"); ("class", PyStr ""); ("tag", PyStr "");
   ("confidence", PyFloat 0%float); ("order", PyInt 0);
   ("ocr_results", PyNone)].

Definition odd_position : list (string * PyVal) :=
  [("x", PyStr "1"); ("y", PyNone); ("width", PyFloat 3%float);
   ("height", PyInt 4)].

Definition odd_record : list (string * PyVal) :=
  [("id", PyInt 7); ("position", PyDict odd_position);
   ("order", PyStr "first")].

(** Three boxes whose [order] values are not in sequence. *)
Definition shuffled_boxes : State :=
  a_state [ordered_box "a" 2; ordered_box "b" 0; ordered_box "c" 1]
          [0%nat; 1%nat; 2%nat].

(** The state after [logger.error(msg)]. *)
Definition with_error (msg : string) (s : State) : State :=
  {| heap := heap s; page := page s; log := log s ++ [LogError msg];
     calls := calls s |}.

(** What [analyze_ocr_box_] returns for the box behind [r] and the state it
    leaves: the boxes of the backend as new objects, or nothing and a line in
    the log when the page has no image or no backend. *)
Definition analysis_of (r : Ref) (s : State) : list Ref * State :=
  match image_path_set (page s), ocr_processor (page s) with
  | None, _ => ([], with_error "No image path set for page" s)
  | Some path, None =>
      ([], with_error "Error analyzing layout for ocr_box at index %d: %s" s)
  | Some path, Some proc =>
      let bs := analyze_layout proc path (geometry (heap s !!! r)) in
      (seq (length (heap s)) (length bs), set_heap (heap s ++ bs) s)
  end.

(** A backend that finds the given boxes wherever it looks. *)
Definition fixed_backend (bs : list OCRBox) : OCRProcessor :=
  {| analyze_layout := fun _ _ => bs; recognize_boxes := fun _ _ h => h |}.

Definition with_backend (proc : OCRProcessor) (s : State) : State :=
  set_page {| image_path := image_path (page s);
              page_order := page_order (page s);
              ocr_processor := Some proc; layout := layout (page s) |} s.

(** What [OCRBox.from_dict] makes of the record of a box: a box of the base
    class with the fields that the record holds. *)
Definition base_copy (b : OCRBox) : OCRBox :=
  set_ocr_results (ocr_results b)
    (set_confidence (confidence b)
       (set_tag (tag b)
          (set_class_ (class_ b)
             (set_type (type b)
                (set_order (order b)
                   (set_id (id b)
                      (construct OCRBox_cls (x b) (y b) (width b) (height b)
                                 UNKNOWN))))))).

(** The state after [Page.from_dict] has added the boxes [bs] to a new
    page above the store [h0]: each is a new object, numbered by its
    position. *)
Definition loaded (h0 bs : list OCRBox) (s : State) : State :=
  set_heap (h0 ++ imap (fun j b => set_order (Z.of_nat j) b) bs)
           (with_ocr_boxes (seq (length h0) (length bs)) s).

(** [None] or a string, as a value of a record. *)
Definition opt_str_to_val (o : option string) : PyVal :=
  match o with
  | Some s => PyStr s
  | None => PyNone
  end.

(** The record that [Page.to_dict] builds, from its parts. *)
Definition page_record (path : PyVal) (ord : Z) (records : list PyVal)
    (reg : Region) (hy fy : Z) : PyVal :=
  PyDict
    [("page",
      PyDict [("image_path", path); ("order", PyInt ord);
              ("layout",
               PyDict [("boxes", PyList records);
                       ("region", region_to_val reg);
                       ("header_y", PyInt hy);
                       ("footer_y", PyInt fy)])])].

(** A box that [Page.from_dict] can bring back: of the base class or a
    [TextBox], of the class that the table gives for its type, and with a
    recognition result that its record brings back. *)
Definition reloadable (block_to_dict : OCRResultBlock -> PyVal)
    (block_from_dict : PyVal -> result OCRResultBlock) (b : OCRBox) : Prop :=
  (cls b = OCRBox_cls \/ cls b = TextBox_cls)
  /\ cls b = box_class_for (name (type b))
  /\ results_round_trip block_to_dict block_from_dict (ocr_results b).

(** A page with one text box that holds a recognition result and a text. *)
Definition text_page : State :=
  a_state [set_order 5 text_box_with_text] [0%nat].






(** The two filters of [analyze_page] as one test on a box. *)
Definition passes (box_type_value : BoxType -> Z) (settings : option Settings)
    (by_type by_size : bool) (b : OCRBox) : bool :=
  match settings with
  | None => true
  | Some st =>
      (if by_type then
         match box_types st with
         | Some types => existsb (Z.eqb (box_type_value (type b))) types
         | None => true
         end
       else true)
      && (if by_size then
            let xt := default 0 (x_size_threshold st) in
            let yt := default 0 (y_size_threshold st) in
            if (0 <? xt) || (0 <? yt)
            then (xt <=? width b) && (yt <=? height b)
            else true
          else true)
  end.

(** The effect on the store of numbering boxes from [v] on. *)
Fixpoint assign_from (v : Z) (refs : list Ref) (h : list OCRBox)
  : list OCRBox :=
  match refs with
  | [] => h
  | r :: rest => assign_from (v + 1) rest (alter (set_order v) r h)
  end.

Definition size_settings (xt yt : Z) : Settings :=
  {| box_types := None; x_size_threshold := Some xt;
     y_size_threshold := Some yt |}.

(** * Properties *)

(** Running the monad: unfold its operations and the state accessors. *)
Ltac py_unfold :=
  unfold bind, ret, raise, gets, modify, lift_result, get_box, update_box,
    alloc, get_ocr_boxes, put_ocr_boxes, logger_info, logger_error,
    record_call, set_heap, set_page.

Ltac py_run :=
  repeat (progress (py_unfold;
                    cbn [heap page layout ocr_boxes log calls fst snd negb
                         set_layout set_ocr_boxes image_path ocr_processor
                         page_order region header_y footer_y])).

(** ** Change notification *)

Lemma add_calls_nil s : add_calls [] s = s.
Proof. destruct s; unfold add_calls; simpl. by rewrite app_nil_r. Qed.

(** The loop of [notify_callbacks] calls the observers in list order. *)
Lemma for_each_record_call (self : Ref) (cbs : list Callback) (s : State) :
  for_each cbs (fun callback => record_call callback self) s
  = (Ok tt, add_calls (calls_to self cbs) s).
Proof.
  revert s. induction cbs as [|cb cbs IH]; intros s; simpl.
  - by rewrite add_calls_nil.
  - unfold bind, record_call, modify at 1. rewrite IH.
    f_equal. unfold add_calls; simpl. by rewrite <- app_assoc.
Qed.

Lemma notify_callbacks_run (self : Ref) (source : option string) (s : State) :
  notify_callbacks self source s
  = (Ok tt,
     if negb (option_string_eqb source (_update_source (heap s !!! self)))
     then add_calls (calls_to self (_callbacks (heap s !!! self))) s
     else s).
Proof.
  unfold notify_callbacks, bind, get_box, gets.
  destruct (negb _); [apply for_each_record_call | reflexivity].
Qed.

(** After [self._update_source = source], the guard of [notify_callbacks]
    compares [source] with itself. *)
Lemma option_string_eqb_refl (a : option string) : option_string_eqb a a = true.
Proof. destruct a as [s|]; simpl; [apply String.eqb_refl | reflexivity]. Qed.

Lemma notify_after_mark (self : Ref) (source : option string) (s : State) :
  notify_callbacks self source
    (set_heap (alter (set__update_source source) self (heap s)) s)
  = (Ok tt, set_heap (alter (set__update_source source) self (heap s)) s).
Proof.
  rewrite notify_callbacks_run. simpl.
  destruct (decide (self < length (heap s))%nat) as [Hlt|Hge].
  - rewrite list_lookup_total_alter_eq by exact Hlt. simpl.
    by rewrite option_string_eqb_refl.
  - rewrite !list_lookup_total_alt, list_lookup_alter_eq.
    rewrite lookup_ge_None_2 by lia. simpl.
    destruct (negb _); [|reflexivity]. by rewrite add_calls_nil.
Qed.

(** What the two update methods leave behind: the moved or resized box, its
    update source cleared, one more log line. *)
Lemma update_position_run (s : State) (self : Ref) (dx dy : Z)
    (source : option string) :
  update_position self dx dy source s
  = (Ok tt,
     {| heap := alter (set__update_source None) self
                  (alter (set__update_source source) self
                     (alter (set_y (y (heap s !!! self) + dy)) self
                        (alter (set_x (x (heap s !!! self) + dx)) self (heap s))));
        page := page s;
        log := log s ++ [LogInfo "Updating box position"];
        calls := calls s |}).
Proof.
  unfold update_position, bind, get_box, gets, logger_info, update_box, modify,
    set_heap.
  simpl.
  match goal with |- context [notify_callbacks self source ?st] =>
    pose proof (notify_after_mark self source
      {| heap := alter (set_y (y (heap s !!! self) + dy)) self
                   (alter (set_x (x (heap s !!! self) + dx)) self (heap s));
         page := page s;
         log := log s ++ [LogInfo "Updating box position"];
         calls := calls s |}) as Hn end.
  unfold set_heap in Hn; simpl in Hn. rewrite Hn. reflexivity.
Qed.

Lemma update_size_run (s : State) (self : Ref) (w h : Z)
    (source : option string) :
  update_size self w h source s
  = (Ok tt,
     {| heap := alter (set__update_source None) self
                  (alter (set__update_source source) self
                     (alter (set_height h) self
                        (alter (set_width w) self (heap s))));
        page := page s;
        log := log s ++ [LogInfo "Updating box size"];
        calls := calls s |}).
Proof.
  unfold update_size, bind, logger_info, update_box, modify, set_heap. simpl.
  match goal with |- context [notify_callbacks self source ?st] =>
    pose proof (notify_after_mark self source
      {| heap := alter (set_height h) self (alter (set_width w) self (heap s));
         page := page s;
         log := log s ++ [LogInfo "Updating box size"];
         calls := calls s |}) as Hn end.
  unfold set_heap in Hn; simpl in Hn. rewrite Hn. reflexivity.
Qed.

(** C1.  [update_position] and [update_size] always return, and neither makes
    a single observer call, whatever the box, its observers, its update
    source in progress and the source tag given: the line before the
    notification stores the tag that the notification then compares with.
    On a box with one observer and no update in progress, an update tagged
    GUI moves the box and calls nobody, where [notify_callbacks] with the
    same tag calls the observer. *)
Theorem update_never_notifies :
  (forall (s : State) (self : Ref) (a b : Z) (source : option string),
      fst (update_position self a b source s) = Ok tt
      /\ calls (snd (update_position self a b source s)) = calls s
      /\ fst (update_size self a b source s) = Ok tt
      /\ calls (snd (update_size self a b source s)) = calls s)
  /\ (let s := a_state [observed_box] [0%nat] in
      calls (snd (update_position 0%nat 5 7 (Some "GUI") s)) = []
      /\ x (heap (snd (update_position 0%nat 5 7 (Some "GUI") s)) !!! 0%nat) = 105
      /\ calls (snd (notify_callbacks 0%nat (Some "GUI") s))
         = [{| call_callback := 7%nat; call_box := 0%nat |}]).
Proof.
  split.
  - intros s self a b source.
    rewrite update_position_run, update_size_run. simpl. auto.
  - vm_compute. auto.
Qed.


(** ** Conversion *)

(** The table resolves every type but [IGNORE]. *)
Lemma BOX_TYPE_MAP_lookup (t : BoxType) :
  match assoc_index BOX_TYPE_MAP (name t) with
  | Ok _ => t <> IGNORE
  | Raise e => t = IGNORE /\ e = KeyError "IGNORE"
  end.
Proof. destruct t; simpl; try discriminate; auto. Qed.

(** What [convert_to] copies and what it leaves at the constructor's value. *)
Lemma convert_to_box_fields (b nb : OCRBox) (t : BoxType) :
  convert_to_box b t = Ok nb ->
  id nb = id b /\ order nb = order b /\ class_ nb = class_ b /\ tag nb = tag b
  /\ confidence nb = confidence b
  /\ (x nb, y nb, width nb, height nb) = (x b, y b, width b, height b)
  /\ type nb = t
  /\ ocr_results nb = (if drops_results t then NoResults else ocr_results b)
  /\ _callbacks nb = [] /\ _update_source nb = None /\ user_data nb = None.
Proof.
  unfold convert_to_box.
  destruct (assoc_index BOX_TYPE_MAP (name t)) as [c|e]; [|discriminate].
  destruct (drops_results t); intros [= <-]; simpl; repeat split; reflexivity.
Qed.

(** C5.  [convert_to] returns a box for every target type but [IGNORE], for
    which the class table has no entry and the lookup raises [KeyError].
    When it returns, the recognition result of the new box is [None] for the
    three image types and the two line types and the receiver's result for
    every other type. *)
Theorem convert_to_results (b : OCRBox) (t : BoxType) :
  match convert_to_box b t with
  | Ok nb =>
      t <> IGNORE
      /\ ocr_results nb = (if drops_results t then NoResults else ocr_results b)
  | Raise e => t = IGNORE /\ e = KeyError "IGNORE"
  end.
Proof.
  destruct (convert_to_box b t) as [nb|e] eqn:E.
  - split.
    + intros ->. discriminate E.
    + by apply convert_to_box_fields in E as (_ & _ & _ & _ & _ & _ & _ & ? & _).
  - unfold convert_to_box in E. pose proof (BOX_TYPE_MAP_lookup t) as H.
    destruct (assoc_index BOX_TYPE_MAP (name t)) as [c|e'].
    + destruct (drops_results t); discriminate.
    + injection E as <-. exact H.
Qed.

(** Indexing with an index that [is_valid_box_index] accepts. *)
Lemma in_range_valid (len : nat) (i : Z) :
  (0 <=? i) && (i <? Z.of_nat len) = true ->
  norm_index len i = i /\ in_range len i = true /\ (Z.to_nat i < len)%nat.
Proof.
  intros H. apply andb_true_iff in H as [H1 H2].
  apply Z.leb_le in H1. apply Z.ltb_lt in H2.
  unfold norm_index, in_range.
  destruct (i <? 0) eqn:E; [apply Z.ltb_lt in E; lia|].
  split; [reflexivity|]. split; [|lia].
  apply andb_true_iff. split; [by apply Z.leb_le | by apply Z.ltb_lt].
Qed.

Lemma py_getitem_valid {A} (l : list A) (i : Z) :
  (0 <=? i) && (i <? Z.of_nat (length l)) = true ->
  exists a, l !! Z.to_nat i = Some a /\ py_getitem l i = Ok a.
Proof.
  intros H. destruct (in_range_valid _ _ H) as (Hn & Hr & Hlt).
  destruct (lookup_lt_is_Some_2 l _ Hlt) as [a Ha].
  exists a. split; [exact Ha|].
  unfold py_getitem. by rewrite Hn, Hr, Ha.
Qed.

Lemma py_setitem_valid {A} (l : list A) (i : Z) (a : A) :
  (0 <=? i) && (i <? Z.of_nat (length l)) = true ->
  py_setitem l i a = Ok (<[Z.to_nat i := a]> l).
Proof.
  intros H. destruct (in_range_valid _ _ H) as (Hn & Hr & Hlt).
  unfold py_setitem. by rewrite Hn, Hr.
Qed.

(** [convert_ocr_box] with a valid index and a type the table resolves:
    the store gains the new object, the slot refers to it, and nothing else
    changes (the old object stays in the store as it was). *)
Lemma convert_ocr_box_run (s : State) (i : Z) (t : BoxType) (nb : OCRBox) :
  (0 <=? i) && (i <? Z.of_nat (length (ocr_boxes (layout (page s))))) = true ->
  (forall r, ocr_boxes (layout (page s)) !! Z.to_nat i = Some r ->
             convert_to_box (heap s !!! r) t = Ok nb) ->
  convert_ocr_box i t s
  = (Ok tt,
     {| heap := heap s ++ [nb];
        page := set_layout
                  (set_ocr_boxes
                     (<[Z.to_nat i := length (heap s)]> (ocr_boxes (layout (page s))))
                     (layout (page s)))
                  (page s);
        log := log s; calls := calls s |}).
Proof.
  intros Hv Hc.
  destruct (py_getitem_valid _ _ Hv) as (r & Hr & Hg).
  specialize (Hc r Hr).
  unfold convert_ocr_box, is_valid_box_index, convert_to. py_run.
  rewrite Hv. py_run. rewrite Hg. py_run. rewrite Hc. py_run.
  rewrite (py_setitem_valid _ _ _ Hv). reflexivity.
Qed.

(** C7.  The box [convert_to] returns has the receiver's [id] and [order] and
    an empty observer list, whatever observers the receiver has.  On a page
    with one box with one observer, [convert_ocr_box] leaves the old object
    as it was, puts the new object in the same slot of the layout, and the
    new object has no observer. *)
Theorem convert_drops_observers :
  (forall (b : OCRBox) (t : BoxType),
      match convert_to_box b t with
      | Ok nb => id nb = id b /\ order nb = order b /\ _callbacks nb = []
      | Raise _ => True
      end)
  /\ (let s := a_state [observed_box] [0%nat] in
      let s' := snd (convert_ocr_box 0 FLOWING_IMAGE s) in
      fst (convert_ocr_box 0 FLOWING_IMAGE s) = Ok tt
      /\ ocr_boxes (layout (page s')) = [1%nat]
      /\ heap s' !! 0%nat = Some observed_box
      /\ _callbacks observed_box = [7%nat]
      /\ _callbacks (heap s' !!! 1%nat) = []
      /\ id (heap s' !!! 1%nat) = id observed_box).
Proof.
  split.
  - intros b t. destruct (convert_to_box b t) as [nb|e] eqn:E; [|exact I].
    apply convert_to_box_fields in E. tauto.
  - vm_compute. repeat split; reflexivity.
Qed.


(** ** Similarity *)

(** The number of binary digits of a positive number. *)
Lemma digits2_pos_bounds (p : positive) :
  2 ^ (Z.pos (digits2_pos p) - 1) <= Z.pos p < 2 ^ Z.pos (digits2_pos p).
Proof.
  induction p as [p IH|p IH|]; cbn [digits2_pos].
  - rewrite Pos2Z.inj_succ.
    replace (Z.succ (Z.pos (digits2_pos p)) - 1)
      with (Z.succ (Z.pos (digits2_pos p) - 1)) by lia.
    rewrite !Z.pow_succ_r by lia. lia.
  - rewrite Pos2Z.inj_succ.
    replace (Z.succ (Z.pos (digits2_pos p)) - 1)
      with (Z.succ (Z.pos (digits2_pos p) - 1)) by lia.
    rewrite !Z.pow_succ_r by lia. lia.
  - cbn. lia.
Qed.

Lemma Zdigits2_nonneg (m : Z) : 0 <= Zdigits2 m.
Proof. destruct m; cbn; lia. Qed.

(** A number below [2 ^ k] has at most [k] binary digits. *)
Lemma Zdigits2_le (m k : Z) : 0 <= m < 2 ^ k -> 0 <= k -> Zdigits2 m <= k.
Proof.
  intros [H0 Hlt] Hk. destruct m as [|p|p]; [exact Hk | | lia].
  cbn [Zdigits2]. pose proof (digits2_pos_bounds p) as [Hlo _].
  assert (2 ^ (Z.pos (digits2_pos p) - 1) < 2 ^ k) as H by lia.
  apply Z.pow_lt_mono_r_iff in H; lia.
Qed.

Lemma Zdigits2_lt_pow (m : Z) : 0 <= m -> m < 2 ^ Zdigits2 m.
Proof.
  intros H0. destruct m as [|p|p]; [cbn; lia | | lia].
  apply digits2_pos_bounds.
Qed.

Lemma Zdigits2_pow_le (m : Z) : 0 < m -> 2 ^ (Zdigits2 m - 1) <= m.
Proof.
  intros H0. destruct m as [|p|p]; [lia | | lia].
  apply digits2_pos_bounds.
Qed.

Lemma shr_1_bound (mrs : shr_record) :
  0 <= shr_m mrs -> 0 <= shr_m (shr_1 mrs) /\ 2 * shr_m (shr_1 mrs) <= shr_m mrs.
Proof.
  destruct mrs as [m r s]. cbn [shr_m shr_1].
  destruct m as [|[p|p|]|p]; cbn [shr_m]; lia.
Qed.

Lemma iter_pos_shr_1_bound (p : positive) (mrs : shr_record) :
  0 <= shr_m mrs ->
  0 <= shr_m (SpecFloat.iter_pos shr_1 p mrs)
  /\ 2 ^ Z.pos p * shr_m (SpecFloat.iter_pos shr_1 p mrs) <= shr_m mrs.
Proof.
  revert mrs. induction p as [p IH|p IH|]; intros mrs H0; cbn [SpecFloat.iter_pos].
  - destruct (shr_1_bound mrs H0) as [Ha1 Ha2].
    destruct (IH _ Ha1) as [Hb1 Hb2]. destruct (IH _ Hb1) as [Hc1 Hc2].
    split; [exact Hc1|].
    replace (Z.pos p~1) with (Z.pos p + Z.pos p + 1) by lia.
    rewrite !Z.pow_add_r, Z.pow_1_r by lia.
    assert (0 < 2 ^ Z.pos p) by (apply Z.pow_pos_nonneg; lia). nia.
  - destruct (IH _ H0) as [Hb1 Hb2]. destruct (IH _ Hb1) as [Hc1 Hc2].
    split; [exact Hc1|].
    replace (Z.pos p~0) with (Z.pos p + Z.pos p) by lia.
    rewrite !Z.pow_add_r by lia.
    assert (0 < 2 ^ Z.pos p) by (apply Z.pow_pos_nonneg; lia). nia.
  - rewrite Z.pow_1_r. apply shr_1_bound, H0.
Qed.

Lemma fexp_le (k : Z) : k <= 1024 -> fexp prec emax k <= 971.
Proof. unfold fexp, SpecFloat.emin, prec, emax. lia. Qed.

Lemma round_nearest_even_bound (m : Z) (l : location) :
  m <= round_nearest_even m l <= m + 1.
Proof.
  unfold round_nearest_even.
  destruct l as [|[| |]]; try destruct (IntDef.Z.even m); lia.
Qed.

(** One shift to the canonical exponent: the mantissa stays non-negative and
    digits plus exponent do not grow. *)
Lemma shr_fexp_bound (m e : Z) (l : location) (k : Z) :
  0 <= m -> Zdigits2 m + e <= k -> k <= 1024 -> e <= 971 ->
  let '(mrs, e') := shr_fexp prec emax m e l in
  0 <= shr_m mrs /\ Zdigits2 (shr_m mrs) + e' <= Z.max k 971 /\ e' <= 971
  /\ (Zdigits2 (shr_m mrs) + e' <= k \/ shr_m mrs = 0).
Proof.
  intros H0 Hk Hk' He. unfold shr_fexp, shr.
  assert (shr_m (shr_record_of_loc m l) = m) as Hm
    by (destruct l as [|[| |]]; reflexivity).
  destruct (fexp prec emax (Zdigits2 m + e) - e) as [|n|n] eqn:En.
  - rewrite Hm. repeat split; try lia. 
  - pose proof (iter_pos_shr_1_bound n (shr_record_of_loc m l)) as Hb.
    rewrite Hm in Hb. destruct (Hb H0) as [Hb1 Hb2].
    set (m' := shr_m (SpecFloat.iter_pos shr_1 n (shr_record_of_loc m l))) in *.
    assert (e + Z.pos n <= 971) as He' by (pose proof (fexp_le (Zdigits2 m + e)); lia).
    split; [exact Hb1|].
    assert (Zdigits2 m' + (e + Z.pos n) <= k \/ m' = 0) as Hor.
    { destruct (Z.eq_dec m' 0) as [E|E]; [right; exact E | left].
      assert (0 < m') as Hpos by lia.
      pose proof (Zdigits2_pow_le m' Hpos) as Hlo.
      pose proof (Zdigits2_lt_pow m H0) as Hhi.
      assert (2 ^ Z.pos n * 2 ^ (Zdigits2 m' - 1) < 2 ^ Zdigits2 m) as Hlt.
      { assert (0 < 2 ^ Z.pos n) by (apply Z.pow_pos_nonneg; lia). nia. }
      pose proof (Zdigits2_nonneg m') as Hd'.
      assert (1 <= Zdigits2 m') as Hd1.
      { destruct m' as [|q|q]; [lia | cbn; lia | lia]. }
      rewrite <- Z.pow_add_r in Hlt by lia.
      apply Z.pow_lt_mono_r_iff in Hlt; [lia | lia | apply Zdigits2_nonneg]. }
    split; [|split; [exact He' | exact Hor]].
    destruct Hor as [Hor| ->]; [lia|]. cbn [Zdigits2]. lia.
  - rewrite Hm. repeat split; try lia.
Qed.

Lemma round_nearest_even_digits (m : Z) (l : location) :
  0 <= m -> Zdigits2 (round_nearest_even m l) <= Zdigits2 m + 1.
Proof.
  intros H0. pose proof (round_nearest_even_bound m l) as [Hlo Hhi].
  pose proof (Zdigits2_lt_pow m H0) as Hm.
  pose proof (Zdigits2_nonneg m) as Hd.
  apply Zdigits2_le; [|lia].
  split; [lia|]. rewrite Z.pow_add_r, Z.pow_1_r by lia. lia.
Qed.

(** Rounding a non-negative mantissa whose digits and exponent stay below
    the largest exponent of the format does not overflow. *)
Lemma binary_round_aux_finite (sx : bool) (mx ex : Z) (lx : location) :
  0 <= mx -> Zdigits2 mx + ex <= 1023 -> ex <= 971 ->
  match binary_round_aux prec emax sx mx ex lx with
  | S754_infinity _ | S754_nan => False
  | _ => True
  end.
Proof.
  intros H0 Hk He. unfold binary_round_aux.
  pose proof (shr_fexp_bound mx ex lx 1023 H0 Hk ltac:(lia) He) as H1.
  destruct (shr_fexp prec emax mx ex lx) as [mrs1 e1].
  destruct H1 as (Hm1 & _ & He1 & Hor1).
  set (mb := round_nearest_even (shr_m mrs1) (loc_of_shr_record mrs1)).
  assert (0 <= mb) as Hmb
    by (pose proof (round_nearest_even_bound (shr_m mrs1)
                      (loc_of_shr_record mrs1)); unfold mb; lia).
  assert (Zdigits2 mb + e1 <= 1024) as Hk2.
  { pose proof (round_nearest_even_digits (shr_m mrs1)
                  (loc_of_shr_record mrs1) Hm1) as Hd. fold mb in Hd.
    destruct Hor1 as [Hor1|Hz]; [lia|].
    rewrite Hz in Hd. cbn [Zdigits2] in Hd. lia. }
  pose proof (shr_fexp_bound mb e1 loc_Exact 1024 Hmb Hk2 ltac:(lia) He1) as H2.
  destruct (shr_fexp prec emax mb e1 loc_Exact) as [mrs2 e2].
  destruct H2 as (Hm2 & _ & He2 & _).
  destruct (shr_m mrs2) as [|p|p]; [exact I | | lia].
  assert ((e2 <=? emax - prec) = true) as ->
    by (apply Z.leb_le; unfold emax, prec; lia).
  exact I.
Qed.

(** The quotient of two integers, the dividend below [2 ^ 1023], is a float. *)
Lemma SFdiv_finite (sx sy : bool) (mx my : positive) :
  Z.pos mx < 2 ^ 1023 ->
  match SFdiv prec emax (S754_finite sx mx 0) (S754_finite sy my 0) with
  | S754_infinity _ | S754_nan => False
  | _ => True
  end.
Proof.
  intros Hlt. unfold SFdiv, SFdiv_core_binary.
  set (d1 := Zdigits2 (Z.pos mx)). set (d2 := Zdigits2 (Z.pos my)).
  set (e' := IntDef.Z.min (fexp prec emax (d1 + 0 - (d2 + 0))) (0 - 0)).
  assert (e' <= 0) as He' by (unfold e'; change IntDef.Z.min with Z.min; lia).
  set (m' := match 0 - 0 - e' with
             | 0 => Z.pos mx
             | Z.pos _ => IntDef.Z.shiftl (Z.pos mx) (0 - 0 - e')
             | Z.neg _ => 0
             end).
  assert (m' = Z.pos mx * 2 ^ (- e')) as Hm'.
  { unfold m'. replace (0 - 0 - e') with (- e') by lia.
    destruct (- e') as [|s|s] eqn:Es; [lia | | lia].
    change IntDef.Z.shiftl with Z.shiftl.
    rewrite Z.shiftl_mul_pow2 by lia. reflexivity. }
  destruct (IntDef.Z.div_eucl m' (Z.pos my)) as [q r] eqn:Ediv.
  assert (q = m' / Z.pos my) as Hq
    by (unfold Z.div; change Z.div_eucl with IntDef.Z.div_eucl; rewrite Ediv; reflexivity).
  assert (0 < 2 ^ (- e')) as Hpow by (apply Z.pow_pos_nonneg; lia).
  assert (0 <= q <= m') as [Hq0 Hqm].
  { rewrite Hq. split; [apply Z.div_pos; nia|].
    apply Z.div_le_upper_bound; nia. }
  apply binary_round_aux_finite; [exact Hq0 | | lia].
  enough (Zdigits2 q <= 1023 - e') by lia.
  apply Zdigits2_le; [|lia]. split; [exact Hq0|].
  replace (1023 - e') with (1023 + - e') by lia.
  rewrite Z.pow_add_r by lia. nia.
Qed.

(** True division of a dividend below [2 ^ 1023] in absolute value by a
    divisor other than zero returns. *)
Lemma py_truediv_returns (a b : Z) :
  0 <= a -> a < 2 ^ 1023 -> b <> 0 -> exists q, py_truediv a b = Ok q.
Proof.
  intros Ha Hlt Hb. unfold py_truediv.
  destruct (Z.eqb_spec b 0) as [E|_]; [contradiction|].
  destruct a as [|pa|pa]; [|..]; [| |lia].
  - destruct b as [|pb|pb]; [contradiction| |]; by eexists.
  - destruct b as [|pb|pb]; [contradiction| |]; cbn [Z2SF].
    + pose proof (SFdiv_finite false false pa pb Hlt) as H.
      destruct (SFdiv prec emax _ _); try contradiction; by eexists.
    + pose proof (SFdiv_finite false true pa pb Hlt) as H.
      destruct (SFdiv prec emax _ _); try contradiction; by eexists.
Qed.

(** C9, as amended.  [similarity] raises [ZeroDivisionError] exactly when the
    receiver's width plus height is zero.  When that sum is not zero the
    call is still not defined for every other box: the quotient
    (|dx| + |dy| + |dwidth| + |dheight|) / (width + height) is rounded to a
    binary64 float, and when it is beyond the largest float the division
    raises [OverflowError]; otherwise the call returns 1.0 minus the rounded
    quotient.  No other exception is raised, and none at all when the sum of
    the four differences is below 2^1023.  When the other box has the
    geometry of the receiver the result is exactly 1.0. *)
Theorem similarity_defined (self other : OCRBox) :
  let num := Z.abs (x self - x other) + Z.abs (y self - y other)
             + Z.abs (width self - width other)
             + Z.abs (height self - height other) in
  let den := width self + height self in
  (similarity self other = Raise ZeroDivisionError <-> den = 0)
  /\ (forall e, similarity self other = Raise e ->
                (e = ZeroDivisionError /\ den = 0)
                \/ (e = OverflowError /\ den <> 0 /\ 2 ^ 1023 <= num))
  /\ (den <> 0 ->
      match SFdiv prec emax (Z2SF num) (Z2SF den) with
      | S754_infinity _ => similarity self other = Raise OverflowError
      | q => similarity self other = Ok (1 - SF2Prim q)%float
      end)
  /\ (den <> 0 -> num < 2 ^ 1023 ->
      exists q, py_truediv num den = Ok q
                /\ similarity self other = Ok (1 - q)%float)
  /\ (den <> 0 -> num = 0 -> similarity self other = Ok 1%float).
Proof.
  cbv zeta.
  set (num := Z.abs (x self - x other) + Z.abs (y self - y other)
              + Z.abs (width self - width other)
              + Z.abs (height self - height other)).
  set (den := width self + height self).
  assert (Hsmall : den <> 0 -> num < 2 ^ 1023 ->
                   exists q, py_truediv num den = Ok q).
  { intros Hd Hn. destruct (py_truediv_returns num den) as [q Hq];
      [unfold num; lia | exact Hn | exact Hd |]. by exists q. }
  unfold similarity. fold num den. unfold py_truediv in *.
  destruct (den =? 0) eqn:E.
  - apply Z.eqb_eq in E. repeat split; auto; intros; try contradiction.
    left. split; [congruence | exact E].
  - apply Z.eqb_neq in E. split; [|split; [|split; [|split]]].
    + split; [|intros; contradiction].
      destruct (SFdiv prec emax (Z2SF num) (Z2SF den)); discriminate.
    + intros e He. right.
      destruct (Z_lt_le_dec num (2 ^ 1023)) as [Hn|Hn].
      * destruct (Hsmall E Hn) as [q Hq]. rewrite Hq in He. discriminate.
      * split; [|split; [exact E | exact Hn]].
        destruct (SFdiv prec emax (Z2SF num) (Z2SF den)); congruence.
    + intros _. destruct (SFdiv prec emax (Z2SF num) (Z2SF den)); reflexivity.
    + intros _ Hn. destruct (Hsmall E Hn) as [q Hq]. exists q.
      rewrite Hq. split; reflexivity.
    + intros _ Hz. rewrite Hz.
      destruct den as [|p|p]; [contradiction| |]; reflexivity.
Qed.

Lemma similarity_defined_witness :
  width (box_at 0 0 10 10) + height (box_at 0 0 10 10) <> 0
  /\ similarity (box_at 0 0 10 10) (box_at 1 2 8 10) = Ok 0.75%float.
Proof.
  split; [vm_compute; discriminate|].
  apply (proj1 (proj2 (proj2 (similarity_defined (box_at 0 0 10 10)
                                                 (box_at 1 2 8 10))))).
  vm_compute; discriminate.
Defined.

(** A receiver of width plus height 2 and a box far away: the quotient is
    beyond the largest float and the call raises.  And a receiver 2^60 wide
    next to a box one pixel to the right: the rounded quotient is 2^-60 and
    the result is 1.0, where the exact value is below 1. *)
Lemma similarity_overflows :
  width (box_at 0 0 1 1) + height (box_at 0 0 1 1) <> 0
  /\ similarity (box_at 0 0 1 1) (box_at (10 ^ 400) 0 1 1) = Raise OverflowError
  /\ similarity (box_at 0 0 (2 ^ 60) 0) (box_at 1 0 (2 ^ 60) 0) = Ok 1%float.
Proof. split; [discriminate|]. split; vm_compute; reflexivity. Qed.


(** ** Record round trip *)

Lemma BoxType_of_name_name (t : BoxType) : BoxType_of_name (name t) = Ok t.
Proof. destruct t; reflexivity. Qed.

Section RecordFacts.

Variable block_to_dict : OCRResultBlock -> PyVal.
Variable block_from_dict : PyVal -> result OCRResultBlock.

Local Abbreviation results_round_trip :=
  (results_round_trip block_to_dict block_from_dict).

Lemma load_ocr_results_round_trip (r : OcrResults) (v : PyVal) :
  results_round_trip r ->
  results_to_dict block_to_dict r = Ok v ->
  load_ocr_results block_from_dict v = Ok r.
Proof.
  destruct r as [|blk|raw]; simpl; [| |contradiction].
  - intros _ [= <-]. reflexivity.
  - intros [Ht Hf] [= <-]. unfold load_ocr_results. by rewrite Ht, Hf.
Qed.

Lemma OCRBox_from_dict_to_dict (c : BoxClass) (b : OCRBox) (d : PyVal) :
  results_round_trip (ocr_results b) ->
  OCRBox_to_dict block_to_dict b = Ok d ->
  OCRBox_from_dict block_from_dict c d
  = Ok (set_ocr_results (ocr_results b)
          (set_confidence (confidence b)
             (set_tag (tag b)
                (set_class_ (class_ b)
                   (set_type (type b)
                      (set_order (order b)
                         (set_id (id b)
                            (construct c (x b) (y b) (width b) (height b)
                                     (default_type c))))))))).
Proof.
  intros Hr. unfold OCRBox_to_dict.
  destruct (results_to_dict block_to_dict (ocr_results b)) as [v|e] eqn:Ev;
    [|discriminate].
  intros [= <-].
  pose proof (load_ocr_results_round_trip _ _ Hr Ev) as Hl.
  unfold OCRBox_from_dict. cbn -[load_ocr_results construct].
  rewrite BoxType_of_name_name. cbn -[load_ocr_results construct].
  rewrite Hl. reflexivity.
Qed.

(** The base class and [TextBox] come back from their records. *)
Lemma from_dict_to_dict_base_and_text (b : OCRBox) (d : PyVal) :
  cls b = OCRBox_cls \/ cls b = TextBox_cls ->
  (cls b = TextBox_cls -> is_Some (text_state b)) ->
  results_round_trip (ocr_results b) ->
  to_dict block_to_dict b = Ok d ->
  from_dict block_from_dict (cls b) d = Ok (persisted b).
Proof.
  intros Hc Hts Hr. unfold to_dict, from_dict, persisted.
  destruct Hc as [Hc|Hc]; rewrite Hc.
  - intros Hd. rewrite (OCRBox_from_dict_to_dict _ _ _ Hr Hd).
    destruct b; simpl in *; subst. reflexivity.
  - destruct (Hts Hc) as [ts Hs]. rewrite Hs.
    unfold OCRBox_to_dict.
    destruct (results_to_dict block_to_dict (ocr_results b)) as [v|e] eqn:Ev;
      [|discriminate].
    cbn -[load_ocr_results construct]. intros [= <-].
    pose proof (load_ocr_results_round_trip _ _ Hr Ev) as Hl.
    unfold TextBox_from_dict. cbn -[load_ocr_results construct].
    rewrite BoxType_of_name_name. cbn -[load_ocr_results construct].
    rewrite Hl. cbn. destruct ts; reflexivity.
Qed.

(** C3.  For the six plain subclasses the record of a box with a recognition
    result does not bring the result back: whenever [from_dict] returns, the
    attribute holds the raw sub-record of the input (or [None] when that
    sub-record is [None]), never the block. *)
Theorem plain_from_dict_loses_block (b nb : OCRBox) (blk : OCRResultBlock)
    (d : PyVal) :
  is_plain_subclass (cls b) = true ->
  ocr_results b = Block blk ->
  to_dict block_to_dict b = Ok d ->
  from_dict block_from_dict (cls b) d = Ok nb ->
  ocr_results nb = match block_to_dict blk with
                   | PyNone => NoResults
                   | v => RawRecord v
                   end
  /\ ocr_results nb <> ocr_results b.
Proof.
  intros Hp Hb Hd Hf.
  assert (Hraw : ocr_results nb = match block_to_dict blk with
                                  | PyNone => NoResults
                                  | v => RawRecord v
                                  end).
  { assert (to_dict block_to_dict b = OCRBox_to_dict block_to_dict b) as Ht
        by (unfold to_dict; destruct (cls b); try reflexivity; discriminate).
    assert (from_dict block_from_dict (cls b) d
            = plain_from_dict block_from_dict (cls b) d) as Hfp
        by (unfold from_dict; destruct (cls b); try reflexivity; discriminate).
    rewrite Ht in Hd. rewrite Hfp in Hf. clear Ht Hfp.
    unfold OCRBox_to_dict in Hd. rewrite Hb in Hd. simpl in Hd.
    injection Hd as <-.
    unfold plain_from_dict in Hf.
    destruct (OCRBox_from_dict block_from_dict (cls b) _) as [ob|e];
      [|discriminate].
    cbn -[construct] in Hf. rewrite BoxType_of_name_name in Hf.
    cbn -[construct] in Hf. injection Hf as <-. reflexivity. }
  split; [exact Hraw|].
  rewrite Hraw, Hb. destruct (block_to_dict blk); discriminate.
Qed.

End RecordFacts.

Lemma plain_from_dict_loses_block_witness :
  exists d nb,
    to_dict count_block_to_dict equation_with_result = Ok d
    /\ from_dict count_block_from_dict EquationBox_cls d = Ok nb
    /\ ocr_results nb = RawRecord (PyDict [("paragraphs", PyInt 1)])
    /\ ocr_results nb <> ocr_results equation_with_result.
Proof.
  eexists _, _. split; [reflexivity|]. split; [reflexivity|].
  apply (plain_from_dict_loses_block count_block_to_dict count_block_from_dict
           equation_with_result _ {| paragraphs := [{| lines := [] |}] |}
           (PyDict [("id", PyStr "eq1");
                    ("position", position equation_with_result);
                    ("type", PyStr "EQUATION"); ("class", PyStr "");
                    ("tag", PyStr ""); ("confidence", PyFloat 0%float);
                    ("order", PyInt 0);
                    ("ocr_results", PyDict [("paragraphs", PyInt 1)])]));
    reflexivity.
Defined.


(** ** The hyphenation check *)

Section WriterFacts.

Variable bs_get_text : string -> string.
Variable str_strip : string -> string.
Variable str_lower : string -> string.
Variable chr_isupper : ascii -> bool.

Local Abbreviation second_plain := (second_plain bs_get_text str_strip).
Local Abbreviation rejected := (rejected str_lower).
Local Abbreviation starts_upper := (starts_upper chr_isupper).

(** C4.  When the plain text of the second fragment is not empty, the check
    returns, and it decides to keep the word split exactly when that text
    starts with an upper-case letter or its lower-cased form is in the reject
    list, and to merge otherwise; no spelling lookup takes part.  When the
    plain text is empty and not rejected, the check does not decide: reading
    its first character raises [IndexError]. *)
Theorem check_hyphenated_word_decision (blacklist : option (list string))
    (first_part second_part : string) :
  let plain := second_plain second_part in
  (plain <> "" ->
   _check_hyphenated_word bs_get_text str_strip str_lower chr_isupper
     blacklist first_part second_part
   = Ok (negb (starts_upper plain || rejected blacklist plain)))
  /\ (plain = "" -> rejected blacklist plain = false ->
      _check_hyphenated_word bs_get_text str_strip str_lower chr_isupper
        blacklist first_part second_part
      = Raise IndexError).
Proof.
  unfold _check_hyphenated_word, second_plain, rejected, starts_upper.
  set (plain := str_strip (bs_get_text second_part)).
  set (rej := match blacklist with
              | Some bl => existsb (String.eqb (str_lower plain)) bl
              | None => false
              end).
  simpl. split.
  - intros Hne. destruct rej.
    + by rewrite orb_true_r.
    + rewrite orb_false_r. destruct plain as [|c rest]; [contradiction|].
      by destruct (chr_isupper c).
  - intros -> ->. reflexivity.
Qed.

End WriterFacts.

Lemma check_hyphenated_word_decision_witness :
  _check_hyphenated_word (drop_tags false) ascii_strip ascii_lower ascii_isupper
    (Some ["und"]) "<p>exam-</p>" "<p>ple</p>" = Ok true
  /\ _check_hyphenated_word (drop_tags false) ascii_strip ascii_lower ascii_isupper
       (Some ["und"]) "<p>exam-</p>" "<p>Paris</p>" = Ok false
  /\ _check_hyphenated_word (drop_tags false) ascii_strip ascii_lower ascii_isupper
       (Some ["und"]) "<p>exam-</p>" "<p> </p>" = Raise IndexError.
Proof.
  pose proof (check_hyphenated_word_decision (drop_tags false) ascii_strip
                ascii_lower ascii_isupper (Some ["und"]) "<p>exam-</p>") as H.
  split; [|split].
  - apply (proj1 (H "<p>ple</p>")). vm_compute. discriminate.
  - apply (proj1 (H "<p>Paris</p>")). vm_compute. discriminate.
  - apply (proj2 (H "<p> </p>")); reflexivity.
Defined.


(** ** Merge *)

(** One step of a computation at a time. *)
Lemma bind_get_box {B} (r : Ref) (k : OCRBox -> Py B) (s : State) :
  bind (get_box r) k s = k (heap s !!! r) s.
Proof. reflexivity. Qed.

Lemma bind_update_box {B} (r : Ref) (f : OCRBox -> OCRBox) (k : unit -> Py B)
    (s : State) :
  bind (update_box r f) k s = k tt (set_heap (alter f r (heap s)) s).
Proof. reflexivity. Qed.

Lemma bind_get_ocr_boxes {B} (k : list Ref -> Py B) (s : State) :
  bind get_ocr_boxes k s = k (ocr_boxes (layout (page s))) s.
Proof. reflexivity. Qed.

Lemma bind_lift_ok {S A B} (a : A) (k : A -> M S B) (s : S) :
  bind (lift_result (Ok a)) k s = k a s.
Proof. reflexivity. Qed.

Lemma bind_lift_raise {S A B} (e : exn) (k : A -> M S B) (s : S) :
  bind (lift_result (Raise e)) k s = (Raise e, s).
Proof. reflexivity. Qed.

Lemma bind_gets {S A B} (f : S -> A) (k : A -> M S B) (s : S) :
  bind (gets f) k s = k (f s) s.
Proof. reflexivity. Qed.

Lemma bind_ret {S A B} (a : A) (k : A -> M S B) (s : S) :
  bind (ret a) k s = k a s.
Proof. reflexivity. Qed.

Lemma bind_assoc {S A B C} (m : M S A) (k : A -> M S B) (k' : B -> M S C) s :
  bind (bind m k) k' s = bind m (fun a => bind (k a) k') s.
Proof. unfold bind. destruct (m s) as [[a|e] s1]; reflexivity. Qed.

Ltac box_simpl :=
  cbn [cls id order x y width height type class_ tag confidence ocr_results
       _callbacks _update_source text_state user_data
       set_x set_y set_width set_height set_confidence set_user_data
       set_ocr_results set_text_state set_user_text set_flows_into_next
       set_order set_id set__callbacks set__update_source
       heap page log calls set_heap set_page].

Lemma preserves_bind {A B} (I : State -> Prop) (m : Py A) (k : A -> Py B) :
  preserves I m -> (forall a, preserves I (k a)) -> preserves I (bind m k).
Proof.
  intros Hm Hk s Hs. unfold bind. specialize (Hm s Hs).
  destruct (m s) as [[a|e] s1]; simpl in *; [by apply Hk | exact Hm].
Qed.

Lemma preserves_ret {A} (I : State -> Prop) (a : A) : preserves I (ret a).
Proof. by intros s Hs. Qed.

Lemma preserves_lift_result {A} (I : State -> Prop) (r : result A) :
  preserves I (lift_result r).
Proof. by intros s Hs. Qed.

Lemma preserves_gets {A} (I : State -> Prop) (f : State -> A) :
  preserves I (gets f).
Proof. by intros s Hs. Qed.

Lemma preserves_if {A} (I : State -> Prop) (c : bool) (m1 m2 : Py A) :
  preserves I m1 -> preserves I m2 -> preserves I (if c then m1 else m2).
Proof. by destruct c. Qed.

Lemma has_geometry_update_box (r r' : Ref) g c (f : OCRBox -> OCRBox) :
  (forall b, geometry (f b) = geometry b /\ confidence (f b) = confidence b) ->
  preserves (has_geometry r g c) (update_box r' f).
Proof.
  intros Hf s (Hlt & Hg & Hc). unfold has_geometry, update_box, modify.
  cbn [snd heap set_heap].
  rewrite length_alter. split; [exact Hlt|].
  destruct (decide (r' = r)) as [->|Hne].
  - rewrite list_lookup_total_alter_eq by exact Hlt.
    destruct (Hf (heap s !!! r)) as [H1 H2]. rewrite H1, H2. auto.
  - rewrite list_lookup_total_alter_ne by exact Hne. auto.
Qed.

Lemma has_geometry_same_heap {A} (r : Ref) g c (m : Py A) :
  (forall s, heap (snd (m s)) = heap s) -> preserves (has_geometry r g c) m.
Proof. intros Hm s Hs. unfold has_geometry. by rewrite Hm. Qed.

Lemma notify_callbacks_heap (r : Ref) (source : option string) (s : State) :
  heap (snd (notify_callbacks r source s)) = heap s.
Proof. rewrite notify_callbacks_run. simpl. by destruct (negb _). Qed.

(** What [merge_ocr_box_with_ocr_box] writes to the first box, for two
    distinct objects at valid indices: [x] and [y] are the minima, and the
    width is measured from a right edge computed with the new [x], not with
    the [x] the first box had (the same for the height). *)
Lemma merge_geometry (block_to_dict : OCRResultBlock -> PyVal) (s : State)
    (i1 i2 : Z) (r1 r2 : Ref) :
  valid_index s i1 = true -> valid_index s i2 = true ->
  ocr_boxes (layout (page s)) !! Z.to_nat i1 = Some r1 ->
  ocr_boxes (layout (page s)) !! Z.to_nat i2 = Some r2 ->
  r1 <> r2 -> (r1 < length (heap s))%nat ->
  let b1 := heap s !!! r1 in
  let b2 := heap s !!! r2 in
  let nx := Z.min (x b1) (x b2) in
  let ny := Z.min (y b1) (y b2) in
  has_geometry r1
    (nx, ny,
     Z.max (nx + width b1) (x b2 + width b2) - nx,
     Z.max (ny + height b1) (y b2 + height b2) - ny)
    (py_max_float (confidence b1) (confidence b2))
    (snd (merge_ocr_box_with_ocr_box block_to_dict i1 i2 s)).
Proof.
  intros Hv1 Hv2 Hr1 Hr2 Hne Hlt. unfold valid_index in *.
  destruct (py_getitem_valid _ _ Hv1) as (r1' & Hr1' & Hg1).
  destruct (py_getitem_valid _ _ Hv2) as (r2' & Hr2' & Hg2).
  rewrite Hr1 in Hr1'. rewrite Hr2 in Hr2'.
  injection Hr1' as <-. injection Hr2' as <-.
  cbv zeta.
  unfold merge_ocr_box_with_ocr_box, is_valid_box_index.
  rewrite !bind_assoc, bind_get_ocr_boxes, bind_ret, Hv1.
  rewrite !bind_assoc, bind_get_ocr_boxes, bind_ret, Hv2.
  cbn [negb orb].
  rewrite bind_get_ocr_boxes, Hg1, bind_lift_ok, Hg2, bind_lift_ok.
  do 5 (rewrite !bind_get_box, bind_update_box; box_simpl;
        rewrite ?list_lookup_total_alter_eq by (rewrite ?length_alter; exact Hlt);
        rewrite ?list_lookup_total_alter_ne by exact Hne; box_simpl).
  match goal with |- has_geometry _ _ _ (snd (?m ?st)) =>
    assert (preserves (has_geometry r1
              (Z.min (x (heap s !!! r1)) (x (heap s !!! r2)),
               Z.min (y (heap s !!! r1)) (y (heap s !!! r2)),
               Z.max (Z.min (x (heap s !!! r1)) (x (heap s !!! r2))
                      + width (heap s !!! r1))
                     (x (heap s !!! r2) + width (heap s !!! r2))
               - Z.min (x (heap s !!! r1)) (x (heap s !!! r2)),
               Z.max (Z.min (y (heap s !!! r1)) (y (heap s !!! r2))
                      + height (heap s !!! r1))
                     (y (heap s !!! r2) + height (heap s !!! r2))
               - Z.min (y (heap s !!! r1)) (y (heap s !!! r2)))
              (py_max_float (confidence (heap s !!! r1))
                            (confidence (heap s !!! r2)))) m) as Hp
  end.
  { repeat first
      [ apply has_geometry_same_heap; intros ?; apply notify_callbacks_heap
      | apply preserves_bind; [|intros ?]
      | apply preserves_if
      | apply preserves_ret
      | apply preserves_lift_result
      | apply preserves_gets
      | apply has_geometry_update_box; intros b; split; reflexivity
      | apply has_geometry_same_heap; intros ?; apply notify_callbacks_heap
      | apply has_geometry_same_heap; intros ?; reflexivity ]. }
  apply Hp. unfold has_geometry, geometry. box_simpl.
  rewrite !length_alter.
  rewrite !list_lookup_total_alter_eq by (rewrite ?length_alter; exact Hlt).
  box_simpl. auto.
Qed.

(** C6.  Merging the box (0, 0, 3, 5) into the box (10, 0, 5, 5) leaves the
    first box at (0, 0, 5, 5), where the union bounding box is (0, 0, 15, 5);
    the confidence is the larger of the two.  On boxes as the constructors
    make them the call then raises [AttributeError] at the read of
    [user_data], with both boxes still in the layout; on boxes to which
    [user_data] and [flows_into_next] have been assigned it returns and the
    second box is out of the layout.  Merging the same two boxes the other
    way round gives (0, 0, 15, 5), and for three boxes merging (A with B)
    with C gives another geometry than A with (B with C), in both cases. *)
Theorem merge_is_not_union :
  let merge := merge_ocr_box_with_ocr_box count_block_to_dict in
  let a := heap merge_pair !!! 0%nat in
  let b := heap merge_pair !!! 1%nat in
  (fst (merge 0 1 merge_pair) = Raise (AttributeError "user_data")
   /\ geometry (heap (snd (merge 0 1 merge_pair)) !!! 0%nat) = (0, 0, 5, 5)
   /\ union_bbox a b = (0, 0, 15, 5)
   /\ confidence (heap (snd (merge 0 1 merge_pair)) !!! 0%nat) = 0.75%float
   /\ ocr_boxes (layout (page (snd (merge 0 1 merge_pair)))) = [0%nat; 1%nat])
  /\ geometry (heap (snd (merge 1 0 merge_pair)) !!! 1%nat) = (0, 0, 15, 5)
  /\ (let ab_c := snd (merge 0 2 (snd (merge 0 1 merge_triple))) in
      let a_bc := snd (merge 0 1 (snd (merge 1 2 merge_triple))) in
      geometry (heap ab_c !!! 0%nat) = (-1, 0, 6, 1)
      /\ geometry (heap a_bc !!! 0%nat) = (-1, 0, 1, 1))
  /\ (let pair := with_assigned_attributes merge_pair in
      let triple := with_assigned_attributes merge_triple in
      let ab_c := snd (merge 0 1 (snd (merge 0 1 triple))) in
      let a_bc := snd (merge 0 1 (snd (merge 1 2 triple))) in
      fst (merge 0 1 pair) = Ok tt
      /\ geometry (heap (snd (merge 0 1 pair)) !!! 0%nat) = (0, 0, 5, 5)
      /\ confidence (heap (snd (merge 0 1 pair)) !!! 0%nat) = 0.75%float
      /\ ocr_boxes (layout (page (snd (merge 0 1 pair)))) = [0%nat]
      /\ geometry (heap (snd (merge 1 0 pair)) !!! 1%nat) = (0, 0, 15, 5)
      /\ geometry (heap ab_c !!! 0%nat) = (-1, 0, 6, 1)
      /\ geometry (heap a_bc !!! 0%nat) = (-1, 0, 1, 1)).
Proof. vm_compute. repeat split; reflexivity. Qed.


(** ** Precondition errors of the page operations *)

Section PageFacts.

Variable block_to_dict : OCRResultBlock -> PyVal.
Variable block_get_text : OCRResultBlock -> string.
Variable box_type_value : BoxType -> Z.
Variable erase_boxes : string -> list Region -> string.

Local Abbreviation analyze := (analyze_page box_type_value).
Local Abbreviation recognize := (recognize_ocr_boxes block_get_text erase_boxes).
Local Abbreviation merge := (merge_ocr_box_with_ocr_box block_to_dict).


End PageFacts.



(** [analyze_ocr_box] is not of this kind either: with the index -1 the
    inner call logs the error and returns no box, and the outer call then
    pops the last box of the layout. *)
Lemma analyze_ocr_box_negative_index :
  let s := a_state [observed_box; equation_with_result] [0%nat; 1%nat] in
  let s' := snd (analyze_ocr_box (-1) s) in
  fst (analyze_ocr_box (-1) s) = Ok tt
  /\ ocr_boxes (layout (page s')) = [0%nat]
  /\ log s' = [LogError "Invalid ocr_box index: %d"].
Proof. vm_compute. repeat split; reflexivity. Qed.


(** ** The renumber pass and the structural mutations of a layout *)

Lemma for_each_renumber (k : nat) (refs : list Ref) (s : State) :
  for_each (imap (fun i a => (Z.of_nat (k + i), a)) refs)
           (fun ib => update_box (snd ib) (set_order (fst ib))) s
  = (Ok tt, set_heap (renumber_from k refs (heap s)) s).
Proof.
  revert k s. induction refs as [|r rest IH]; intros k s.
  - destruct s; reflexivity.
  - rewrite imap_cons. cbn [for_each renumber_from].
    rewrite bind_update_box. cbn [fst snd].
    rewrite (imap_ext _ (fun i a => (Z.of_nat (S k + i), a)))
      by (intros i a _; simpl; do 2 f_equal; lia).
    rewrite IH. replace (k + 0)%nat with k by lia. reflexivity.
Qed.

Lemma update_order_run (s : State) : update_order s = (Ok tt, renumbered s).
Proof.
  unfold update_order, enumerate. rewrite bind_get_ocr_boxes.
  exact (for_each_renumber 0 _ s).
Qed.

Lemma length_renumber_from (k : nat) (refs : list Ref) (h : list OCRBox) :
  length (renumber_from k refs h) = length h.
Proof.
  revert k h. induction refs as [|r rest IH]; intros k h; simpl; [reflexivity|].
  by rewrite IH, length_alter.
Qed.

(** A box that the walk does not meet is left as it is. *)
Lemma renumber_from_other (k : nat) (refs : list Ref) (h : list OCRBox) (r : Ref) :
  r ∉ refs -> renumber_from k refs h !!! r = h !!! r.
Proof.
  revert k h. induction refs as [|r' rest IH]; intros k h Hn; simpl; [reflexivity|].
  apply not_elem_of_cons in Hn as [Hne Hn].
  rewrite IH by exact Hn. by apply list_lookup_total_alter_ne.
Qed.

(** The walk changes nothing but [order]. *)
Lemma renumber_from_set_order (k : nat) (refs : list Ref) (h : list OCRBox) (r : Ref) :
  exists v, renumber_from k refs h !!! r = set_order v (h !!! r).
Proof.
  revert k h. induction refs as [|r' rest IH]; intros k h; simpl.
  - exists (order (h !!! r)). by destruct (h !!! r).
  - destruct (IH (S k) (alter (set_order (Z.of_nat k)) r' h)) as [v ->].
    exists v. destruct (decide (r' = r)) as [->|Hne].
    + destruct (decide (r < length h)%nat) as [Hlt|Hge].
      * by rewrite list_lookup_total_alter_eq.
      * rewrite !list_lookup_total_alt, list_lookup_alter_eq.
        by rewrite lookup_ge_None_2 by lia.
    + by rewrite list_lookup_total_alter_ne.
Qed.

(** After the walk over distinct boxes, the box at position [i] has the
    order [k + i]. *)
Lemma renumber_from_order (k : nat) (refs : list Ref) (h : list OCRBox)
    (i : nat) (r : Ref) :
  NoDup refs -> (forall r', r' ∈ refs -> (r' < length h)%nat) ->
  refs !! i = Some r ->
  order (renumber_from k refs h !!! r) = Z.of_nat (k + i).
Proof.
  revert k h i. induction refs as [|r' rest IH]; intros k h i Hnd Hin Hi;
    [by rewrite lookup_nil in Hi|].
  apply NoDup_cons in Hnd as [Hnotin Hnd]. simpl.
  destruct i as [|i]; simpl in Hi.
  - injection Hi as ->. rewrite renumber_from_other by exact Hnotin.
    rewrite list_lookup_total_alter_eq by (apply Hin; left).
    simpl. f_equal. lia.
  - rewrite (IH (S k) _ i Hnd); [f_equal; lia | | exact Hi].
    intros r'' Hr''. rewrite length_alter. apply Hin. by right.
Qed.

Lemma orders_renumbered (s : State) :
  distinct_boxes s ->
  orders (renumbered s) = iota (length (ocr_boxes (layout (page s)))).
Proof.
  intros [Hnd Hin]. unfold orders, iota, renumbered. cbn [heap page set_heap].
  apply list_eq. intros i. rewrite !list_lookup_fmap.
  destruct (ocr_boxes (layout (page s)) !! i) as [r|] eqn:Hi; simpl.
  - rewrite lookup_seq_lt by (by apply lookup_lt_Some in Hi). simpl.
    f_equal. by rewrite (renumber_from_order 0 _ _ i r).
  - by rewrite lookup_seq_ge by (by apply lookup_ge_None in Hi).
Qed.

Lemma distinct_boxes_renumbered (s : State) :
  distinct_boxes s -> distinct_boxes (renumbered s).
Proof.
  intros [Hnd Hin]. split; [exact Hnd|].
  intros r Hr. unfold renumbered. cbn [heap set_heap].
  rewrite length_renumber_from. by apply Hin.
Qed.

(** A new sequence of the same objects, then the renumber pass. *)
Lemma reordered_then_renumbered (l : list Ref) (s : State) :
  NoDup l -> (forall r, r ∈ l -> (r < length (heap s))%nat) ->
  orders (renumbered (with_ocr_boxes l s)) = iota (length l)
  /\ distinct_boxes (renumbered (with_ocr_boxes l s)).
Proof.
  intros Hnd Hin.
  assert (distinct_boxes (with_ocr_boxes l s)) as Hd by (split; assumption).
  split; [exact (orders_renumbered _ Hd) | by apply distinct_boxes_renumbered].
Qed.

Lemma py_insert_Permutation {A} (l : list A) (i : Z) (a : A) :
  py_insert l i a ≡ₚ a :: l.
Proof.
  unfold py_insert.
  set (k := Z.to_nat (Z.max 0 (Z.min (norm_index (length l) i)
                                     (Z.of_nat (length l))))).
  rewrite <- Permutation_middle. by rewrite take_drop.
Qed.

Lemma insert_by_key_Permutation {A} (key : A -> Z) (a : A) (l : list A) :
  insert_by_key key a l ≡ₚ a :: l.
Proof.
  induction l as [|b rest IH]; simpl; [reflexivity|].
  destruct (key a <=? key b); [reflexivity|].
  rewrite IH. apply perm_swap.
Qed.

Lemma sort_by_key_Permutation {A} (key : A -> Z) (l : list A) :
  sort_by_key key l ≡ₚ l.
Proof.
  induction l as [|a rest IH]; simpl; [reflexivity|].
  by rewrite insert_by_key_Permutation, IH.
Qed.

(** [l.pop(i)] returns exactly when the normalised index is in range. *)
Lemma py_pop_in_range {A} (l : list A) (i : Z) :
  in_range (length l) (norm_index (length l) i) = true ->
  exists a, l !! Z.to_nat (norm_index (length l) i) = Some a
            /\ py_pop l i = Ok (a, delete (Z.to_nat (norm_index (length l) i)) l).
Proof.
  intros Hr. unfold py_pop. rewrite Hr.
  assert (Z.to_nat (norm_index (length l) i) < length l)%nat as Hlt.
  { unfold in_range in Hr. apply andb_true_iff in Hr as [H1 H2].
    apply Z.leb_le in H1. apply Z.ltb_lt in H2. lia. }
  destruct (lookup_lt_is_Some_2 l _ Hlt) as [a Ha].
  exists a. by rewrite Ha.
Qed.

Lemma py_pop_out_of_range {A} (l : list A) (i : Z) :
  in_range (length l) (norm_index (length l) i) = false ->
  py_pop l i = Raise IndexError.
Proof. intros Hr. unfold py_pop. by rewrite Hr. Qed.

Lemma add_ocr_box_run (box : Ref) (index : option Z) (s : State) :
  add_ocr_box box index s
  = (Ok tt,
     renumbered
       (with_ocr_boxes
          match index with
          | None => ocr_boxes (layout (page s)) ++ [box]
          | Some i => py_insert (ocr_boxes (layout (page s))) i box
          end s)).
Proof.
  unfold add_ocr_box. rewrite bind_get_ocr_boxes.
  destruct index as [i|]; unfold bind at 1; unfold put_ocr_boxes, modify;
    rewrite update_order_run; reflexivity.
Qed.

Lemma remove_ocr_box_run (index : Z) (s : State) :
  remove_ocr_box index s
  = match py_pop (ocr_boxes (layout (page s))) index with
    | Ok popped => (Ok tt, renumbered (with_ocr_boxes (snd popped) s))
    | Raise e => (Raise e, s)
    end.
Proof.
  unfold remove_ocr_box. rewrite bind_get_ocr_boxes.
  destruct (py_pop (ocr_boxes (layout (page s))) index) as [popped|e].
  - rewrite bind_lift_ok. unfold bind at 1. unfold put_ocr_boxes, modify.
    rewrite update_order_run. reflexivity.
  - by rewrite bind_lift_raise.
Qed.

(** An index that [pop] rejects: [IndexError], and nothing has changed. *)
Lemma remove_ocr_box_out_of_range (index : Z) (s : State) :
  in_range (length (ocr_boxes (layout (page s))))
           (norm_index (length (ocr_boxes (layout (page s)))) index) = false ->
  remove_ocr_box index s = (Raise IndexError, s).
Proof.
  intros Hr. by rewrite remove_ocr_box_run, (py_pop_out_of_range _ _ Hr).
Qed.

Lemma move_ocr_box_run (index new_index : Z) (s : State) :
  move_ocr_box index new_index s
  = match py_pop (ocr_boxes (layout (page s))) index with
    | Ok popped =>
        (Ok tt,
         renumbered
           (with_ocr_boxes (py_insert (snd popped) new_index (fst popped)) s))
    | Raise e => (Raise e, s)
    end.
Proof.
  unfold move_ocr_box. rewrite bind_get_ocr_boxes.
  destruct (py_pop (ocr_boxes (layout (page s))) index) as [popped|e].
  - rewrite bind_lift_ok. unfold bind at 1 2. unfold put_ocr_boxes, modify.
    rewrite update_order_run. reflexivity.
  - by rewrite bind_lift_raise.
Qed.

Lemma sort_boxes_run (s : State) :
  sort_boxes s
  = (Ok tt,
     renumbered
       (with_ocr_boxes
          (sort_by_key (fun r => order (heap s !!! r))
                       (ocr_boxes (layout (page s)))) s)).
Proof.
  unfold sort_boxes. rewrite bind_get_ocr_boxes, bind_gets.
  unfold bind at 1. unfold put_ocr_boxes, modify.
  rewrite update_order_run. reflexivity.
Qed.

(** The loop of [remove_box_by_id]: no match, nothing happens; otherwise the
    first match is removed by its index. *)
Lemma remove_box_by_id_loop_miss (k : nat) (l : list Ref) (box_id : string)
    (s : State) :
  (forall r, r ∈ l -> id (heap s !!! r) <> box_id) ->
  remove_box_by_id_loop (imap (fun i a => (Z.of_nat (k + i), a)) l) box_id s
  = (Ok tt, s).
Proof.
  revert k. induction l as [|r rest IH]; intros k Hm; [reflexivity|].
  rewrite imap_cons. cbn [remove_box_by_id_loop]. rewrite bind_get_box.
  destruct (String.eqb_spec (id (heap s !!! r)) box_id) as [He|_].
  - exfalso. apply (Hm r); [by left | exact He].
  - rewrite (imap_ext _ (fun i a => (Z.of_nat (S k + i), a)))
      by (intros i a _; simpl; do 2 f_equal; lia).
    apply IH. intros r' Hr'. apply Hm. by right.
Qed.

Lemma remove_box_by_id_loop_hit (k : nat) (l : list Ref) (box_id : string)
    (s : State) (i : nat) (r : Ref) :
  l !! i = Some r -> id (heap s !!! r) = box_id ->
  (forall j r', (j < i)%nat -> l !! j = Some r' -> id (heap s !!! r') <> box_id) ->
  remove_box_by_id_loop (imap (fun i a => (Z.of_nat (k + i), a)) l) box_id s
  = remove_ocr_box (Z.of_nat (k + i)) s.
Proof.
  revert k i. induction l as [|r0 rest IH]; intros k i Hi Hid Hfirst;
    [by rewrite lookup_nil in Hi|].
  rewrite imap_cons. cbn [remove_box_by_id_loop]. rewrite bind_get_box.
  destruct i as [|i]; simpl in Hi.
  - injection Hi as ->. rewrite Hid, String.eqb_refl. reflexivity.
  - destruct (String.eqb_spec (id (heap s !!! r0)) box_id) as [He|_].
    + exfalso. apply (Hfirst 0%nat r0); [lia | reflexivity | exact He].
    + rewrite (imap_ext _ (fun i a => (Z.of_nat (S k + i), a)))
        by (intros j a _; simpl; do 2 f_equal; lia).
      rewrite (IH (S k) i Hi Hid).
      * do 2 f_equal. lia.
      * intros j r' Hj Hr'. apply (Hfirst (S j) r'); [lia | exact Hr'].
Qed.

Lemma py_pop_nat {A} (l : list A) (i : nat) (a : A) :
  l !! i = Some a -> py_pop l (Z.of_nat i) = Ok (a, delete i l).
Proof.
  intros Hi. pose proof (lookup_lt_Some _ _ _ Hi) as Hlt.
  unfold py_pop, norm_index, in_range.
  destruct (Z.of_nat i <? 0) eqn:E; [apply Z.ltb_lt in E; lia|].
  assert ((0 <=? Z.of_nat i) && (Z.of_nat i <? Z.of_nat (length l)) = true) as ->
    by (apply andb_true_iff; split; [apply Z.leb_le | apply Z.ltb_lt]; lia).
  by rewrite Nat2Z.id, Hi.
Qed.

Lemma distinct_boxes_delete (i : nat) (s : State) :
  distinct_boxes s ->
  NoDup (delete i (ocr_boxes (layout (page s))))
  /\ forall r, r ∈ delete i (ocr_boxes (layout (page s))) ->
               (r < length (heap s))%nat.
Proof.
  intros [Hnd Hin]. split.
  - eapply sublist_NoDup; [exact Hnd | apply sublist_delete].
  - intros r Hr. apply Hin. by eapply list_elem_of_delete_inv.
Qed.

Lemma distinct_boxes_Permutation (l : list Ref) (s : State) :
  distinct_boxes s -> l ≡ₚ ocr_boxes (layout (page s)) ->
  NoDup l /\ forall r, r ∈ l -> (r < length (heap s))%nat.
Proof.
  intros [Hnd Hin] Hp. split; [by rewrite Hp|].
  intros r Hr. apply Hin. by rewrite <- Hp.
Qed.

(** The first position at which a test holds. *)
Lemma first_match {A} (P : A -> bool) (l : list A) :
  (exists a, a ∈ l /\ P a = true) ->
  exists i a, l !! i = Some a /\ P a = true
              /\ forall j a', (j < i)%nat -> l !! j = Some a' -> P a' = false.
Proof.
  induction l as [|a0 rest IH]; intros (a & Ha & HP).
  - by apply elem_of_nil in Ha.
  - destruct (P a0) eqn:E0.
    + exists 0%nat, a0. split; [reflexivity|]. split; [exact E0|]. intros; lia.
    + apply elem_of_cons in Ha as [->|Ha]; [congruence|].
      destruct (IH (ex_intro _ a (conj Ha HP))) as (i & a1 & Hi & HP1 & Hfirst).
      exists (S i), a1. split; [exact Hi|]. split; [exact HP1|].
      intros [|j] a' Hj Hl; simpl in Hl; [congruence|].
      apply (Hfirst j a'); [lia | exact Hl].
Qed.

(** C2, as amended.  On a layout of distinct box objects, each of these
    calls returns and leaves the order values [0, 1, ..., n-1] in sequence,
    on a layout that is again one of distinct box objects. *)
Theorem structural_mutations_renumber (op : LayoutOp) (s : State) :
  distinct_boxes s -> renumbering_call op s ->
  exists s', run_op op s = (Ok tt, s')
             /\ orders s' = iota (length (ocr_boxes (layout (page s'))))
             /\ distinct_boxes s'.
Proof.
  intros Hd Hc.
  assert (Hfin : forall l,
             NoDup l -> (forall r, r ∈ l -> (r < length (heap s))%nat) ->
             orders (renumbered (with_ocr_boxes l s))
             = iota (length (ocr_boxes (layout (page (renumbered (with_ocr_boxes l s))))))
             /\ distinct_boxes (renumbered (with_ocr_boxes l s))).
  { intros l Hnd Hin. exact (reordered_then_renumbered l s Hnd Hin). }
  destruct op as [box index|index|box_id|index new_index|index box|];
    cbn [run_op renumbering_call] in *.
  - destruct Hc as [Hnotin Hlt]. rewrite add_ocr_box_run.
    eexists. split; [reflexivity|].
    assert (match index with
            | None => ocr_boxes (layout (page s)) ++ [box]
            | Some i => py_insert (ocr_boxes (layout (page s))) i box
            end ≡ₚ box :: ocr_boxes (layout (page s))) as Hp.
    { destruct index as [i|]; [apply py_insert_Permutation|].
      by rewrite Permutation_app_comm. }
    destruct Hd as [Hnd Hin]. apply Hfin.
    + rewrite Hp. by apply NoDup_cons.
    + intros r Hr. rewrite Hp in Hr. apply elem_of_cons in Hr as [->|Hr]; auto.
  - destruct (py_pop_in_range _ _ Hc) as (a & Ha & Hpop).
    rewrite remove_ocr_box_run, Hpop. eexists. split; [reflexivity|].
    cbn [snd]. by apply Hfin; apply distinct_boxes_delete.
  - destruct (first_match (fun r => String.eqb (id (heap s !!! r)) box_id)
                (ocr_boxes (layout (page s)))) as (i & r & Hi & Hid & Hfirst).
    { destruct Hc as (r & Hr & Hid). exists r. split; [exact Hr|].
      by apply String.eqb_eq. }
    apply String.eqb_eq in Hid.
    unfold remove_box_by_id. rewrite bind_get_ocr_boxes.
    change (enumerate (ocr_boxes (layout (page s))))
      with (imap (fun i a => (Z.of_nat (0 + i), a)) (ocr_boxes (layout (page s)))).
    rewrite (remove_box_by_id_loop_hit 0 _ box_id s i r Hi Hid).
    2:{ intros j r' Hj Hr'. apply String.eqb_neq. by apply (Hfirst j r'). }
    rewrite remove_ocr_box_run. cbn [Nat.add]. rewrite (py_pop_nat _ _ _ Hi).
    eexists. split; [reflexivity|].
    cbn [snd]. by apply Hfin; apply distinct_boxes_delete.
  - destruct (py_pop_in_range _ _ Hc) as (a & Ha & Hpop).
    rewrite move_ocr_box_run, Hpop. eexists. split; [reflexivity|].
    cbn [fst snd].
    apply Hfin; apply (distinct_boxes_Permutation _ s Hd);
      rewrite py_insert_Permutation; symmetry; by apply delete_Permutation.
  - contradiction.
  - rewrite sort_boxes_run. eexists. split; [reflexivity|].
    apply Hfin; apply (distinct_boxes_Permutation _ s Hd);
      apply sort_by_key_Permutation.
Qed.

Lemma structural_mutations_renumber_witness :
  exists s', run_op (OpMove (-1) 0) three_boxes = (Ok tt, s')
             /\ orders s' = iota (length (ocr_boxes (layout (page s'))))
             /\ distinct_boxes s'.
Proof.
  apply structural_mutations_renumber.
  - split.
    + apply (bool_decide_unpack _). reflexivity.
    + intros r Hr. simpl in *.
      repeat (apply elem_of_cons in Hr as [->|Hr]; [lia|]).
      by apply elem_of_nil in Hr.
  - reflexivity.
Defined.

(** Calls after which the order values are not [0, ..., n-1]:
    [replace_ocr_box] stores a box with the order it carries;
    [remove_box_by_id] with an id no box has leaves the orders of a layout
    built as [PageLayout([a, c])] from boxes of orders 0 and 2 as they are;
    [add_ocr_box] of an object the layout already holds gives both positions
    one order. *)
Lemma mutations_without_contiguous_orders :
  (let s := a_state [ordered_box "a" 0; ordered_box "b" 7] [0%nat] in
   fst (run_op (OpReplace 0 1%nat) s) = Ok tt
   /\ orders (snd (run_op (OpReplace 0 1%nat) s)) = [7]
   /\ iota 1 = [0])
  /\ (let s := a_state [ordered_box "a" 0; ordered_box "c" 2] [0%nat; 1%nat] in
      fst (run_op (OpRemoveById "zz") s) = Ok tt
      /\ orders (snd (run_op (OpRemoveById "zz") s)) = [0; 2]
      /\ iota 2 = [0; 1])
  /\ (let s := a_state [ordered_box "a" 0] [0%nat] in
      fst (run_op (OpAdd 0%nat None) s) = Ok tt
      /\ orders (snd (run_op (OpAdd 0%nat None) s)) = [1; 1]
      /\ iota 2 = [0; 1]).
Proof. vm_compute. repeat split; reflexivity. Qed.

(** C10.  [remove_box_by_id] with an id that no box of the layout has returns
    and leaves the state as it is.  With an id that some box has, it returns,
    the first box in sequence with that id (and no other) leaves the
    sequence, the renumber pass runs over the remaining boxes, which changes
    nothing but [order] in the store, and, the boxes being distinct objects,
    leaves the orders [0, ..., n-2]. *)
Theorem remove_box_by_id_spec (box_id : string) (s : State) :
  let boxes := ocr_boxes (layout (page s)) in
  ((forall r, r ∈ boxes -> id (heap s !!! r) <> box_id) ->
   remove_box_by_id box_id s = (Ok tt, s))
  /\ ((exists r, r ∈ boxes /\ id (heap s !!! r) = box_id) ->
      exists i r,
        boxes !! i = Some r /\ id (heap s !!! r) = box_id
        /\ (forall j r', (j < i)%nat -> boxes !! j = Some r' ->
                         id (heap s !!! r') <> box_id)
        /\ remove_box_by_id box_id s
           = (Ok tt, renumbered (with_ocr_boxes (delete i boxes) s))
        /\ (forall r', exists v,
               heap (renumbered (with_ocr_boxes (delete i boxes) s)) !!! r'
               = set_order v (heap s !!! r'))
        /\ (distinct_boxes s ->
            orders (renumbered (with_ocr_boxes (delete i boxes) s))
            = iota (length boxes - 1))).
Proof.
  cbv zeta. split.
  - intros Hmiss. unfold remove_box_by_id. rewrite bind_get_ocr_boxes.
    exact (remove_box_by_id_loop_miss 0 _ box_id s Hmiss).
  - intros (r0 & Hr0 & Hid0).
    destruct (first_match (fun r => String.eqb (id (heap s !!! r)) box_id)
                (ocr_boxes (layout (page s)))) as (i & r & Hi & Hid & Hfirst).
    { exists r0. split; [exact Hr0 | by apply String.eqb_eq]. }
    apply String.eqb_eq in Hid.
    assert (Hfirst' : forall j r', (j < i)%nat ->
                        ocr_boxes (layout (page s)) !! j = Some r' ->
                        id (heap s !!! r') <> box_id).
    { intros j r' Hj Hr'. apply String.eqb_neq. by apply (Hfirst j r'). }
    exists i, r. split; [exact Hi|]. split; [exact Hid|]. split; [exact Hfirst'|].
    split; [|split].
    + unfold remove_box_by_id. rewrite bind_get_ocr_boxes.
      change (enumerate (ocr_boxes (layout (page s))))
        with (imap (fun i a => (Z.of_nat (0 + i), a)) (ocr_boxes (layout (page s)))).
      rewrite (remove_box_by_id_loop_hit 0 _ box_id s i r Hi Hid Hfirst').
      rewrite remove_ocr_box_run. cbn [Nat.add].
      by rewrite (py_pop_nat _ _ _ Hi).
    + intros r'. apply renumber_from_set_order.
    + intros Hd. destruct (distinct_boxes_delete i s Hd) as [Hnd Hin].
      destruct (reordered_then_renumbered _ s Hnd Hin) as [-> _].
      f_equal. rewrite length_delete by eauto. reflexivity.
Qed.

Lemma remove_box_by_id_spec_witness :
  remove_box_by_id "zz" three_boxes = (Ok tt, three_boxes)
  /\ exists i r,
       ocr_boxes (layout (page three_boxes)) !! i = Some r
       /\ id (heap three_boxes !!! r) = "b"
       /\ (forall j r', (j < i)%nat ->
                        ocr_boxes (layout (page three_boxes)) !! j = Some r' ->
                        id (heap three_boxes !!! r') <> "b")
       /\ remove_box_by_id "b" three_boxes
          = (Ok tt,
             renumbered
               (with_ocr_boxes (delete i (ocr_boxes (layout (page three_boxes))))
                               three_boxes))
       /\ (forall r', exists v,
              heap (renumbered
                      (with_ocr_boxes
                         (delete i (ocr_boxes (layout (page three_boxes))))
                         three_boxes)) !!! r'
              = set_order v (heap three_boxes !!! r'))
       /\ (distinct_boxes three_boxes ->
           orders (renumbered
                     (with_ocr_boxes
                        (delete i (ocr_boxes (layout (page three_boxes))))
                        three_boxes))
           = iota (length (ocr_boxes (layout (page three_boxes))) - 1)).
Proof.
  split.
  - apply (proj1 (remove_box_by_id_spec "zz" three_boxes)).
    intros r Hr. simpl in Hr.
    repeat (apply elem_of_cons in Hr as [->|Hr]; [discriminate|]).
    by apply elem_of_nil in Hr.
  - apply (proj2 (remove_box_by_id_spec "b" three_boxes)).
    exists 1%nat. split; [|reflexivity].
    simpl. apply elem_of_cons. right. apply elem_of_cons. by left.
Defined.

(** * Further properties of the box model *)

(** Two boxes with the same attributes are the same value. *)
Lemma OCRBox_ext (a b : OCRBox) :
  cls a = cls b -> id a = id b -> order a = order b -> x a = x b ->
  y a = y b -> width a = width b -> height a = height b -> type a = type b ->
  class_ a = class_ b -> tag a = tag b -> confidence a = confidence b ->
  ocr_results a = ocr_results b -> _callbacks a = _callbacks b ->
  _update_source a = _update_source b -> text_state a = text_state b ->
  user_data a = user_data b -> a = b.
Proof. destruct a, b; cbn; intros; subst; reflexivity. Qed.

Ltac box_ext := apply OCRBox_ext; box_simpl; try reflexivity.

(** ** Geometry *)

(** X1.  [shrink] undoes [expand] and [expand] undoes [shrink], for every amount
    (nothing is clamped, so this holds also when the size goes negative in
    between). *)
Theorem expand_shrink_inverse (n : Z) (b : OCRBox) :
  shrink n (expand n b) = b /\ expand n (shrink n b) = b.
Proof. unfold shrink, expand. split; box_ext; lia. Qed.

Lemma contains_spec (a b : OCRBox) :
  contains a b = true
  <-> x a <= x b /\ y a <= y b /\ x b + width b <= x a + width a
      /\ y b + height b <= y a + height a.
Proof.
  unfold contains. rewrite !andb_true_iff, !Z.leb_le, !Z.geb_le. tauto.
Qed.

Lemma intersects_spec (a b : OCRBox) :
  intersects a b = true
  <-> x a < x b + width b /\ x b < x a + width a
      /\ y a < y b + height b /\ y b < y a + height a.
Proof.
  unfold intersects. rewrite !andb_true_iff, !Z.ltb_lt, !Z.gtb_gt.
  split; intros; repeat split; lia.
Qed.

(** X2.  [contains] is reflexive and transitive. *)
Theorem contains_preorder (a b c : OCRBox) :
  contains a a = true
  /\ (contains a b = true -> contains b c = true -> contains a c = true).
Proof.
  split.
  - apply contains_spec. lia.
  - rewrite !contains_spec. lia.
Qed.

Lemma contains_preorder_witness :
  contains (box_at 0 0 10 10) (box_at 1 1 8 8) = true
  /\ contains (box_at 1 1 8 8) (box_at 2 2 3 3) = true
  /\ contains (box_at 0 0 10 10) (box_at 2 2 3 3) = true.
Proof.
  split; [reflexivity|]. split; [reflexivity|].
  apply (proj2 (contains_preorder (box_at 0 0 10 10) (box_at 1 1 8 8)
                  (box_at 2 2 3 3))); reflexivity.
Defined.

(** X3.  [intersects] does not depend on the order of its two boxes; a box
    intersects every box of positive width and height that it contains; and
    two boxes that only share an edge do not intersect. *)
Theorem intersects_symmetric (a b : OCRBox) :
  intersects a b = intersects b a
  /\ (contains a b = true -> 0 < width b -> 0 < height b ->
      intersects a b = true)
  /\ (x a + width a = x b -> intersects a b = false).
Proof.
  split; [|split].
  - apply eq_true_iff_eq. rewrite !intersects_spec. lia.
  - rewrite contains_spec, intersects_spec. lia.
  - intros He. apply not_true_is_false. rewrite intersects_spec. lia.
Qed.

Lemma intersects_symmetric_witness :
  intersects (box_at 0 0 10 10) (box_at 2 2 3 3) = true
  /\ intersects (box_at 0 0 10 10) (box_at 10 0 5 10) = false.
Proof.
  pose proof (intersects_symmetric (box_at 0 0 10 10) (box_at 2 2 3 3)) as H1.
  pose proof (intersects_symmetric (box_at 0 0 10 10) (box_at 10 0 5 10)) as H2.
  split.
  - apply (proj1 (proj2 H1)); [reflexivity | reflexivity | reflexivity].
  - apply (proj2 (proj2 H2)). reflexivity.
Defined.

(** ** Conversion *)

(** X4.  The box [convert_to] returns has the class that the table gives for the
    target type and the target type itself.  It never carries [user_text]
    over: a new [TextBox] starts with the empty text and without the
    attribute [flows_into_next], also when the receiver was a [TextBox] with
    text, and a box of another class has none. *)
Theorem convert_to_class_and_text (b nb : OCRBox) (t : BoxType) :
  convert_to_box b t = Ok nb ->
  assoc_get BOX_TYPE_MAP (name t) = Some (cls nb)
  /\ type nb = t
  /\ text_state nb
     = (if is_TextBox nb
        then Some {| user_text := ""; flows_into_next := None |}
        else None).
Proof.
  unfold convert_to_box, assoc_index.
  destruct (assoc_get BOX_TYPE_MAP (name t)) as [c|] eqn:E; [|discriminate].
  destruct (drops_results t); intros [= <-]; unfold is_TextBox; box_simpl;
    unfold construct; box_simpl;
    (split; [reflexivity|]); (split; [reflexivity|]); by destruct c.
Qed.

Lemma convert_to_class_and_text_witness :
  exists nb,
    convert_to_box text_box_with_text HEADING_TEXT = Ok nb
    /\ assoc_get BOX_TYPE_MAP (name HEADING_TEXT) = Some (cls nb)
    /\ type nb = HEADING_TEXT
    /\ text_state nb
       = (if is_TextBox nb
          then Some {| user_text := ""; flows_into_next := None |}
          else None).
Proof.
  eexists. split; [reflexivity|].
  apply (convert_to_class_and_text text_box_with_text _ HEADING_TEXT).
  reflexivity.
Defined.

(** X5.  Two conversions in a row give the box of the second conversion alone,
    unless the first target drops the recognition result and the second
    keeps it: then the result is gone, where one conversion would keep it. *)
Theorem convert_to_twice (b nb1 nb2 : OCRBox) (t1 t2 : BoxType) :
  convert_to_box b t1 = Ok nb1 ->
  convert_to_box nb1 t2 = Ok nb2 ->
  if drops_results t1 && negb (drops_results t2)
  then convert_to_box b t2 = Ok (set_ocr_results (ocr_results b) nb2)
       /\ ocr_results nb2 = NoResults
  else convert_to_box b t2 = Ok nb2.
Proof.
  unfold convert_to_box.
  destruct (assoc_index BOX_TYPE_MAP (name t1)) as [c1|]; [|discriminate].
  destruct (assoc_index BOX_TYPE_MAP (name t2)) as [c2|];
    [|by destruct (drops_results t1); intros [= <-]].
  destruct (drops_results t1), (drops_results t2);
    intros [= <-] [= <-]; cbn [andb negb]; try split; try f_equal;
    unfold construct; box_ext.
Qed.

Lemma convert_to_twice_witness :
  exists nb1 nb2,
    convert_to_box text_box_with_text FLOWING_IMAGE = Ok nb1
    /\ convert_to_box nb1 FLOWING_TEXT = Ok nb2
    /\ convert_to_box text_box_with_text FLOWING_TEXT
       = Ok (set_ocr_results (ocr_results text_box_with_text) nb2)
    /\ ocr_results nb2 = NoResults.
Proof.
  eexists _, _. split; [reflexivity|]. split; [reflexivity|].
  exact (convert_to_twice text_box_with_text _ _ FLOWING_IMAGE FLOWING_TEXT
           eq_refl eq_refl).
Defined.

(** ** Records *)

Lemma name_injective (t1 t2 : BoxType) : name t1 = name t2 -> t1 = t2.
Proof.
  intros H. pose proof (BoxType_of_name_name t1) as H1.
  rewrite H, BoxType_of_name_name in H1. congruence.
Qed.

Lemma BoxType_of_name_unknown (tn : string) :
  (forall t, name t <> tn) -> BoxType_of_name tn = Raise (KeyError tn).
Proof.
  intros Hn. unfold BoxType_of_name.
  destruct (find (fun t => String.eqb (name t) tn) all_box_types) as [t|] eqn:E;
    [|reflexivity].
  apply find_some in E as [_ E]. apply String.eqb_eq in E. by destruct (Hn t).
Qed.

Section MoreRecordFacts.

Variable block_from_dict : PyVal -> result OCRResultBlock.

(** The reads of [position] and of its four keys. *)
Ltac read_position Hp Hx Hy Hw Hh :=
  unfold index_as, assoc_index, dict_get, get_ocr_results_data,
    load_ocr_results;
  cbn [as_dict rbind]; rewrite Hp; cbn [as_dict rbind];
  rewrite Hx, Hy, Hw, Hh; cbn [rbind].

(** X6.  A record that has only [id], [position] and [type] loads, for every
    class, as a box with order 0, empty [class] and [tag], confidence 0.0 and
    no recognition result; its type is the one named by the record, not the
    default of the class. *)
Theorem from_dict_defaults (c : BoxClass) (d pd : list (string * PyVal))
    (i : string) (x0 y0 w0 h0 : Z) (t : BoxType) :
  assoc_get d "position" = Some (PyDict pd) ->
  assoc_get pd "x" = Some (PyInt x0) -> assoc_get pd "y" = Some (PyInt y0) ->
  assoc_get pd "width" = Some (PyInt w0) ->
  assoc_get pd "height" = Some (PyInt h0) ->
  assoc_get d "id" = Some (PyStr i) ->
  assoc_get d "type" = Some (PyStr (name t)) ->
  assoc_get d "order" = None -> assoc_get d "class" = None ->
  assoc_get d "tag" = None -> assoc_get d "confidence" = None ->
  assoc_get d "ocr_results" = None -> assoc_get d "user_text" = None ->
  from_dict block_from_dict c (PyDict d)
  = Ok (set_type t (set_id i (construct c x0 y0 w0 h0 (default_type c)))).
Proof.
  intros Hp Hx Hy Hw Hh Hi Ht Ho Hc Hg Hf Hr Hu.
  assert (Hbase : forall c',
             OCRBox_from_dict block_from_dict c' (PyDict d)
             = Ok (set_type t (set_id i (construct c' x0 y0 w0 h0
                                                   (default_type c'))))).
  { intros c'. unfold OCRBox_from_dict. read_position Hp Hx Hy Hw Hh.
    rewrite Hi, Ho, Ht, Hc, Hg, Hf, Hr. cbn [rbind BoxType_getitem].
    rewrite BoxType_of_name_name.
    cbn [rbind py_truthy negb as_int as_str as_float].
    apply (f_equal Ok); unfold construct, default_type; box_ext. }
  destruct c; cbn [from_dict].
  1: exact (Hbase _).
  1: { unfold TextBox_from_dict. read_position Hp Hx Hy Hw Hh.
       rewrite Hi, Ho, Ht, Hc, Hg, Hf, Hr, Hu. cbn [rbind BoxType_getitem].
       rewrite BoxType_of_name_name.
       cbn [rbind py_truthy negb as_int as_str as_float].
       apply (f_equal Ok); unfold construct, default_type; box_ext. }
  all: unfold plain_from_dict; rewrite Hbase;
    unfold index_as, assoc_index, dict_get, get_ocr_results_data;
    cbn [as_dict rbind]; rewrite Hi, Ho, Ht, Hc, Hg, Hf, Hr;
    cbn [rbind BoxType_getitem as_int as_str as_float];
    rewrite BoxType_of_name_name; cbn [rbind];
    apply (f_equal Ok); unfold construct, default_type; box_ext.
Qed.

(** X7.  A record without [position] is refused with [KeyError] for that key,
    whatever else it holds.  With a position that has its four keys, a
    record without [id] is refused with [KeyError] for [id], one with [id]
    and without [type] with [KeyError] for [type], and one whose [type] is
    a string that names no member of [BoxType] with [KeyError] for that
    string: whatever the values of the position, of [id] and of every other
    key are.  No class falls back to a default for any of the three. *)
Theorem from_dict_required_keys (c : BoxClass) (d pd : list (string * PyVal)) :
  (assoc_get d "position" = None ->
   from_dict block_from_dict c (PyDict d) = Raise (KeyError "position"))
  /\ (assoc_get d "position" = Some (PyDict pd) ->
      is_Some (assoc_get pd "x") -> is_Some (assoc_get pd "y") ->
      is_Some (assoc_get pd "width") -> is_Some (assoc_get pd "height") ->
      (assoc_get d "id" = None ->
       from_dict block_from_dict c (PyDict d) = Raise (KeyError "id"))
      /\ (is_Some (assoc_get d "id") -> assoc_get d "type" = None ->
          from_dict block_from_dict c (PyDict d) = Raise (KeyError "type"))
      /\ (forall tn,
             is_Some (assoc_get d "id") ->
             assoc_get d "type" = Some (PyStr tn) -> (forall t, name t <> tn) ->
             from_dict block_from_dict c (PyDict d) = Raise (KeyError tn))).
Proof.
  assert (Hall : forall e,
             (forall c', OCRBox_from_dict block_from_dict c' (PyDict d) = Raise e) ->
             TextBox_from_dict block_from_dict (PyDict d) = Raise e ->
             from_dict block_from_dict c (PyDict d) = Raise e).
  { intros e Hbase Htext. destruct c; cbn [from_dict].
    1: exact (Hbase _).
    1: exact Htext.
    all: unfold plain_from_dict; by rewrite Hbase. }
  split; [|intros Hp [vx Hx] [vy Hy] [vw Hw] [vh Hh]; split; [|split]].
  - intros Hp. apply Hall; [intros c'|].
    + unfold OCRBox_from_dict, index_as, assoc_index.
      cbn [as_dict rbind]. by rewrite Hp.
    + unfold TextBox_from_dict, index_as, assoc_index.
      cbn [as_dict rbind]. by rewrite Hp.
  - intros Hi. apply Hall; [intros c'|].
    + unfold OCRBox_from_dict. read_position Hp Hx Hy Hw Hh. by rewrite Hi.
    + unfold TextBox_from_dict. read_position Hp Hx Hy Hw Hh. by rewrite Hi.
  - intros [vi Hi] Ht. apply Hall; [intros c'|].
    + unfold OCRBox_from_dict. read_position Hp Hx Hy Hw Hh.
      rewrite Hi. cbn [rbind]. by rewrite Ht.
    + unfold TextBox_from_dict. read_position Hp Hx Hy Hw Hh.
      rewrite Hi. cbn [rbind]. by rewrite Ht.
  - intros tn [vi Hi] Ht Hn.
    pose proof (BoxType_of_name_unknown tn Hn) as Hu.
    apply Hall; [intros c'|].
    + unfold OCRBox_from_dict. read_position Hp Hx Hy Hw Hh.
      rewrite Hi. cbn [rbind]. rewrite Ht. cbn [rbind BoxType_getitem].
      by rewrite Hu.
    + unfold TextBox_from_dict. read_position Hp Hx Hy Hw Hh.
      rewrite Hi. cbn [rbind]. rewrite Ht. cbn [rbind BoxType_getitem].
      by rewrite Hu.
Qed.

End MoreRecordFacts.

Section EqualityFacts.

Variable block_to_dict : OCRResultBlock -> PyVal.

Lemma record_eq_fields (a b : OCRBox) (ra rb : PyVal) :
  py_val_eqb
    (PyDict [("id", PyStr (id a)); ("position", position a);
             ("type", PyStr (name (type a)));
             ("class", PyStr (class_ a)); ("tag", PyStr (tag a));
             ("confidence", PyFloat (confidence a));
             ("order", PyInt (order a)); ("ocr_results", ra)])
    (PyDict [("id", PyStr (id b)); ("position", position b);
             ("type", PyStr (name (type b)));
             ("class", PyStr (class_ b)); ("tag", PyStr (tag b));
             ("confidence", PyFloat (confidence b));
             ("order", PyInt (order b)); ("ocr_results", rb)])
  = true ->
  id a = id b /\ order a = order b /\ geometry a = geometry b
  /\ type a = type b /\ class_ a = class_ b /\ tag a = tag b.
Proof.
  intros H. unfold position in H. cbn in H.
  rewrite !andb_true_iff in H.
  destruct H as (Hid & (Hx & Hy & Hw & Hh & _) & Hty & Hcl & Htg & _ & Ho & _).
  apply String.eqb_eq in Hid, Hty, Hcl, Htg.
  apply Z.eqb_eq in Hx, Hy, Hw, Hh, Ho.
  apply name_injective in Hty. unfold geometry.
  repeat split; congruence.
Qed.

Lemma box_eq_true (a b : OCRBox) :
  box_eq block_to_dict a b = Ok true ->
  cls a = cls b /\ id a = id b /\ order a = order b
  /\ geometry a = geometry b /\ type a = type b
  /\ class_ a = class_ b /\ tag a = tag b.
Proof.
  unfold box_eq.
  destruct (BoxClass_eqb (cls a) (cls b)) eqn:Ec; [|discriminate].
  assert (cls a = cls b) as Hc by (by destruct (cls a), (cls b)).
  unfold to_dict, OCRBox_to_dict. rewrite <- Hc.
  destruct (results_to_dict block_to_dict (ocr_results a)) as [ra|ea];
    [|by destruct (cls a)].
  destruct (results_to_dict block_to_dict (ocr_results b)) as [rb|eb];
    [|by destruct (cls a); cbn; try discriminate; destruct (text_state a)].
  destruct (cls a); cbn [rbind as_dict]; intros H;
    try (injection H as H; split;
         [reflexivity | exact (record_eq_fields a b ra rb H)]).
  destruct (text_state a) as [ta|]; [|discriminate].
  destruct (text_state b) as [tb|]; [|discriminate].
  injection H as H. split; [reflexivity|].
  apply (record_eq_fields a b ra rb). cbn in H |- *.
  rewrite !andb_true_iff in H. rewrite !andb_true_iff. tauto.
Qed.

(** X8.  Two boxes are equal ([==]) only if they are of one class and agree in
    [id], [order], geometry, [type], [class] and [tag]; boxes of two classes
    are unequal without their records being compared. *)
Theorem box_eq_fields (a b : OCRBox) :
  (box_eq block_to_dict a b = Ok true ->
   cls a = cls b /\ id a = id b /\ order a = order b
   /\ geometry a = geometry b /\ type a = type b
   /\ class_ a = class_ b /\ tag a = tag b)
  /\ (cls a <> cls b -> box_eq block_to_dict a b = Ok false).
Proof.
  split; [apply box_eq_true|].
  intros Hne. unfold box_eq.
  destruct (BoxClass_eqb (cls a) (cls b)) eqn:Ec; [|reflexivity].
  exfalso. apply Hne. by destruct (cls a), (cls b).
Qed.

End EqualityFacts.

Lemma from_dict_defaults_witness :
  from_dict count_block_from_dict ImageBox_cls
    (PyDict [("id", PyStr "b1");
             ("position", PyDict [("x", PyInt 1); ("y", PyInt 2);
                                  ("width", PyInt 3); ("height", PyInt 4)]);
             ("type", PyStr (name HEADING_TEXT))])
  = Ok (set_type HEADING_TEXT
          (set_id "b1" (construct ImageBox_cls 1 2 3 4
                                  (default_type ImageBox_cls)))).
Proof.
  apply (from_dict_defaults count_block_from_dict ImageBox_cls _
           [("x", PyInt 1); ("y", PyInt 2); ("width", PyInt 3);
            ("height", PyInt 4)]); reflexivity.
Defined.

Lemma from_dict_required_keys_witness :
  from_dict count_block_from_dict TextBox_cls
    (PyDict [("id", PyStr "b1"); ("type", PyStr (name HEADING_TEXT))])
  = Raise (KeyError "position")
  /\ from_dict count_block_from_dict CountBox_cls (PyDict bogus_record)
     = Raise (KeyError "BOGUS")
  /\ from_dict count_block_from_dict OCRBox_cls (PyDict odd_record)
     = Raise (KeyError "type").
Proof.
  split; [|split].
  - apply (proj1 (from_dict_required_keys count_block_from_dict TextBox_cls
                    _ [])). reflexivity.
  - apply (proj2 (proj2 (proj2 (from_dict_required_keys count_block_from_dict
                           CountBox_cls bogus_record position_1234)
                    eq_refl (mk_is_Some _ _ eq_refl) (mk_is_Some _ _ eq_refl)
                    (mk_is_Some _ _ eq_refl) (mk_is_Some _ _ eq_refl)))
             "BOGUS" (mk_is_Some _ _ eq_refl) eq_refl).
    intros t; by destruct t.
  - apply (proj1 (proj2 (proj2 (from_dict_required_keys count_block_from_dict
                           OCRBox_cls odd_record odd_position)
                    eq_refl (mk_is_Some _ _ eq_refl) (mk_is_Some _ _ eq_refl)
                    (mk_is_Some _ _ eq_refl) (mk_is_Some _ _ eq_refl)))
             (mk_is_Some _ _ eq_refl) eq_refl).
Defined.

Lemma box_eq_fields_witness :
  cls (box_at 1 2 3 4) = cls (box_at 1 2 3 4)
  /\ id (box_at 1 2 3 4) = id (box_at 1 2 3 4).
Proof.
  pose proof (proj1 (box_eq_fields count_block_to_dict (box_at 1 2 3 4)
                       (box_at 1 2 3 4)) eq_refl) as H.
  exact (conj (proj1 H) (proj1 (proj2 H))).
Defined.

(** ** Similarity *)

(** X9.  A box of the same position and size as the receiver scores exactly 1.0
    (when the receiver's width plus height is not zero).  The converse does
    not hold: the quotient is rounded, and next to a receiver 2^60 wide a box
    one pixel to the right scores 1.0 as well. *)
Theorem similarity_one_for_same_geometry :
  (forall self other : OCRBox,
      width self + height self <> 0 -> geometry self = geometry other ->
      similarity self other = Ok 1%float)
  /\ (let self := box_at 0 0 (2 ^ 60) 0 in
      let other := box_at 1 0 (2 ^ 60) 0 in
      geometry self <> geometry other
      /\ similarity self other = Ok 1%float).
Proof.
  split.
  - intros self other Hd. unfold geometry. intros [= Hx Hy Hw Hh].
    unfold similarity, py_truediv. rewrite <- Hx, <- Hy, <- Hw, <- Hh.
    rewrite !Z.sub_diag. cbn [Z.abs Z.add].
    destruct (Z.eqb_spec (width self + height self) 0) as [E|_];
      [contradiction|].
    by destruct (width self + height self).
  - split; [discriminate | vm_compute; reflexivity].
Qed.

(** ** Observers and updates *)

Lemma alter_at (f g : OCRBox -> OCRBox) (r : Ref) (h : list OCRBox) :
  ((r < length h)%nat -> f (h !!! r) = g (h !!! r)) ->
  alter f r h = alter g r h.
Proof.
  intros H. apply list_alter_ext; [|reflexivity].
  intros b Hb. rewrite <- (list_lookup_total_correct _ _ _ Hb).
  apply H. by eapply lookup_lt_Some.
Qed.

(** X10.  An observer registered with [add_callback] is called after the ones
    registered before it, once for each time it was registered, when the
    box notifies with a source other than the one of the update in
    progress. *)
Theorem notify_after_add_callback (self : Ref) (cb : Callback)
    (source : option string) (s : State) :
  (self < length (heap s))%nat ->
  option_string_eqb source (_update_source (heap s !!! self)) = false ->
  fst (add_callback self cb s) = Ok tt
  /\ notify_callbacks self source (snd (add_callback self cb s))
     = (Ok tt,
        add_calls (calls_to self (_callbacks (heap s !!! self))
                   ++ [{| call_callback := cb; call_box := self |}])
                  (snd (add_callback self cb s))).
Proof.
  intros Hlt Hsrc. split; [reflexivity|].
  rewrite notify_callbacks_run.
  unfold add_callback, update_box, modify. cbn [snd heap set_heap].
  rewrite list_lookup_total_alter_eq by exact Hlt. box_simpl.
  rewrite Hsrc. cbn [negb]. unfold calls_to. by rewrite map_app.
Qed.

Lemma notify_after_add_callback_witness :
  calls (snd (notify_callbacks 0%nat (Some "GUI")
                (snd (add_callback 0%nat 7%nat
                        (a_state [observed_box] [0%nat])))))
  = [{| call_callback := 7%nat; call_box := 0%nat |};
     {| call_callback := 7%nat; call_box := 0%nat |}].
Proof.
  rewrite (proj2 (notify_after_add_callback 0%nat 7%nat (Some "GUI")
                    (a_state [observed_box] [0%nat])
                    ltac:(cbn; lia) eq_refl)).
  reflexivity.
Defined.

(** X11.  Two moves of a box add up; of two resizes the last one counts; and a
    move and a resize can be made in either order.  (On the store: the log
    lines differ.) *)
Theorem updates_compose (self : Ref) (s : State) (a b c d : Z)
    (src1 src2 : option string) :
  heap (snd (update_position self c d src2
               (snd (update_position self a b src1 s))))
  = heap (snd (update_position self (a + c) (b + d) src2 s))
  /\ heap (snd (update_size self c d src2 (snd (update_size self a b src1 s))))
     = heap (snd (update_size self c d src2 s))
  /\ heap (snd (update_size self c d src2
                  (snd (update_position self a b src1 s))))
     = heap (snd (update_position self a b src1
                    (snd (update_size self c d src2 s)))).
Proof.
  rewrite !update_position_run, !update_size_run. cbn [snd heap].
  rewrite !list_alter_alter_eq.
  split; [|split]; apply alter_at; intros Hlt; unfold compose;
    rewrite ?list_lookup_total_alter_eq by exact Hlt;
    box_ext; lia.
Qed.

(** ** More on the layout *)

Lemma with_own_boxes (s : State) :
  with_ocr_boxes (ocr_boxes (layout (page s))) s = s.
Proof. destruct s as [h [ip po pr [bs rg hy fy]] lg cs]; reflexivity. Qed.

Lemma set_own_order (b : OCRBox) : set_order (order b) b = b.
Proof. by destruct b. Qed.

(** The renumber pass over boxes that already carry their positions. *)
Lemma renumber_from_contiguous (k : nat) (refs : list Ref) (h : list OCRBox) :
  (forall i r, refs !! i = Some r -> order (h !!! r) = Z.of_nat (k + i)) ->
  renumber_from k refs h = h.
Proof.
  revert k. induction refs as [|r rest IH]; intros k H; simpl; [reflexivity|].
  assert (alter (set_order (Z.of_nat k)) r h = h) as ->.
  { rewrite <- (list_alter_id (fun b => b) h r) at 2 by reflexivity.
    apply alter_at. intros _. rewrite <- (Nat.add_0_r k).
    rewrite <- (H 0%nat r eq_refl). apply set_own_order. }
  apply IH. intros i r' Hi. rewrite (H (S i) r' Hi). f_equal. lia.
Qed.

Lemma insert_by_key_Sorted {A} (key : A -> Z) (a : A) (l : list A) :
  Sorted Z.le (map key l) -> Sorted Z.le (map key (insert_by_key key a l)).
Proof.
  induction l as [|b rest IH]; simpl; intros Hs.
  - by repeat constructor.
  - apply Sorted_inv in Hs as [Hs Hhd].
    destruct (Z.leb_spec (key a) (key b)) as [Hle|Hgt]; simpl.
    + constructor; [by constructor | by constructor].
    + constructor; [by apply IH|].
      destruct rest as [|c rest']; simpl.
      * constructor. lia.
      * destruct (Z.leb_spec (key a) (key c)); constructor;
          [lia | by inversion Hhd].
Qed.

Lemma sort_by_key_Sorted {A} (key : A -> Z) (l : list A) :
  Sorted Z.le (map key (sort_by_key key l)).
Proof.
  induction l as [|a rest IH]; simpl; [constructor|].
  by apply insert_by_key_Sorted.
Qed.

Lemma sort_by_key_fixed {A} (key : A -> Z) (l : list A) :
  Sorted Z.le (map key l) -> sort_by_key key l = l.
Proof.
  induction l as [|a rest IH]; simpl; intros Hs; [reflexivity|].
  apply Sorted_inv in Hs as [Hs Hhd]. rewrite IH by exact Hs.
  destruct rest as [|b rest']; simpl; [reflexivity|].
  inversion Hhd; subst. by rewrite (proj2 (Z.leb_le _ _)).
Qed.

Lemma Sorted_seq (k n : nat) : Sorted Z.le (map Z.of_nat (seq k n)).
Proof.
  revert k. induction n as [|n IH]; intros k; simpl; constructor; [apply IH|].
  destruct n; simpl; constructor. lia.
Qed.

(** X12.  [sort_boxes] arranges the boxes by the [order] values they had, keeps
    every box (and every duplicate reference), and then numbers them from
    0: the values the sort went by are replaced. *)
Theorem sort_boxes_sorts (s : State) :
  exists s',
    sort_boxes s = (Ok tt, s')
    /\ ocr_boxes (layout (page s')) ≡ₚ ocr_boxes (layout (page s))
    /\ Sorted Z.le (map (fun r => order (heap s !!! r))
                        (ocr_boxes (layout (page s'))))
    /\ (distinct_boxes s ->
        orders s' = iota (length (ocr_boxes (layout (page s))))).
Proof.
  eexists. split; [apply sort_boxes_run|].
  cbn [renumbered with_ocr_boxes set_heap set_page set_layout set_ocr_boxes
       page layout ocr_boxes].
  split; [apply sort_by_key_Permutation|]. split; [apply sort_by_key_Sorted|].
  intros Hd.
  destruct (distinct_boxes_Permutation _ s Hd
              (sort_by_key_Permutation (fun r => order (heap s !!! r)) _))
    as [Hnd Hin].
  destruct (reordered_then_renumbered _ s Hnd Hin) as [Ho _].
  unfold renumbered, with_ocr_boxes in Ho.
  cbn [set_heap set_page set_layout set_ocr_boxes page layout ocr_boxes heap]
    in Ho.
  etrans; [exact Ho|]. f_equal. apply Permutation_length.
  apply sort_by_key_Permutation.
Qed.

(** X13.  On a layout whose boxes already carry 0, 1, ..., n-1 in sequence,
    [update_order] and [sort_boxes] change nothing. *)
Theorem sorted_layout_fixed (s : State) :
  orders s = iota (length (ocr_boxes (layout (page s)))) ->
  update_order s = (Ok tt, s) /\ sort_boxes s = (Ok tt, s).
Proof.
  intros Ho.
  assert (Hi : forall i r, ocr_boxes (layout (page s)) !! i = Some r ->
                           order (heap s !!! r) = Z.of_nat (0 + i)).
  { intros i r Hr.
    assert (orders s !! i = Some (order (heap s !!! r))) as H1.
    { unfold orders. by rewrite list_lookup_fmap, Hr. }
    rewrite Ho in H1. unfold iota in H1. rewrite list_lookup_fmap in H1.
    rewrite lookup_seq_lt in H1 by (by apply lookup_lt_Some in Hr).
    by injection H1 as <-. }
  assert (renumbered s = s) as Hr.
  { unfold renumbered. rewrite (renumber_from_contiguous 0 _ _ Hi).
    by destruct s. }
  split; [by rewrite update_order_run, Hr|].
  rewrite sort_boxes_run.
  assert (Sorted Z.le (map (fun r => order (heap s !!! r))
                           (ocr_boxes (layout (page s))))) as Hs.
  { fold (orders s). rewrite Ho. apply Sorted_seq. }
  by rewrite (sort_by_key_fixed _ _ Hs), with_own_boxes, Hr.
Qed.

Lemma sorted_layout_fixed_witness :
  update_order three_boxes = (Ok tt, three_boxes)
  /\ sort_boxes three_boxes = (Ok tt, three_boxes).
Proof. apply (sorted_layout_fixed three_boxes). reflexivity. Defined.

Lemma distinct_boxes_check (s : State) :
  bool_decide (NoDup (ocr_boxes (layout (page s)))) = true ->
  forallb (fun r => (r <? length (heap s))%nat) (ocr_boxes (layout (page s)))
  = true ->
  distinct_boxes s.
Proof.
  intros Hnd Hin. split; [by apply bool_decide_eq_true in Hnd|].
  intros r Hr. rewrite forallb_forall in Hin.
  apply Nat.ltb_lt, Hin. by apply list_elem_of_In.
Qed.

Lemma sort_boxes_sorts_witness :
  exists s',
    sort_boxes shuffled_boxes = (Ok tt, s')
    /\ ocr_boxes (layout (page s')) ≡ₚ [0%nat; 1%nat; 2%nat]
    /\ orders s' = [0; 1; 2].
Proof.
  destruct (sort_boxes_sorts shuffled_boxes) as (s' & Hrun & Hp & _ & Ho).
  exists s'. split; [exact Hrun|]. split; [exact Hp|].
  apply Ho. by apply distinct_boxes_check.
Defined.

(** ** Positions in the layout *)

Lemma py_insert_at {A} (l : list A) (k : nat) (i : Z) (a : A) :
  Z.max 0 (Z.min (norm_index (length l) i) (Z.of_nat (length l))) = Z.of_nat k ->
  py_insert l i a = (take k l ++ a :: drop k l)%list.
Proof. intros H. unfold py_insert. by rewrite H, Nat2Z.id. Qed.

Lemma py_getitem_nat {A} (l : list A) (i : nat) (a : A) :
  l !! i = Some a -> py_getitem l (Z.of_nat i) = Ok a.
Proof.
  intros Hi. pose proof (lookup_lt_Some _ _ _ Hi) as Hlt.
  unfold py_getitem, norm_index, in_range.
  destruct (Z.ltb_spec (Z.of_nat i) 0) as [?|_]; [lia|].
  rewrite (proj2 (Z.leb_le _ _)) by lia.
  rewrite (proj2 (Z.ltb_lt _ _)) by lia. by rewrite Nat2Z.id, Hi.
Qed.

Lemma py_getitem_negative {A} (l : list A) (i : Z) :
  - Z.of_nat (length l) <= i < 0 ->
  py_getitem l i = py_getitem l (i + Z.of_nat (length l)).
Proof.
  intros Hi. unfold py_getitem, norm_index.
  destruct (Z.ltb_spec i 0) as [_|?]; [|lia].
  by destruct (Z.ltb_spec (i + Z.of_nat (length l)) 0) as [?|_]; [lia|].
Qed.

(** X14.  [add_ocr_box] never fails, whatever the index.  An index at or past the
    end appends (as no index does) and one at or before the start puts the
    box first; an index from 0 to the length is where the box is then found;
    and a negative index [i] that is in range puts the box before the item
    it names, so that the box is found at [i - 1]: adding at [-1] does not
    append. *)
Theorem add_ocr_box_position (box : Ref) (i : Z) (s : State) :
  let boxes := ocr_boxes (layout (page s)) in
  let n := Z.of_nat (length boxes) in
  let s' := snd (add_ocr_box box (Some i) s) in
  fst (add_ocr_box box (Some i) s) = Ok tt
  /\ length (ocr_boxes (layout (page s'))) = S (length boxes)
  /\ (n <= i -> add_ocr_box box (Some i) s = add_ocr_box box None s)
  /\ (i <= - n -> ocr_boxes (layout (page s')) = box :: boxes)
  /\ (0 <= i <= n -> get_ocr_box i s' = (Ok box, s'))
  /\ (- n <= i < 0 -> get_ocr_box (i - 1) s' = (Ok box, s')).
Proof.
  cbv zeta. rewrite !add_ocr_box_run. cbn [fst snd].
  unfold get_ocr_box. rewrite !bind_get_ocr_boxes.
  cbn [renumbered with_ocr_boxes set_heap set_page set_layout set_ocr_boxes
       page layout ocr_boxes].
  set (l := ocr_boxes (layout (page s))).
  split; [reflexivity|]. split.
  { rewrite (Permutation_length (py_insert_Permutation l i box)). reflexivity. }
  split; [|split; [|split]]; intros Hi.
  - rewrite (py_insert_at l (length l)) by (unfold norm_index;
      destruct (Z.ltb_spec i 0); lia).
    by rewrite firstn_all, drop_all.
  - rewrite (py_insert_at l 0) by (unfold norm_index;
      destruct (Z.ltb_spec i 0); lia).
    reflexivity.
  - rewrite (py_insert_at l (Z.to_nat i)) by (unfold norm_index;
      destruct (Z.ltb_spec i 0); lia).
    unfold lift_result. f_equal.
    rewrite <- (Z2Nat.id i) at 3 by lia. apply py_getitem_nat.
    apply list_lookup_middle. rewrite length_take. lia.
  - rewrite (py_insert_at l (Z.to_nat (i + Z.of_nat (length l))))
      by (unfold norm_index; destruct (Z.ltb_spec i 0); lia).
    unfold lift_result. f_equal.
    rewrite py_getitem_negative
      by (rewrite length_app, length_take; simpl; rewrite length_drop; lia).
    replace (i - 1 + _)
      with (Z.of_nat (Z.to_nat (i + Z.of_nat (length l))))
      by (rewrite length_app, length_take; simpl; rewrite length_drop; lia).
    apply py_getitem_nat. apply list_lookup_middle. rewrite length_take. lia.
Qed.

Lemma add_ocr_box_position_witness :
  ocr_boxes (layout (page (snd (add_ocr_box 0%nat (Some (-7)) three_boxes))))
  = [0%nat; 0%nat; 1%nat; 2%nat]
  /\ fst (get_ocr_box (-2) (snd (add_ocr_box 0%nat (Some (-1)) three_boxes)))
     = Ok 0%nat.
Proof.
  split.
  - apply (proj1 (proj2 (proj2 (proj2
             (add_ocr_box_position 0%nat (-7) three_boxes))))).
    cbn. lia.
  - change (-2) with (-1 - 1).
    rewrite (proj2 (proj2 (proj2 (proj2 (proj2
               (add_ocr_box_position 0%nat (-1) three_boxes)))))
               ltac:(cbn; lia)).
    reflexivity.
Defined.

Lemma py_pop_negative {A} (l : list A) (i : Z) :
  - Z.of_nat (length l) <= i < 0 ->
  py_pop l i = py_pop l (i + Z.of_nat (length l)).
Proof.
  intros Hi. unfold py_pop, norm_index.
  destruct (Z.ltb_spec i 0) as [_|?]; [|lia].
  by destruct (Z.ltb_spec (i + Z.of_nat (length l)) 0) as [?|_]; [lia|].
Qed.

(** X15.  [remove_ocr_box] takes an index from [-n] to [n - 1], where a negative
    index counts from the end; the layout is then one box shorter and the
    box that was at the index is the one that went.  Any other index raises
    [IndexError] and changes nothing. *)
Theorem remove_ocr_box_index (index : Z) (s : State) :
  let boxes := ocr_boxes (layout (page s)) in
  let n := Z.of_nat (length boxes) in
  (0 <= index < n ->
   remove_ocr_box index s
   = (Ok tt, renumbered (with_ocr_boxes (delete (Z.to_nat index) boxes) s))
   /\ remove_ocr_box (index - n) s = remove_ocr_box index s
   /\ length (delete (Z.to_nat index) boxes) = Nat.pred (length boxes))
  /\ (index < - n \/ n <= index ->
      remove_ocr_box index s = (Raise IndexError, s)).
Proof.
  cbv zeta. set (l := ocr_boxes (layout (page s))). split.
  - intros Hi.
    destruct (lookup_lt_is_Some_2 l (Z.to_nat index)) as [r Hr]; [lia|].
    assert (remove_ocr_box index s
            = (Ok tt, renumbered (with_ocr_boxes (delete (Z.to_nat index) l) s)))
      as Hrun.
    { rewrite remove_ocr_box_run. fold l.
      rewrite <- (Z2Nat.id index) at 1 by lia.
      by rewrite (py_pop_nat _ _ _ Hr). }
    split; [exact Hrun|]. split.
    + rewrite Hrun, remove_ocr_box_run. fold l.
      rewrite py_pop_negative by lia.
      replace (index - Z.of_nat (length l) + Z.of_nat (length l))
        with (Z.of_nat (Z.to_nat index)) by lia.
      by rewrite (py_pop_nat _ _ _ Hr).
    + rewrite length_delete by eauto. lia.
  - intros Hi. apply remove_ocr_box_out_of_range. fold l.
    unfold in_range, norm_index.
    destruct (Z.ltb_spec index 0); apply andb_false_iff;
      rewrite Z.leb_gt, Z.ltb_ge; lia.
Qed.

Lemma remove_ocr_box_index_witness :
  remove_ocr_box (-1) three_boxes = remove_ocr_box 2 three_boxes
  /\ remove_ocr_box 3 three_boxes = (Raise IndexError, three_boxes).
Proof.
  split.
  - apply (proj1 (proj2 (proj1 (remove_ocr_box_index 2 three_boxes)
                           ltac:(cbn; lia)))).
  - apply (proj2 (remove_ocr_box_index 3 three_boxes)). cbn. lia.
Defined.

(** X16.  [move_ocr_box] with both indices from 0 to [n - 1] puts the box that
    was at [index] at [new_index] and keeps every box; moving a box to
    where it is leaves the sequence as it was. *)
Theorem move_ocr_box_position (index new_index : Z) (r : Ref) (s : State) :
  let boxes := ocr_boxes (layout (page s)) in
  let n := Z.of_nat (length boxes) in
  0 <= index < n -> 0 <= new_index < n ->
  boxes !! Z.to_nat index = Some r ->
  exists s',
    move_ocr_box index new_index s = (Ok tt, s')
    /\ ocr_boxes (layout (page s')) !! Z.to_nat new_index = Some r
    /\ ocr_boxes (layout (page s')) ≡ₚ boxes
    /\ (index = new_index -> ocr_boxes (layout (page s')) = boxes).
Proof.
  cbv zeta. set (l := ocr_boxes (layout (page s))). intros Hi Hj Hr.
  eexists. split.
  { rewrite move_ocr_box_run. fold l.
    rewrite <- (Z2Nat.id index) at 1 by lia.
    rewrite (py_pop_nat _ _ _ Hr). reflexivity. }
  cbn [renumbered with_ocr_boxes set_heap set_page set_layout set_ocr_boxes
       page layout ocr_boxes fst snd].
  assert (length (delete (Z.to_nat index) l) = Nat.pred (length l)) as Hlen.
  { rewrite length_delete by eauto. lia. }
  rewrite (py_insert_at _ (Z.to_nat new_index))
    by (rewrite Hlen; unfold norm_index;
        destruct (Z.ltb_spec new_index 0); lia).
  split; [|split].
  - apply list_lookup_middle. rewrite length_take, Hlen. lia.
  - rewrite <- (py_insert_at _ _ new_index)
      by (rewrite Hlen; unfold norm_index;
          destruct (Z.ltb_spec new_index 0); lia).
    rewrite py_insert_Permutation.
    rewrite delete_take_drop, Permutation_middle.
    by rewrite (take_drop_middle _ _ _ Hr).
  - intros <-. rewrite delete_take_drop.
    rewrite take_app_le by (rewrite length_take; lia).
    rewrite take_take, Nat.min_id.
    rewrite drop_app_ge by (rewrite length_take; lia).
    rewrite length_take, Nat.min_l by lia.
    rewrite Nat.sub_diag. cbn [drop]. apply take_drop_middle, Hr.
Qed.

Lemma move_ocr_box_position_witness :
  exists s',
    move_ocr_box 0 2 three_boxes = (Ok tt, s')
    /\ ocr_boxes (layout (page s')) !! 2%nat = Some 0%nat
    /\ ocr_boxes (layout (page s')) ≡ₚ [0%nat; 1%nat; 2%nat].
Proof.
  destruct (move_ocr_box_position 0 2 0%nat three_boxes)
    as (s' & Hrun & Hat & Hp & _); [cbn; lia | cbn; lia | reflexivity |].
  exists s'. split; [exact Hrun|]. split; [exact Hat | exact Hp].
Defined.

Lemma py_getitem_at {A} (l : list A) (j : Z) (a : A) :
  0 <= j -> l !! Z.to_nat j = Some a -> py_getitem l j = Ok a.
Proof. intros Hj Ha. rewrite <- (Z2Nat.id j) by lia. by apply py_getitem_nat. Qed.

(** X17.  [replace_ocr_box] with an index from 0 to [n - 1] puts the box at the
    index and touches nothing else: no box object is changed (so no order is
    renumbered), the layout keeps its length, and [get_ocr_box] returns the
    new box at the index and the old ones elsewhere.  An index from [n] on
    raises [IndexError] and changes nothing. *)
Theorem replace_ocr_box_effect (index : Z) (box : Ref) (s : State) :
  let boxes := ocr_boxes (layout (page s)) in
  let n := Z.of_nat (length boxes) in
  (0 <= index < n ->
   exists s',
     replace_ocr_box index box s = (Ok tt, s')
     /\ heap s' = heap s
     /\ length (ocr_boxes (layout (page s'))) = length boxes
     /\ get_ocr_box index s' = (Ok box, s')
     /\ (forall j, 0 <= j < n -> j <> index ->
                   fst (get_ocr_box j s') = fst (get_ocr_box j s)))
  /\ (n <= index -> replace_ocr_box index box s = (Raise IndexError, s)).
Proof.
  cbv zeta. set (l := ocr_boxes (layout (page s))).
  unfold replace_ocr_box, get_ocr_box. split.
  - intros Hi. rewrite bind_get_ocr_boxes. fold l.
    rewrite py_setitem_valid
      by (apply andb_true_iff; rewrite Z.leb_le, Z.ltb_lt; lia).
    rewrite bind_lift_ok. eexists. split; [reflexivity|].
    cbn [heap set_page]. split; [reflexivity|].
    rewrite !bind_get_ocr_boxes.
    cbn [set_heap set_page set_layout set_ocr_boxes page layout ocr_boxes].
    split; [apply length_insert|]. split.
    + unfold lift_result. f_equal. rewrite <- (Z2Nat.id index) at 2 by lia.
      apply py_getitem_nat, list_lookup_insert_eq. lia.
    + intros j Hj Hne. rewrite !bind_get_ocr_boxes. unfold lift_result.
      cbn [set_heap set_page set_layout set_ocr_boxes page layout ocr_boxes
           fst].
      fold l.
      destruct (lookup_lt_is_Some_2 l (Z.to_nat j)) as [r Hr]; [lia|].
      rewrite (py_getitem_at l j r) by (lia || exact Hr).
      apply py_getitem_at; [lia|].
      rewrite list_lookup_insert_ne by lia. exact Hr.
  - intros Hi. rewrite bind_get_ocr_boxes. fold l.
    unfold py_setitem, norm_index, in_range.
    destruct (Z.ltb_spec index 0); [lia|].
    rewrite (proj2 (Z.ltb_ge _ _)) by lia. rewrite andb_false_r.
    by rewrite bind_lift_raise.
Qed.

Lemma replace_ocr_box_effect_witness :
  (exists s',
      replace_ocr_box 1 0%nat three_boxes = (Ok tt, s')
      /\ heap s' = heap three_boxes
      /\ get_ocr_box 1 s' = (Ok 0%nat, s'))
  /\ replace_ocr_box 3 0%nat three_boxes = (Raise IndexError, three_boxes).
Proof.
  split.
  - destruct (proj1 (replace_ocr_box_effect 1 0%nat three_boxes))
      as (s' & Hrun & Hh & _ & Hget & _); [cbn; lia|].
    exists s'. split; [exact Hrun|]. split; [exact Hh | exact Hget].
  - apply (proj2 (replace_ocr_box_effect 3 0%nat three_boxes)). cbn. lia.
Defined.

(** ** Lookup by id *)

Lemma find_box_by_id_spec (h : list OCRBox) (l : list Ref) (box_id : string) :
  match find_box_by_id h l box_id with
  | Some r =>
      exists i, l !! i = Some r /\ id (h !!! r) = box_id
                /\ forall j r', (j < i)%nat -> l !! j = Some r' ->
                                id (h !!! r') <> box_id
  | None => forall r, r ∈ l -> id (h !!! r) <> box_id
  end.
Proof.
  induction l as [|r rest IH]; simpl.
  - intros r Hr. by apply elem_of_nil in Hr.
  - destruct (String.eqb_spec (id (h !!! r)) box_id) as [E|N].
    + exists 0%nat. split; [reflexivity|]. split; [exact E|]. intros; lia.
    + destruct (find_box_by_id h rest box_id) as [r0|].
      * destruct IH as (i & Hi & Hid & Hfirst). exists (S i).
        split; [exact Hi|]. split; [exact Hid|].
        intros [|j] r' Hj Hr'; simpl in Hr'; [by injection Hr' as <-|].
        apply (Hfirst j r'); [lia | exact Hr'].
      * intros r' [->|Hr']%elem_of_cons; [exact N | by apply IH].
Qed.

(** X18.  [get_ocr_box_by_id] changes nothing and never fails.  It returns the
    first box of the layout that has the id, and [None] exactly when no box
    of the layout has it. *)
Theorem get_ocr_box_by_id_spec (box_id : string) (s : State) :
  let boxes := ocr_boxes (layout (page s)) in
  exists o,
    get_ocr_box_by_id box_id s = (Ok o, s)
    /\ match o with
       | Some r =>
           exists i, boxes !! i = Some r /\ id (heap s !!! r) = box_id
                     /\ forall j r', (j < i)%nat -> boxes !! j = Some r' ->
                                     id (heap s !!! r') <> box_id
       | None => forall r, r ∈ boxes -> id (heap s !!! r) <> box_id
       end.
Proof.
  cbv zeta. eexists. split; [reflexivity|]. apply find_box_by_id_spec.
Qed.

Lemma find_box_by_id_ext (h h' : list OCRBox) (l : list Ref) (box_id : string) :
  (forall r, id (h' !!! r) = id (h !!! r)) ->
  find_box_by_id h' l box_id = find_box_by_id h l box_id.
Proof.
  intros H. induction l as [|r rest IH]; simpl; [reflexivity|].
  by rewrite H, IH.
Qed.

(** X19.  When the boxes of the layout have different ids, a box removed with
    [remove_box_by_id] is no longer found by [get_ocr_box_by_id]. *)
Theorem removed_id_not_found (box_id : string) (s : State) :
  NoDup (map (fun r => id (heap s !!! r)) (ocr_boxes (layout (page s)))) ->
  exists s',
    remove_box_by_id box_id s = (Ok tt, s')
    /\ get_ocr_box_by_id box_id s' = (Ok None, s').
Proof.
  intros Hnd. set (l := ocr_boxes (layout (page s))) in *.
  pose proof (find_box_by_id_spec (heap s) l box_id) as Hf.
  destruct (find_box_by_id (heap s) l box_id) as [r|] eqn:Ef.
  - destruct Hf as (i & Hi & Hid & Hfirst).
    exists (renumbered (with_ocr_boxes (delete i l) s)). split.
    + unfold remove_box_by_id. rewrite bind_get_ocr_boxes. fold l.
      change (enumerate l) with (imap (fun i a => (Z.of_nat (0 + i), a)) l).
      rewrite (remove_box_by_id_loop_hit 0 _ box_id s i r Hi Hid Hfirst).
      rewrite remove_ocr_box_run. cbn [Nat.add]. fold l.
      by rewrite (py_pop_nat _ _ _ Hi).
    + unfold get_ocr_box_by_id. rewrite bind_get_ocr_boxes, bind_gets.
      unfold ret. f_equal. f_equal.
      cbn [renumbered with_ocr_boxes set_heap set_page set_layout
           set_ocr_boxes page layout ocr_boxes heap].
      rewrite (find_box_by_id_ext (heap s)).
      2: { intros r'.
           destruct (renumber_from_set_order 0 (delete i l) (heap s) r')
             as [v ->]. reflexivity. }
      pose proof (find_box_by_id_spec (heap s) (delete i l) box_id) as Hg.
      destruct (find_box_by_id (heap s) (delete i l) box_id) as [r2|];
        [exfalso|reflexivity].
      destruct Hg as (j & Hj & Hid2 & _).
      assert (exists j', j' <> i /\ l !! j' = Some r2) as (j' & Hne & Hj').
      { destruct (decide (j < i)%nat).
        - exists j. split; [lia|]. by rewrite list_lookup_delete_lt in Hj.
        - exists (S j). split; [lia|]. by rewrite list_lookup_delete_ge in Hj by lia. }
      apply Hne. eapply (NoDup_lookup _ _ _ _ Hnd).
      * rewrite list_lookup_fmap, Hj'. reflexivity.
      * rewrite list_lookup_fmap, Hi. simpl. by rewrite Hid, Hid2.
  - exists s. split.
    + unfold remove_box_by_id. rewrite bind_get_ocr_boxes.
      exact (remove_box_by_id_loop_miss 0 _ box_id s Hf).
    + unfold get_ocr_box_by_id. rewrite bind_get_ocr_boxes, bind_gets.
      fold l. by rewrite Ef.
Qed.

Lemma removed_id_not_found_witness :
  exists s',
    remove_box_by_id "b" three_boxes = (Ok tt, s')
    /\ get_ocr_box_by_id "b" s' = (Ok None, s').
Proof.
  apply (removed_id_not_found "b" three_boxes).
  apply (bool_decide_unpack _). reflexivity.
Defined.

(** ** Analysis of one box *)

Lemma alloc_all_run (bs : list OCRBox) (s : State) :
  alloc_all bs s
  = (Ok (seq (length (heap s)) (length bs)), set_heap (heap s ++ bs) s).
Proof.
  revert s. induction bs as [|b rest IH]; intros s; simpl.
  - unfold ret. rewrite app_nil_r. by destruct s.
  - unfold bind at 1. unfold alloc. unfold bind at 1. rewrite IH.
    unfold ret, set_heap. cbn [heap page log calls].
    rewrite length_app, <- app_assoc. cbn [length app].
    by rewrite Nat.add_1_r.
Qed.

Lemma set_heap_twice (h h' : list OCRBox) (s : State) :
  set_heap h (set_heap h' s) = set_heap h s.
Proof. reflexivity. Qed.

Lemma analyze_ocr_box__run (i : Z) (r : Ref) (s : State) :
  valid_index s i = true ->
  ocr_boxes (layout (page s)) !! Z.to_nat i = Some r ->
  analyze_ocr_box_ i s
  = (Ok (fst (analysis_of r s)), snd (analysis_of r s)).
Proof.
  intros Hv Hr. unfold valid_index in Hv.
  destruct (py_getitem_valid _ _ Hv) as (r' & Hr' & Hg).
  rewrite Hr in Hr'. injection Hr' as <-.
  unfold analyze_ocr_box_, is_valid_box_index.
  rewrite !bind_assoc, bind_get_ocr_boxes, bind_ret, Hv. cbn [negb].
  rewrite bind_get_ocr_boxes, Hg, bind_lift_ok, bind_get_box.
  unfold try_except, analyze_region, analysis_of. rewrite bind_gets.
  destruct (image_path_set (page s)) as [path|]; [|reflexivity].
  destruct (ocr_processor (page s)) as [proc|]; [|reflexivity].
  by rewrite alloc_all_run.
Qed.

(** X20.  When the backend finds exactly one box in the region of a box of the
    layout, [analyze_ocr_box] gives the found box, a new object, the id, the
    order and the observers of the old box and then reads the old box's
    [user_data].  An old box without that attribute, as every box is that
    the constructors or [from_dict] have made, ends the call there with
    [AttributeError]: the layout still holds the old box and no observer is
    called.  When the old box has the attribute, the found box takes it over
    too and keeps its own geometry, type and recognition result; it takes
    the place of the old box in the layout, which is otherwise as before,
    and the observers taken over are called with the new box. *)
Theorem analyze_ocr_box_one (i : Z) (r : Ref) (path : string)
    (proc : OCRProcessor) (nb : OCRBox) (s : State) :
  valid_index s i = true ->
  ocr_boxes (layout (page s)) !! Z.to_nat i = Some r ->
  (r < length (heap s))%nat ->
  image_path_set (page s) = Some path ->
  ocr_processor (page s) = Some proc ->
  analyze_layout proc path (geometry (heap s !!! r)) = [nb] ->
  _update_source nb = None ->
  let taken := set__callbacks (_callbacks (heap s !!! r))
                 (set_order (order (heap s !!! r))
                    (set_id (id (heap s !!! r)) nb)) in
  match user_data (heap s !!! r) with
  | None =>
      exists s',
        analyze_ocr_box i s = (Raise (AttributeError "user_data"), s')
        /\ heap s' = (heap s ++ [taken])%list
        /\ page s' = page s
        /\ calls s' = calls s
  | Some data =>
      exists s',
        analyze_ocr_box i s = (Ok tt, s')
        /\ heap s' = (heap s ++ [set_user_data data taken])%list
        /\ ocr_boxes (layout (page s'))
           = <[Z.to_nat i := length (heap s)]> (ocr_boxes (layout (page s)))
        /\ calls s'
           = (calls s
              ++ calls_to (length (heap s)) (_callbacks (heap s !!! r)))%list
  end.
Proof.
  intros Hv Hr Hlt Hpath Hproc Hone Hsrc. cbv zeta.
  pose proof Hv as Hv'. unfold valid_index in Hv'.
  destruct (py_getitem_valid _ _ Hv') as (r' & Hr' & Hg).
  rewrite Hr in Hr'. injection Hr' as <-.
  assert (Hnew : forall (f : OCRBox -> OCRBox) (b : OCRBox),
             alter f (length (heap s)) (heap s ++ [b])%list
             = (heap s ++ [f b])%list).
  { intros f b. rewrite alter_app_r_alt by lia. by rewrite Nat.sub_diag. }
  destruct (user_data (heap s !!! r)) as [data|] eqn:Ed.
  all: unfold analyze_ocr_box; unfold bind at 1;
    rewrite (analyze_ocr_box__run i r s Hv Hr); unfold analysis_of;
    rewrite Hpath, Hproc, Hone; cbn [fst snd length seq];
    rewrite bind_get_ocr_boxes; cbn [set_heap page]; rewrite Hg, bind_lift_ok;
    do 3 (rewrite bind_get_box, bind_update_box;
          cbn [set_heap heap page log calls]; rewrite ?set_heap_twice;
          rewrite Hnew; rewrite (lookup_total_app_l (heap s)) by exact Hlt);
    rewrite bind_get_box; cbn [set_heap heap page log calls];
    rewrite (lookup_total_app_l (heap s)) by exact Hlt;
    unfold read_user_data; rewrite Ed.
  - rewrite bind_lift_ok, bind_update_box.
    cbn [set_heap heap page log calls]. rewrite Hnew.
    rewrite bind_get_ocr_boxes. cbn [page].
    rewrite (py_setitem_valid _ _ _ Hv'), bind_lift_ok.
    unfold bind at 1. unfold put_ocr_boxes, modify.
    rewrite notify_callbacks_run. cbn [heap set_heap set_page].
    rewrite lookup_total_app_r by lia. rewrite Nat.sub_diag.
    cbn [lookup_total list_lookup_total]. box_simpl. rewrite Hsrc.
    cbn [option_string_eqb negb].
    eexists. split; [reflexivity|].
    unfold add_calls. cbn [heap page calls layout ocr_boxes set_layout
                            set_ocr_boxes].
    split; [reflexivity|]. split; reflexivity.
  - rewrite bind_lift_raise. eexists. split; [reflexivity|].
    cbn [heap page calls]. by repeat split.
Qed.

(** The box of a page as the constructor has made it, and the same box once
    [user_data] has been assigned to it. *)
Lemma analyze_ocr_box_one_witness :
  (exists s',
      analyze_ocr_box 0
        (with_backend (fixed_backend [box_at 1 2 3 4])
                      (a_state [observed_box] [0%nat]))
      = (Raise (AttributeError "user_data"), s')
      /\ ocr_boxes (layout (page s')) = [0%nat]
      /\ id (heap s' !!! 1%nat) = "b0"
      /\ calls s' = [])
  /\ (exists s',
         analyze_ocr_box 0
           (with_backend (fixed_backend [box_at 1 2 3 4])
                         (a_state [set_user_data [] observed_box] [0%nat]))
         = (Ok tt, s')
         /\ ocr_boxes (layout (page s')) = [1%nat]
         /\ id (heap s' !!! 1%nat) = "b0"
         /\ geometry (heap s' !!! 1%nat) = (1, 2, 3, 4)
         /\ calls s' = [{| call_callback := 7%nat; call_box := 1%nat |}]).
Proof.
  split.
  - destruct (analyze_ocr_box_one 0 0%nat "page.png"
                (fixed_backend [box_at 1 2 3 4]) (box_at 1 2 3 4)
                (with_backend (fixed_backend [box_at 1 2 3 4])
                              (a_state [observed_box] [0%nat])))
      as (s' & Hrun & Hheap & Hpage & Hcalls);
      [reflexivity | reflexivity | cbn; lia | reflexivity | reflexivity
      | reflexivity | reflexivity |].
    exists s'. split; [exact Hrun|]. rewrite Hpage, Hheap.
    split; [reflexivity|]. split; [reflexivity | exact Hcalls].
  - destruct (analyze_ocr_box_one 0 0%nat "page.png"
                (fixed_backend [box_at 1 2 3 4]) (box_at 1 2 3 4)
                (with_backend (fixed_backend [box_at 1 2 3 4])
                              (a_state [set_user_data [] observed_box] [0%nat])))
      as (s' & Hrun & Hheap & Hboxes & Hcalls);
      [reflexivity | reflexivity | cbn; lia | reflexivity | reflexivity
      | reflexivity | reflexivity |].
    exists s'. split; [exact Hrun|]. split; [exact Hboxes|].
    rewrite Hheap. split; [reflexivity|]. split; [reflexivity | exact Hcalls].
Defined.

(** X21.  When nothing is recognized in the region of a box of the layout -- the
    page has no image, or no backend, or the backend finds no box there --
    [analyze_ocr_box] and [align_ocr_box] return normally and remove the box
    from the layout; the other boxes are renumbered. *)
Theorem analysis_without_result_removes (i : Z) (r : Ref) (s : State) :
  valid_index s i = true ->
  ocr_boxes (layout (page s)) !! Z.to_nat i = Some r ->
  image_path_set (page s) = None
  \/ ocr_processor (page s) = None
  \/ (exists path proc,
         image_path_set (page s) = Some path
         /\ ocr_processor (page s) = Some proc
         /\ analyze_layout proc path (geometry (heap s !!! r)) = []) ->
  exists s1,
    heap s1 = heap s /\ page s1 = page s /\ calls s1 = calls s
    /\ analyze_ocr_box i s
       = (Ok tt,
          renumbered
            (with_ocr_boxes
               (delete (Z.to_nat i) (ocr_boxes (layout (page s)))) s1))
    /\ align_ocr_box i s
       = (Ok tt,
          renumbered
            (with_ocr_boxes
               (delete (Z.to_nat i) (ocr_boxes (layout (page s)))) s1)).
Proof.
  intros Hv Hr Hnone.
  assert (fst (analysis_of r s) = []
          /\ heap (snd (analysis_of r s)) = heap s
          /\ page (snd (analysis_of r s)) = page s
          /\ calls (snd (analysis_of r s)) = calls s) as (Hf & Hh & Hp & Hc).
  { unfold analysis_of.
    destruct Hnone as [-> | [Hproc | (path & proc & -> & -> & ->)]].
    - by repeat split.
    - rewrite Hproc. by destruct (image_path_set (page s)).
    - cbn [length seq fst snd set_heap heap page calls].
      by rewrite app_nil_r. }
  exists (snd (analysis_of r s)).
  split; [exact Hh|]. split; [exact Hp|]. split; [exact Hc|].
  assert (remove_ocr_box i (snd (analysis_of r s))
          = (Ok tt,
             renumbered
               (with_ocr_boxes
                  (delete (Z.to_nat i) (ocr_boxes (layout (page s))))
                  (snd (analysis_of r s))))) as Hrm.
  { rewrite remove_ocr_box_run, Hp.
    unfold valid_index in Hv. apply andb_true_iff in Hv as [Hv _].
    apply Z.leb_le in Hv. rewrite <- (Z2Nat.id i) at 1 by lia.
    by rewrite (py_pop_nat _ _ _ Hr). }
  split.
  - unfold analyze_ocr_box. unfold bind at 1.
    rewrite (analyze_ocr_box__run i r s Hv Hr), Hf. cbn [for_each].
    unfold bind at 1. rewrite Hrm. reflexivity.
  - unfold align_ocr_box. unfold bind at 1.
    by rewrite (analyze_ocr_box__run i r s Hv Hr), Hf.
Qed.

Lemma analysis_without_result_removes_witness :
  exists s1,
    analyze_ocr_box 1 three_boxes
    = (Ok tt, renumbered (with_ocr_boxes [0%nat; 2%nat] s1))
    /\ heap s1 = heap three_boxes.
Proof.
  destruct (analysis_without_result_removes 1 1%nat three_boxes)
    as (s1 & Hh & _ & _ & Hrun & _); [reflexivity | reflexivity | |].
  - right. left. reflexivity.
  - exists s1. split; [exact Hrun | exact Hh].
Defined.

(** ** Alignment *)

(** [<] on floats is a strict order (a NaN is below and above nothing). *)
Lemma SFltb_irrefl (a : spec_float) : SFltb a a = false.
Proof.
  unfold SFltb, SFcompare. destruct a as [s|s| |s m e]; try reflexivity.
  - destruct s; reflexivity.
  - rewrite Z.compare_refl.
    change (PosDef.Pos.compare_cont Eq m m) with (Pos.compare m m).
    rewrite Pos.compare_refl. destruct s; reflexivity.
Qed.

Lemma SFltb_trans (a b c : spec_float) :
  SFltb a b = true -> SFltb b c = true -> SFltb a c = true.
Proof.
  unfold SFltb, SFcompare.
  destruct a as [sa|sa| |sa ma ea], b as [sb|sb| |sb mb eb],
    c as [sc|sc| |sc mc ec];
    try discriminate;
    try (destruct sa; try discriminate);
    try (destruct sb; try discriminate);
    try (destruct sc; try discriminate);
    try reflexivity.
  all: change (PosDef.Pos.compare_cont Eq) with Pos.compare.
  all: destruct (Z.compare_spec ea eb), (Z.compare_spec eb ec),
         (Z.compare_spec ea ec); try lia; try discriminate; try reflexivity;
       subst.
  all: destruct (Pos.compare_spec ma mb), (Pos.compare_spec mb mc),
         (Pos.compare_spec ma mc); cbn; try lia; try discriminate;
       try reflexivity.
Qed.

Lemma ltb_irrefl (a : float) : PrimFloat.ltb a a = false.
Proof. rewrite ltb_spec. apply SFltb_irrefl. Qed.

Lemma ltb_trans (a b c : float) :
  PrimFloat.ltb a b = true -> PrimFloat.ltb b c = true ->
  PrimFloat.ltb a c = true.
Proof. rewrite !ltb_spec. apply SFltb_trans. Qed.

(** Nothing is above [q] that is not above a score below [q] or [q] itself. *)
Lemma not_above (q0 q q' : float) :
  q = q0 \/ PrimFloat.ltb q0 q = true ->
  PrimFloat.ltb q0 q' = false -> PrimFloat.ltb q q' = false.
Proof.
  intros [->|Hlt] H0; [exact H0|].
  destruct (PrimFloat.ltb q q') eqn:E; [|reflexivity].
  by rewrite (ltb_trans _ _ _ Hlt E) in H0.
Qed.

(** The loop from a kept candidate on: the candidate kept at the end is the
    one kept at the start or scores above it, and no later candidate scores
    above it. *)
Lemma best_of_from (h : list OCRBox) (current : OCRBox) (rest : list Ref)
    (best0 : Ref) (q0 : float) :
  similarity (h !!! best0) current = Ok q0 ->
  (forall r', r' ∈ rest -> exists q', similarity (h !!! r') current = Ok q') ->
  exists best q,
    best_of h current rest (Some best0) = Ok (Some best)
    /\ (best = best0 \/ best ∈ rest)
    /\ similarity (h !!! best) current = Ok q
    /\ (q = q0 \/ PrimFloat.ltb q0 q = true)
    /\ forall r' q', r' ∈ rest -> similarity (h !!! r') current = Ok q' ->
                     PrimFloat.ltb q q' = false.
Proof.
  revert best0 q0. induction rest as [|r1 rest IH]; intros best0 q0 H0 Hd.
  - exists best0, q0. split; [reflexivity|]. split; [by left|].
    split; [exact H0|]. split; [by left|].
    intros r' q' Hr'. by apply elem_of_nil in Hr'.
  - destruct (Hd r1) as [q1 H1]; [by left|].
    assert (Hd' : forall r', r' ∈ rest ->
                             exists q', similarity (h !!! r') current = Ok q')
      by (intros r' Hr'; apply Hd; by right).
    cbn [best_of]. rewrite H1, H0. cbn [rbind].
    destruct (PrimFloat.ltb q0 q1) eqn:Elt.
    + destruct (IH r1 q1 H1 Hd') as (best & q & Hrun & Hin & Hq & Hle & Hmax).
      exists best, q. split; [exact Hrun|]. split.
      { destruct Hin as [->|Hin]; right; [by left | by right]. }
      split; [exact Hq|]. split.
      { right. destruct Hle as [->|Hle]; [exact Elt|].
        exact (ltb_trans _ _ _ Elt Hle). }
      intros r' q' [->|Hr']%elem_of_cons Hq'.
      * rewrite H1 in Hq'. injection Hq' as <-.
        exact (not_above _ _ _ Hle (ltb_irrefl q1)).
      * by apply (Hmax r').
    + destruct (IH best0 q0 H0 Hd') as (best & q & Hrun & Hin & Hq & Hle & Hmax).
      exists best, q. split; [exact Hrun|]. split.
      { destruct Hin as [->|Hin]; [by left | right; by right]. }
      split; [exact Hq|]. split; [exact Hle|].
      intros r' q' [->|Hr']%elem_of_cons Hq'.
      * rewrite H1 in Hq'. injection Hq' as <-.
        exact (not_above _ _ _ Hle Elt).
      * by apply (Hmax r').
Qed.

Lemma best_of_first (h : list OCRBox) (current : OCRBox) (r : Ref)
    (rest : list Ref) :
  (forall r', r' ∈ r :: rest ->
              exists q', similarity (h !!! r') current = Ok q') ->
  exists best q,
    best_of h current (r :: rest) None = Ok (Some best)
    /\ best ∈ r :: rest
    /\ similarity (h !!! best) current = Ok q
    /\ forall r' q', r' ∈ r :: rest ->
                     similarity (h !!! r') current = Ok q' ->
                     PrimFloat.ltb q q' = false.
Proof.
  intros Hd.
  destruct (Hd r) as [q0 H0]; [by left|].
  destruct (best_of_from h current rest r q0 H0) as
    (best & q & Hrun & Hin & Hq & Hle & Hmax).
  { intros r' Hr'. apply Hd. by right. }
  exists best, q. split; [exact Hrun|]. split.
  { destruct Hin as [->|Hin]; [by left | by right]. }
  split; [exact Hq|].
  intros r' q' [->|Hr']%elem_of_cons Hq'.
  - rewrite H0 in Hq'. injection Hq' as <-.
    exact (not_above _ _ _ Hle (ltb_irrefl q0)).
  - by apply (Hmax r').
Qed.

(** X22.  The loop of [align_ocr_box] keeps a single candidate without computing
    any score.  Among several candidates that all have a score it keeps one
    whose score no candidate's score is above ([>] on the floats that
    [similarity] returns); and when a later candidate's width and height sum
    to 0 while an earlier one is kept, it raises [ZeroDivisionError].  Of two
    candidates whose scores round to the same float the first is kept, also
    when the second is nearer: next to a box 2^60 wide, a candidate two
    pixels off is kept before one that is one pixel off. *)
Theorem best_of_maximal (h : list OCRBox) (current : OCRBox) (r : Ref)
    (rest : list Ref) :
  best_of h current [r] None = Ok (Some r)
  /\ ((forall r', r' ∈ r :: rest ->
                  exists q', similarity (h !!! r') current = Ok q') ->
      exists best q,
        best_of h current (r :: rest) None = Ok (Some best)
        /\ best ∈ r :: rest
        /\ similarity (h !!! best) current = Ok q
        /\ forall r' q', r' ∈ r :: rest ->
                         similarity (h !!! r') current = Ok q' ->
                         PrimFloat.ltb q q' = false)
  /\ (forall r2, width (h !!! r2) + height (h !!! r2) = 0 ->
                 best_of h current (r :: r2 :: rest) None
                 = Raise ZeroDivisionError)
  /\ best_of [box_at 2 0 (2 ^ 60) 0; box_at 1 0 (2 ^ 60) 0]
             (box_at 0 0 (2 ^ 60) 0) [0%nat; 1%nat] None
     = Ok (Some 0%nat).
Proof.
  split; [reflexivity|]. split; [apply best_of_first|]. split.
  - intros r2 Hz. cbn [best_of]. unfold similarity at 1, py_truediv.
    by rewrite (proj2 (Z.eqb_eq _ _) Hz).
  - vm_compute. reflexivity.
Qed.

Lemma best_of_maximal_witness :
  exists best q,
    best_of [box_at 0 0 10 10; box_at 5 5 10 10; box_at 1 0 10 10]
            (box_at 0 0 10 10) [1%nat; 2%nat] None = Ok (Some best)
    /\ best ∈ [1%nat; 2%nat]
    /\ similarity ([box_at 0 0 10 10; box_at 5 5 10 10; box_at 1 0 10 10]
                     !!! best) (box_at 0 0 10 10) = Ok q
    /\ forall r' q', r' ∈ [1%nat; 2%nat] ->
         similarity ([box_at 0 0 10 10; box_at 5 5 10 10; box_at 1 0 10 10]
                       !!! r') (box_at 0 0 10 10) = Ok q' ->
         PrimFloat.ltb q q' = false.
Proof.
  apply (proj1 (proj2 (best_of_maximal
           [box_at 0 0 10 10; box_at 5 5 10 10; box_at 1 0 10 10]
           (box_at 0 0 10 10) 1%nat [2%nat]))).
  intros r' Hr'.
  repeat (apply elem_of_cons in Hr' as [->|Hr']; [by eexists|]).
  by apply elem_of_nil in Hr'.
Defined.

Lemma new_box_among (h bs : list OCRBox) (r' : Ref) :
  r' ∈ seq (length h) (length bs) -> (h ++ bs)%list !!! r' ∈ bs.
Proof.
  intros [Hge Hlt]%elem_of_seq.
  rewrite lookup_total_app_r by lia.
  apply list_elem_of_lookup_total_2. lia.
Qed.

(** X23.  When the backend finds boxes in the region of a box of the layout, each
    with a score against that box, [align_ocr_box] returns and gives the box
    the position and size of a found box whose score no found box's score is
    above ([>] on the floats that [similarity] returns); the box keeps
    everything else, and the layout keeps its boxes. *)
Theorem align_ocr_box_takes_best (i : Z) (r : Ref) (path : string)
    (proc : OCRProcessor) (s : State) :
  valid_index s i = true ->
  ocr_boxes (layout (page s)) !! Z.to_nat i = Some r ->
  (r < length (heap s))%nat ->
  image_path_set (page s) = Some path ->
  ocr_processor (page s) = Some proc ->
  analyze_layout proc path (geometry (heap s !!! r)) <> [] ->
  (forall b, b ∈ analyze_layout proc path (geometry (heap s !!! r)) ->
             exists q', similarity b (heap s !!! r) = Ok q') ->
  exists s' b q,
    align_ocr_box i s = (Ok tt, s')
    /\ b ∈ analyze_layout proc path (geometry (heap s !!! r))
    /\ similarity b (heap s !!! r) = Ok q
    /\ (forall b' q',
           b' ∈ analyze_layout proc path (geometry (heap s !!! r)) ->
           similarity b' (heap s !!! r) = Ok q' ->
           PrimFloat.ltb q q' = false)
    /\ heap s' !!! r
       = set_height (height b)
           (set_width (width b) (set_y (y b) (set_x (x b) (heap s !!! r))))
    /\ page s' = page s.
Proof.
  intros Hv Hr Hlt Hpath Hproc Hne Hd.
  pose proof Hv as Hv'. unfold valid_index in Hv'.
  destruct (py_getitem_valid _ _ Hv') as (r' & Hr' & Hg).
  rewrite Hr in Hr'. injection Hr' as <-.
  unfold align_ocr_box. unfold bind at 1.
  rewrite (analyze_ocr_box__run i r s Hv Hr). unfold analysis_of.
  rewrite Hpath, Hproc. cbn [fst snd].
  remember (analyze_layout proc path (geometry (heap s !!! r))) as bs eqn:Ebs.
  clear Ebs.
  assert (exists n rest, seq (length (heap s)) (length bs) = n :: rest)
    as (n & rest & Eseq) by (destruct bs; [contradiction | cbn; eauto]).
  rewrite Eseq.
  rewrite bind_get_ocr_boxes, bind_gets. cbn [set_heap heap page].
  rewrite Hg, bind_lift_ok.
  set (h' := (heap s ++ bs)%list).
  assert (h' !!! r = heap s !!! r) as Hcur by (by apply lookup_total_app_l).
  rewrite Hcur.
  destruct (best_of_first h' (heap s !!! r) n rest)
    as (best & q & Hrun & Hin & Hq & Hmax).
  { intros r' Hr'. rewrite <- Eseq in Hr'. apply Hd, new_box_among, Hr'. }
  rewrite Hrun, bind_lift_ok.
  rewrite <- Eseq in Hin. pose proof (new_box_among _ _ _ Hin) as Hb.
  apply elem_of_seq in Hin as [Hge _].
  assert (Hbest : forall f, alter f r h' !!! best = h' !!! best)
    by (intros f; apply list_lookup_total_alter_ne; lia).
  do 3 (rewrite bind_get_box, bind_update_box;
        cbn [set_heap heap page log calls]; rewrite ?set_heap_twice;
        rewrite ?list_alter_alter_eq, ?Hbest).
  rewrite bind_get_box. unfold update_box, modify.
  cbn [set_heap heap page log calls]. rewrite list_alter_alter_eq, Hbest.
  exists (set_heap
            (alter (set_height (height (h' !!! best))
                    ∘ (set_width (width (h' !!! best))
                       ∘ (set_y (y (h' !!! best))
                          ∘ set_x (x (h' !!! best))))) r h') s),
    (h' !!! best), q.
  split; [reflexivity|]. split; [exact Hb|]. split; [exact Hq|]. split.
  { intros b' q' Hb' Hq'.
    apply list_elem_of_lookup_total_1 in Hb' as (k & Hk & <-).
    apply (Hmax (length (heap s) + k)%nat).
    - rewrite <- Eseq. apply elem_of_seq. lia.
    - unfold h'. rewrite lookup_total_app_r by lia.
      by replace (length (heap s) + k - length (heap s))%nat with k by lia. }
  split; [|reflexivity].
  cbn [heap set_heap].
  rewrite list_lookup_total_alter_eq
    by (unfold h'; rewrite length_app; lia).
  by rewrite Hcur.
Qed.

Lemma align_ocr_box_takes_best_witness :
  exists s' b q,
    align_ocr_box 0
      (with_backend (fixed_backend [box_at 5 5 10 10; box_at 101 750 230 50])
                    (a_state [observed_box] [0%nat]))
    = (Ok tt, s')
    /\ b ∈ [box_at 5 5 10 10; box_at 101 750 230 50]
    /\ similarity b observed_box = Ok q
    /\ heap s' !!! 0%nat
       = set_height (height b)
           (set_width (width b) (set_y (y b) (set_x (x b) observed_box))).
Proof.
  destruct (align_ocr_box_takes_best 0 0%nat "page.png"
              (fixed_backend [box_at 5 5 10 10; box_at 101 750 230 50])
              (with_backend
                 (fixed_backend [box_at 5 5 10 10; box_at 101 750 230 50])
                 (a_state [observed_box] [0%nat])))
    as (s' & b & q & Hrun & Hb & Hq & _ & Hh & _);
    [reflexivity | reflexivity | cbn; lia | reflexivity | reflexivity
    | discriminate | |].
  - intros b Hb. cbn in Hb.
    repeat (apply elem_of_cons in Hb as [->|Hb]; [by eexists|]).
    by apply elem_of_nil in Hb.
  - exists s', b, q. split; [exact Hrun|]. split; [exact Hb|].
    split; [exact Hq | exact Hh].
Defined.

(** ** Conversion in the layout *)

Lemma map_replaced_ref {B} (f : OCRBox -> B) (h : list OCRBox) (nb : OCRBox)
    (l : list Ref) (i : nat) (r : Ref) :
  l !! i = Some r -> f nb = f (h !!! r) ->
  (forall r', r' ∈ l -> (r' < length h)%nat) ->
  map (fun r' => f ((h ++ [nb])%list !!! r')) (<[i := length h]> l)
  = map (fun r' => f (h !!! r')) l.
Proof.
  intros Hi Hf Hin. apply list_eq. intros j.
  rewrite !list_lookup_fmap.
  destruct (decide (i = j)) as [<-|Hne].
  - rewrite list_lookup_insert_eq by (by eapply lookup_lt_Some).
    rewrite Hi. simpl. f_equal.
    rewrite lookup_total_app_r by lia. by rewrite Nat.sub_diag.
  - rewrite list_lookup_insert_ne by exact Hne.
    destruct (l !! j) as [r'|] eqn:Hj; [|reflexivity]. simpl. f_equal.
    f_equal. apply lookup_total_app_l, Hin.
    by eapply list_elem_of_lookup_2.
Qed.

(** X24.  [convert_ocr_box] with a valid index and a type of the class table puts
    a new object into the layout and leaves the old objects as they are;
    the sequence of order values and the sequence of ids of the layout are
    the same as before.  With the type [IGNORE] it raises [KeyError] and
    changes nothing. *)
Theorem convert_ocr_box_keeps_orders (i : Z) (t : BoxType) (s : State) :
  valid_index s i = true ->
  (forall r, r ∈ ocr_boxes (layout (page s)) -> (r < length (heap s))%nat) ->
  (t <> IGNORE ->
   exists s',
     convert_ocr_box i t s = (Ok tt, s')
     /\ orders s' = orders s
     /\ map (fun r => id (heap s' !!! r)) (ocr_boxes (layout (page s')))
        = map (fun r => id (heap s !!! r)) (ocr_boxes (layout (page s)))
     /\ map (fun r => type (heap s' !!! r)) (ocr_boxes (layout (page s')))
        = <[Z.to_nat i := t]>
            (map (fun r => type (heap s !!! r)) (ocr_boxes (layout (page s))))
     /\ (forall r, (r < length (heap s))%nat -> heap s' !!! r = heap s !!! r))
  /\ (t = IGNORE -> convert_ocr_box i t s = (Raise (KeyError "IGNORE"), s)).
Proof.
  intros Hv Hin. unfold valid_index in Hv.
  destruct (py_getitem_valid _ _ Hv) as (r & Hr & Hg). split.
  - intros Ht.
    assert (exists nb, convert_to_box (heap s !!! r) t = Ok nb) as [nb Hnb].
    { unfold convert_to_box. pose proof (BOX_TYPE_MAP_lookup t) as Hl.
      destruct (assoc_index BOX_TYPE_MAP (name t)) as [c|e];
        [|by destruct Hl].
      destruct (drops_results t); by eexists. }
    destruct (convert_to_box_fields _ _ _ Hnb)
      as (Hid & Hord & _ & _ & _ & _ & Hty & _).
    eexists. split.
    { apply (convert_ocr_box_run s i t nb Hv).
      intros r' Hr'. rewrite Hr in Hr'. by injection Hr' as <-. }
    unfold orders.
    cbn [heap page layout ocr_boxes set_layout set_ocr_boxes].
    split; [by apply (map_replaced_ref order _ _ _ _ r)|].
    split; [by apply (map_replaced_ref id _ _ _ _ r)|]. split.
    + apply list_eq. intros j. rewrite list_lookup_fmap.
      destruct (decide (Z.to_nat i = j)) as [<-|Hne].
      * rewrite !list_lookup_insert_eq
          by (rewrite ?length_map; by eapply lookup_lt_Some).
        simpl. f_equal. rewrite lookup_total_app_r by lia.
        by rewrite Nat.sub_diag.
      * rewrite !list_lookup_insert_ne by exact Hne.
        rewrite list_lookup_fmap.
        destruct (ocr_boxes (layout (page s)) !! j) as [r'|] eqn:Hj;
          [|reflexivity].
        simpl. do 2 f_equal. apply lookup_total_app_l, Hin.
        by eapply list_elem_of_lookup_2.
    + intros r' Hr'. by apply lookup_total_app_l.
  - intros ->. unfold convert_ocr_box, is_valid_box_index, convert_to.
    rewrite !bind_assoc, bind_get_ocr_boxes, bind_ret, Hv. cbn [negb].
    rewrite bind_get_ocr_boxes, Hg, bind_lift_ok.
    rewrite !bind_assoc, bind_get_box.
    change (convert_to_box (heap s !!! r) IGNORE)
      with (@Raise OCRBox (KeyError "IGNORE")).
    by rewrite bind_assoc, bind_lift_raise.
Qed.

Lemma convert_ocr_box_keeps_orders_witness :
  (exists s',
      convert_ocr_box 1 FLOWING_IMAGE three_boxes = (Ok tt, s')
      /\ orders s' = orders three_boxes)
  /\ convert_ocr_box 1 IGNORE three_boxes
     = (Raise (KeyError "IGNORE"), three_boxes).
Proof.
  assert (forall r, r ∈ ocr_boxes (layout (page three_boxes)) ->
                    (r < length (heap three_boxes))%nat) as Hin.
  { intros r Hr. simpl in *.
    repeat (apply elem_of_cons in Hr as [->|Hr]; [lia|]).
    by apply elem_of_nil in Hr. }
  split.
  - destruct (proj1 (convert_ocr_box_keeps_orders 1 FLOWING_IMAGE three_boxes
                       eq_refl Hin))
      as (s' & Hrun & Ho & _); [discriminate|].
    exists s'. split; [exact Hrun | exact Ho].
  - apply (proj2 (convert_ocr_box_keeps_orders 1 IGNORE three_boxes
                    eq_refl Hin)). reflexivity.
Defined.

(** ** Records of the layout and of the page *)

Lemma as_region_to_val (r : Region) : as_region (region_to_val r) = Ok r.
Proof. by destruct r as [[[a b] c] d]. Qed.

Section LayoutRecordFacts.

Variable block_to_dict : OCRResultBlock -> PyVal.
Variable block_from_dict : PyVal -> result OCRResultBlock.

Local Abbreviation results_round_trip :=
  (results_round_trip block_to_dict block_from_dict).

(** The base loader reads the record of any box, also of a [TextBox]. *)
Lemma OCRBox_from_dict_of_to_dict (b : OCRBox) (d : PyVal) :
  results_round_trip (ocr_results b) ->
  to_dict block_to_dict b = Ok d ->
  OCRBox_from_dict block_from_dict OCRBox_cls d = Ok (base_copy b).
Proof.
  intros Hr. unfold to_dict.
  destruct (cls b);
    try exact (OCRBox_from_dict_to_dict block_to_dict block_from_dict
                 OCRBox_cls b d Hr).
  unfold OCRBox_to_dict.
  destruct (results_to_dict block_to_dict (ocr_results b)) as [v|e] eqn:Ev;
    [|discriminate].
  cbn -[load_ocr_results construct].
  destruct (text_state b) as [ts|]; [|discriminate]. intros [= <-].
  pose proof (load_ocr_results_round_trip _ _ _ _ Hr Ev) as Hl.
  unfold OCRBox_from_dict. cbn -[load_ocr_results construct].
  rewrite BoxType_of_name_name. cbn -[load_ocr_results construct].
  rewrite Hl. reflexivity.
Qed.

Lemma load_base_boxes_run (records : list PyVal) (bs : list OCRBox)
    (s : State) :
  map_result (OCRBox_from_dict block_from_dict OCRBox_cls) records = Ok bs ->
  load_base_boxes block_from_dict records s
  = (Ok (seq (length (heap s)) (length bs)), set_heap (heap s ++ bs) s).
Proof.
  revert bs s. induction records as [|rec rest IH]; intros bs s; simpl.
  - intros [= <-]. unfold ret. rewrite app_nil_r. by destruct s.
  - destruct (OCRBox_from_dict block_from_dict OCRBox_cls rec) as [b|e];
      [|discriminate].
    cbn [rbind].
    destruct (map_result (OCRBox_from_dict block_from_dict OCRBox_cls) rest)
      as [bs'|e]; [|discriminate].
    intros [= <-]. rewrite bind_lift_ok. unfold bind at 1. unfold alloc.
    unfold bind at 1. rewrite (IH bs' _ eq_refl).
    unfold ret, set_heap. cbn [heap page log calls length seq].
    rewrite length_app, <- app_assoc. cbn [length app].
    by rewrite Nat.add_1_r.
Qed.

Lemma map_result_to_dict_base (h : list OCRBox) (l : list Ref)
    (records : list PyVal) :
  (forall r, r ∈ l -> results_round_trip (ocr_results (h !!! r))) ->
  map_result (fun r => to_dict block_to_dict (h !!! r)) l = Ok records ->
  map_result (OCRBox_from_dict block_from_dict OCRBox_cls) records
  = Ok (map (fun r => base_copy (h !!! r)) l).
Proof.
  revert records. induction l as [|r rest IH]; intros records Hr; simpl.
  - by intros [= <-].
  - destruct (to_dict block_to_dict (h !!! r)) as [d|e] eqn:Ed;
      [|discriminate].
    cbn [rbind].
    destruct (map_result (fun r => to_dict block_to_dict (h !!! r)) rest)
      as [ds|e]; [|discriminate].
    intros [= <-]. simpl.
    rewrite (OCRBox_from_dict_of_to_dict _ _ (Hr r ltac:(by left)) Ed).
    cbn [rbind]. rewrite (IH ds); [reflexivity | | reflexivity].
    intros r' Hr'. apply Hr. by right.
Qed.

(** X25.  A layout comes back from its record with its region, header and footer;
    each box comes back as a new object of the base class that holds the
    fields of the record, in the order of the record.  So the class of a box
    and the text of a [TextBox] are lost, and the order values are taken as
    they are in the record. *)
Theorem PageLayout_round_trip (h : list OCRBox) (lay : PageLayout) (d : PyVal)
    (s : State) :
  (forall r, r ∈ ocr_boxes lay -> results_round_trip (ocr_results (h !!! r))) ->
  PageLayout_to_dict block_to_dict h lay = Ok d ->
  exists lay' s',
    PageLayout_from_dict block_from_dict d s = (Ok lay', s')
    /\ region lay' = region lay
    /\ header_y lay' = header_y lay
    /\ footer_y lay' = footer_y lay
    /\ map (fun r => heap s' !!! r) (ocr_boxes lay')
       = map (fun r => base_copy (h !!! r)) (ocr_boxes lay)
    /\ (forall r, r ∈ ocr_boxes lay' ->
                  cls (heap s' !!! r) = OCRBox_cls
                  /\ text_state (heap s' !!! r) = None)
    /\ page s' = page s.
Proof.
  intros Hr. unfold PageLayout_to_dict.
  destruct (map_result (fun r => to_dict block_to_dict (h !!! r))
                       (ocr_boxes lay)) as [records|e] eqn:Em; [|discriminate].
  cbn [rbind]. intros [= <-].
  pose proof (map_result_to_dict_base _ _ _ Hr Em) as Hb.
  unfold PageLayout_from_dict.
  cbn [as_dict_get]. rewrite bind_lift_ok.
  change (get_as as_region _ "region" (0, 0, 0, 0))
    with (as_region (region_to_val (region lay))).
  rewrite as_region_to_val, bind_lift_ok.
  cbn [get_as assoc_get as_int as_list]. cbv beta.
  change (get_as as_int _ "header_y" 0) with (@Ok Z (header_y lay)).
  rewrite bind_lift_ok.
  change (get_as as_int _ "footer_y" 0) with (@Ok Z (footer_y lay)).
  rewrite bind_lift_ok.
  change (get_as as_list _ "boxes" []) with (@Ok (list PyVal) records).
  rewrite bind_lift_ok. unfold bind at 1.
  rewrite (load_base_boxes_run _ _ _ Hb). unfold ret.
  eexists _, _. split; [reflexivity|].
  cbn [region header_y footer_y ocr_boxes heap page set_heap].
  do 3 (split; [reflexivity|]).
  assert (map (fun r => (heap s ++ map (fun r => base_copy (h !!! r))
                                       (ocr_boxes lay))%list !!! r)
              (seq (length (heap s))
                   (length (map (fun r => base_copy (h !!! r)) (ocr_boxes lay))))
          = map (fun r => base_copy (h !!! r)) (ocr_boxes lay)) as Hmap.
  { generalize (map (fun r => base_copy (h !!! r)) (ocr_boxes lay)).
    intros bs. apply list_eq. intros j. rewrite list_lookup_fmap.
    destruct (decide (j < length bs)%nat) as [Hlt|Hge].
    - rewrite lookup_seq_lt by exact Hlt. simpl.
      rewrite lookup_total_app_r by lia.
      replace (length (heap s) + j - length (heap s))%nat with j by lia.
      symmetry. by apply list_lookup_lookup_total_lt.
    - rewrite lookup_seq_ge by lia. simpl. symmetry.
      apply lookup_ge_None. lia. }
  split; [exact Hmap|]. split; [|reflexivity].
  intros r Hin. apply new_box_among in Hin.
  apply list_elem_of_fmap in Hin as (r0 & -> & _). split; reflexivity.
Qed.

End LayoutRecordFacts.

Lemma PageLayout_round_trip_witness :
  exists d lay' s',
    PageLayout_to_dict count_block_to_dict [text_box_with_text]
      (layout (a_page [0%nat] None None)) = Ok d
    /\ PageLayout_from_dict count_block_from_dict d (a_state [] [])
       = (Ok lay', s')
    /\ map (fun r => heap s' !!! r) (ocr_boxes lay')
       = [base_copy text_box_with_text]
    /\ cls text_box_with_text = TextBox_cls.
Proof.
  destruct (PageLayout_to_dict count_block_to_dict [text_box_with_text]
              (layout (a_page [0%nat] None None))) as [d|e] eqn:Ed;
    [|vm_compute in Ed; discriminate Ed].
  destruct (PageLayout_round_trip count_block_to_dict count_block_from_dict
              [text_box_with_text] (layout (a_page [0%nat] None None)) d
              (a_state [] []))
    as (lay' & s' & Hrun & _ & _ & _ & Hmap & _).
  - intros r Hr. cbn in Hr. apply elem_of_cons in Hr as [->|Hr];
      [|by apply elem_of_nil in Hr].
    split; reflexivity.
  - exact Ed.
  - exists d, lay', s'. split; [reflexivity|]. split; [exact Hrun|].
    split; [exact Hmap | reflexivity].
Defined.

(** The renumber pass over new objects at the end of the store. *)
Lemma renumber_fresh (h0 l1 l2 : list OCRBox) (k : nat) :
  length l1 = k ->
  renumber_from k (seq (length h0 + k) (length l2)) (h0 ++ l1 ++ l2)
  = (h0 ++ l1 ++ imap (fun j b => set_order (Z.of_nat (k + j)) b) l2)%list.
Proof.
  revert l1 k. induction l2 as [|b l2 IH]; intros l1 k Hk; [reflexivity|].
  cbn [length seq renumber_from]. rewrite imap_cons.
  assert (alter (set_order (Z.of_nat k)) (length h0 + k)%nat
                (h0 ++ l1 ++ b :: l2)%list
          = (h0 ++ (l1 ++ [set_order (Z.of_nat k) b]) ++ l2)%list) as ->.
  { rewrite alter_app_r_alt by lia.
    replace (length h0 + k - length h0)%nat with (length l1) by lia.
    rewrite alter_app_r_alt by lia. rewrite Nat.sub_diag. cbn [alter list_alter].
    by rewrite <- app_assoc. }
  replace (S (length h0 + k)) with (length h0 + S k)%nat by lia.
  rewrite (IH (l1 ++ [set_order (Z.of_nat k) b])%list (S k))
    by (rewrite length_app; simpl; lia).
  rewrite <- app_assoc. cbn [app]. rewrite Nat.add_0_r.
  do 3 f_equal. apply imap_ext. intros j b' _. cbn. do 2 f_equal. lia.
Qed.

Lemma imap_set_order_twice (bs : list OCRBox) :
  imap (fun j b => set_order (Z.of_nat j) b)
       (imap (fun j b => set_order (Z.of_nat j) b) bs)
  = imap (fun j b => set_order (Z.of_nat j) b) bs.
Proof.
  apply list_eq. intros j. rewrite !list_lookup_imap.
  by destruct (bs !! j).
Qed.

Lemma State_ext (a b : State) :
  heap a = heap b -> page a = page b -> log a = log b -> calls a = calls b ->
  a = b.
Proof. destruct a, b; cbn; intros; subst; reflexivity. Qed.

Section PageRecordFacts.

Variable block_to_dict : OCRResultBlock -> PyVal.
Variable block_from_dict : PyVal -> result OCRResultBlock.

Local Abbreviation results_round_trip :=
  (results_round_trip block_to_dict block_from_dict).
Local Abbreviation load_box := (load_box block_from_dict).

Lemma load_box_run (rec : PyVal) (bd : list (string * PyVal)) (tn : string)
    (b : OCRBox) (h0 pre : list OCRBox) (s : State) :
  rec = PyDict bd -> assoc_get bd "type" = Some (PyStr tn) ->
  from_dict block_from_dict (box_class_for tn) rec = Ok b ->
  load_box rec (loaded h0 pre s) = (Ok tt, loaded h0 (pre ++ [b]) s).
Proof.
  intros -> Ht Hb. unfold load_box.
  cbn [as_dict]. rewrite bind_lift_ok.
  unfold index_as, assoc_index. rewrite Ht. cbn [rbind as_str].
  rewrite bind_lift_ok, Hb, bind_lift_ok.
  unfold bind at 1. unfold alloc. rewrite add_ocr_box_run.
  f_equal. apply State_ext; unfold loaded, renumbered, with_ocr_boxes;
    cbn [heap page layout ocr_boxes log calls set_heap set_page set_layout
         set_ocr_boxes region header_y footer_y image_path page_order
         ocr_processor]; try reflexivity.
  - rewrite !length_app, !length_imap.
    change [(length h0 + length pre)%nat]
      with (seq (length h0 + length pre) 1).
    rewrite <- seq_app.
    pose proof (renumber_fresh h0 []
                  (imap (fun j b => set_order (Z.of_nat j) b) pre ++ [b])%list
                  0 eq_refl) as Hren.
    rewrite Nat.add_0_r in Hren. cbn [app] in Hren.
    rewrite length_app, length_imap in Hren. cbn [length] in Hren.
    rewrite <- app_assoc. rewrite Hren. f_equal.
    rewrite !imap_app, imap_set_order_twice. f_equal.
    cbn [imap]. by rewrite ?length_imap.
  - rewrite !length_app, !length_imap. cbn [length].
    by rewrite seq_app.
Qed.

Lemma for_each_load_box (records : list PyVal) (bs h0 pre : list OCRBox)
    (s : State) :
  Forall2 (fun rec b =>
             exists bd tn,
               rec = PyDict bd /\ assoc_get bd "type" = Some (PyStr tn)
               /\ from_dict block_from_dict (box_class_for tn) rec = Ok b)
          records bs ->
  for_each records load_box (loaded h0 pre s)
  = (Ok tt, loaded h0 (pre ++ bs) s).
Proof.
  intros HF. revert pre. induction HF as [|rec b records bs Hb _ IH];
    intros pre.
  - by rewrite app_nil_r.
  - destruct Hb as (bd & tn & Hrec & Ht & Hb). cbn [for_each].
    unfold bind. rewrite (load_box_run rec bd tn b h0 pre s Hrec Ht Hb).
    rewrite IH. by rewrite <- app_assoc.
Qed.

End PageRecordFacts.

Lemma bind_modify {B} (f : State -> State) (k : unit -> Py B) (s : State) :
  bind (modify f) k s = k tt (f s).
Proof. reflexivity. Qed.

Lemma loaded_nil (s : State) :
  ocr_boxes (layout (page s)) = [] -> loaded (heap s) [] s = s.
Proof.
  destruct s as [h [ip po pr [bs rg hy fy]] lg cs]. cbn. intros ->.
  unfold loaded, with_ocr_boxes. cbn. by rewrite app_nil_r.
Qed.

Lemma as_opt_str_to_val (o : option string) :
  as_opt_str (opt_str_to_val o) = Ok o.
Proof. by destruct o. Qed.

Section PageRoundTrip.

Variable block_to_dict : OCRResultBlock -> PyVal.
Variable block_from_dict : PyVal -> result OCRResultBlock.

Local Abbreviation reloadable := (reloadable block_to_dict block_from_dict).

Lemma to_dict_type (b : OCRBox) (d : PyVal) :
  to_dict block_to_dict b = Ok d ->
  exists bd, d = PyDict bd
             /\ assoc_get bd "type" = Some (PyStr (name (type b))).
Proof.
  unfold to_dict, OCRBox_to_dict.
  destruct (results_to_dict block_to_dict (ocr_results b)) as [v|e];
    [|by destruct (cls b)].
  destruct (cls b); cbn [rbind as_dict]; try (intros [= <-]; by eexists).
  destruct (text_state b); [|discriminate]. intros [= <-]. by eexists.
Qed.

Lemma to_dict_text_state (b : OCRBox) (d : PyVal) :
  to_dict block_to_dict b = Ok d ->
  cls b = TextBox_cls -> is_Some (text_state b).
Proof.
  unfold to_dict. intros Hd Hc. rewrite Hc in Hd.
  destruct (OCRBox_to_dict block_to_dict b); [|discriminate].
  cbn [rbind] in Hd. destruct (as_dict a); [|discriminate].
  cbn [rbind] in Hd. by destruct (text_state b).
Qed.

Lemma records_reload (h : list OCRBox) (l : list Ref) (records : list PyVal) :
  (forall r, r ∈ l -> reloadable (h !!! r)) ->
  map_result (fun r => to_dict block_to_dict (h !!! r)) l = Ok records ->
  Forall2 (fun rec b =>
             exists bd tn,
               rec = PyDict bd /\ assoc_get bd "type" = Some (PyStr tn)
               /\ from_dict block_from_dict (box_class_for tn) rec = Ok b)
          records (map (fun r => persisted (h !!! r)) l).
Proof.
  revert records. induction l as [|r rest IH]; intros records Hr; simpl.
  - intros [= <-]. constructor.
  - destruct (to_dict block_to_dict (h !!! r)) as [d|e] eqn:Ed;
      [|discriminate].
    cbn [rbind].
    destruct (map_result (fun r => to_dict block_to_dict (h !!! r)) rest)
      as [ds|e]; [|discriminate].
    intros [= <-]. constructor.
    + destruct (to_dict_type _ _ Ed) as (bd & -> & Ht).
      destruct (Hr r ltac:(by left)) as (Hc & Hcls & Hres).
      exists bd, (name (type (h !!! r))). split; [reflexivity|].
      split; [exact Ht|]. rewrite <- Hcls.
      apply (from_dict_to_dict_base_and_text block_to_dict);
        [exact Hc | by apply (to_dict_text_state _ _ Ed) | exact Hres
        | exact Ed].
    + apply IH; [|reflexivity]. intros r' Hr'. apply Hr. by right.
Qed.

Lemma Page_from_dict_run (ip : PyVal) (path : option string) (ord : Z)
    (records : list PyVal) (bs : list OCRBox) (reg : Region) (hy fy : Z)
    (s : State) :
  as_opt_str ip = Ok path ->
  Forall2 (fun rec b =>
             exists bd tn,
               rec = PyDict bd /\ assoc_get bd "type" = Some (PyStr tn)
               /\ from_dict block_from_dict (box_class_for tn) rec = Ok b)
          records bs ->
  Page_from_dict block_from_dict (page_record ip ord records reg hy fy) s
  = (Ok tt,
     {| heap := heap s ++ imap (fun j b => set_order (Z.of_nat j) b) bs;
        page := {| image_path := path; page_order := ord;
                   ocr_processor := None;
                   layout := {| ocr_boxes := seq (length (heap s)) (length bs);
                                region := reg; header_y := hy;
                                footer_y := fy |} |};
        log := log s; calls := calls s |}).
Proof.
  intros Hip HF. unfold Page_from_dict, page_record.
  cbn [as_dict]. rewrite bind_lift_ok.
  set (ld := [("boxes", PyList records); ("region", region_to_val reg);
              ("header_y", PyInt hy); ("footer_y", PyInt fy)]).
  set (pd := [("image_path", ip); ("order", PyInt ord); ("layout", PyDict ld)]).
  change (index_as as_dict [("page", PyDict pd)] "page") with (Ok pd).
  rewrite bind_lift_ok.
  change (index_as as_opt_str pd "image_path") with (as_opt_str ip).
  rewrite Hip, bind_lift_ok.
  change (get_as as_int pd "order" 0) with (@Ok Z ord).
  rewrite bind_lift_ok, bind_modify.
  change (index_as as_dict pd "layout") with (Ok ld).
  rewrite bind_lift_ok.
  change (index_as as_list ld "boxes") with (Ok records).
  rewrite bind_lift_ok.
  set (s1 := set_page (new_page path ord) s).
  rewrite <- (loaded_nil s1) by reflexivity.
  unfold bind at 1.
  rewrite (for_each_load_box block_from_dict records bs (heap s1) [] s1 HF).
  cbn [app]. rewrite bind_lift_ok.
  change (index_as as_region ld "region") with (as_region (region_to_val reg)).
  rewrite as_region_to_val, bind_lift_ok.
  unfold modify_layout at 1. rewrite bind_modify.
  rewrite bind_lift_ok.
  change (get_as as_int ld "header_y" 0) with (@Ok Z hy).
  rewrite bind_lift_ok. unfold set_header, modify_layout at 1.
  rewrite bind_modify, bind_lift_ok.
  change (get_as as_int ld "footer_y" 0) with (@Ok Z fy).
  rewrite bind_lift_ok. unfold set_footer, modify_layout, modify.
  f_equal.
Qed.

(** X26.  A page whose boxes are reloadable comes back from its record with its
    image path, order, region, header and footer, and with a copy of each
    box that holds what the record keeps of it.  The copies are numbered by
    their position in the record: the order values of the record are not
    taken over.  The page has no backend. *)
Theorem Page_round_trip (s s0 : State) (d : PyVal) :
  (forall r, r ∈ ocr_boxes (layout (page s)) -> reloadable (heap s !!! r)) ->
  Page_to_dict block_to_dict s = Ok d ->
  exists s',
    Page_from_dict block_from_dict d s0 = (Ok tt, s')
    /\ image_path (page s') = image_path (page s)
    /\ page_order (page s') = page_order (page s)
    /\ ocr_processor (page s') = None
    /\ region (layout (page s')) = region (layout (page s))
    /\ header_y (layout (page s')) = header_y (layout (page s))
    /\ footer_y (layout (page s')) = footer_y (layout (page s))
    /\ map (fun r => heap s' !!! r) (ocr_boxes (layout (page s')))
       = imap (fun j r => set_order (Z.of_nat j) (persisted (heap s !!! r)))
              (ocr_boxes (layout (page s)))
    /\ log s' = log s0 /\ calls s' = calls s0.
Proof.
  intros Hr. unfold Page_to_dict, PageLayout_to_dict.
  destruct (map_result (fun r => to_dict block_to_dict (heap s !!! r))
                       (ocr_boxes (layout (page s))))
    as [records|e] eqn:Em; [|discriminate].
  cbn [rbind]. intros [= <-].
  pose proof (records_reload _ _ _ Hr Em) as HF.
  eexists. split.
  { exact (Page_from_dict_run (opt_str_to_val (image_path (page s)))
             (image_path (page s)) _ _ _ _ _ _ s0
             (as_opt_str_to_val _) HF). }
  cbn [heap page log calls image_path page_order ocr_processor layout
       ocr_boxes region header_y footer_y].
  do 6 (split; [reflexivity|]). split; [|split; reflexivity].
  rewrite length_map.
  generalize (ocr_boxes (layout (page s))). intros l.
  apply list_eq. intros j. rewrite list_lookup_fmap, list_lookup_imap.
  destruct (l !! j) as [r|] eqn:Hj.
  - rewrite lookup_seq_lt by (by eapply lookup_lt_Some). simpl. f_equal.
    rewrite lookup_total_app_r by lia.
    replace (length (heap s0) + j - length (heap s0))%nat with j by lia.
    apply list_lookup_total_correct.
    by rewrite list_lookup_imap, list_lookup_fmap, Hj.
  - rewrite lookup_seq_ge by (by apply lookup_ge_None). reflexivity.
Qed.

End PageRoundTrip.

Lemma Page_round_trip_witness :
  exists d s',
    Page_to_dict count_block_to_dict text_page = Ok d
    /\ Page_from_dict count_block_from_dict d (a_state [] []) = (Ok tt, s')
    /\ map (fun r => heap s' !!! r) (ocr_boxes (layout (page s')))
       = [set_order 0 (persisted (set_order 5 text_box_with_text))].
Proof.
  destruct (Page_to_dict count_block_to_dict text_page) as [d|e] eqn:Ed;
    [|vm_compute in Ed; discriminate Ed].
  destruct (Page_round_trip count_block_to_dict count_block_from_dict
              text_page (a_state [] []) d)
    as (s' & Hrun & _ & _ & _ & _ & _ & _ & Hmap & _).
  - intros r Hr. cbn in Hr. apply elem_of_cons in Hr as [->|Hr];
      [|by apply elem_of_nil in Hr].
    split; [by right|]. split; [reflexivity|]. split; reflexivity.
  - exact Ed.
  - exists d, s'. split; [reflexivity|]. split; [exact Hrun | exact Hmap].
Defined.

(** ** The layout after a merge *)



Section MergeFacts.

Variable block_to_dict : OCRResultBlock -> PyVal.




End MergeFacts.



Section MergeLayout.

Variable block_to_dict : OCRResultBlock -> PyVal.

Local Abbreviation merge := (merge_ocr_box_with_ocr_box block_to_dict).




End MergeLayout.


(** ** Header, footer and the page region *)

(** X28.  The header and the footer can be set in either order.  The page region
    then starts at the header and ends at the footer: its top is the header
    height, whatever the top of the layout's region is, and its height is
    the region's height less header and footer; left edge and width are the
    region's. *)
Theorem page_region_after_header_footer (header footer : Z) (s : State) :
  let s' := snd (set_footer footer (snd (set_header header s))) in
  snd (set_header header (snd (set_footer footer s))) = s'
  /\ fst (set_footer footer (snd (set_header header s))) = Ok tt
  /\ heap s' = heap s
  /\ ocr_boxes (layout (page s')) = ocr_boxes (layout (page s))
  /\ match region (layout (page s)), get_page_region (layout (page s')) with
     | (r0, r1, r2, r3), (x0, y0, w0, h0) =>
         x0 = r0 /\ y0 = header /\ w0 = r2 /\ y0 + h0 = r3 - footer
     end.
Proof.
  cbv zeta. unfold set_header, set_footer, modify_layout, modify,
    get_page_region.
  cbn [fst snd heap page layout ocr_boxes region header_y footer_y set_page
       set_layout set_header_y set_footer_y].
  split; [reflexivity|]. split; [reflexivity|]. split; [reflexivity|].
  split; [reflexivity|].
  destruct (region (layout (page s))) as [[[r0 r1] r2] r3].
  repeat split; lia.
Qed.

(** ** Recognition of one box *)

Section RecognizeFacts.

Variable block_get_text : OCRResultBlock -> string.
Variable erase_boxes : string -> list Region -> string.

Local Abbreviation recognize := (recognize_ocr_boxes block_get_text erase_boxes).

(** X29.  [recognize_ocr_boxes] for one box of the layout, on a page with an image
    and a backend: the backend works on that box alone, the layout is not
    changed (an empty [TextBox] is not converted), the observers of the box
    are called once, and the text a user typed into a [TextBox] is
    discarded. *)
Theorem recognize_one_box (i : Z) (r : Ref) (path : string)
    (proc : OCRProcessor) (convert_empty : bool) (s : State) :
  valid_index s i = true ->
  ocr_boxes (layout (page s)) !! Z.to_nat i = Some r ->
  image_path_set (page s) = Some path ->
  ocr_processor (page s) = Some proc ->
  let erased :=
    erase_boxes path
      (map (fun r => geometry (heap s !!! r))
           (List.filter (fun r => negb (is_TextBox (heap s !!! r))
                                  && BoxType_eqb (type (heap s !!! r)) IGNORE)
                        [r])) in
  let h1 := recognize_boxes proc erased [r] (heap s) in
  exists s',
    recognize (Some i) convert_empty s = (Ok tt, s')
    /\ page s' = page s
    /\ heap s'
       = (if is_TextBox (h1 !!! r) then alter (set_user_text "") r h1 else h1)
    /\ calls s'
       = (calls s
          ++ if option_string_eqb (Some "Backend") (_update_source (h1 !!! r))
             then []
             else calls_to r (_callbacks (h1 !!! r)))%list
    /\ log s' = (log s ++ [LogInfo "Recognized boxes"])%list.
Proof.
  intros Hv Hr Hpath Hproc erased h1. unfold valid_index in Hv.
  destruct (py_getitem_valid _ _ Hv) as (r' & Hr' & Hg).
  rewrite Hr in Hr'. injection Hr' as <-.
  unfold recognize_ocr_boxes, is_valid_box_index.
  rewrite bind_gets, Hpath.
  rewrite !bind_assoc, bind_get_ocr_boxes, bind_ret, Hv. cbn [negb].
  rewrite bind_get_ocr_boxes, !bind_assoc, Hg, bind_lift_ok, bind_ret.
  rewrite bind_gets, Hproc.
  rewrite bind_modify. unfold bind at 1. unfold logger_info, modify.
  rewrite andb_false_r, bind_ret, bind_ret.
  cbn [for_each]. rewrite !bind_assoc. unfold bind at 1.
  rewrite notify_callbacks_run. cbn [heap set_heap page log calls].
  change (recognize_boxes proc _ [r] (heap s)) with h1.
  destruct (option_string_eqb (Some "Backend") (_update_source (h1 !!! r)));
    cbn [negb]; rewrite bind_assoc, bind_get_box;
    unfold add_calls; cbn [heap page log calls];
    (destruct (is_TextBox (h1 !!! r));
     [ rewrite ?bind_assoc, bind_update_box | rewrite ?bind_assoc, bind_ret ];
     unfold ret; eexists; (split; [reflexivity|]);
     cbn [set_heap heap page log calls]; rewrite ?app_nil_r;
     repeat split; reflexivity).
Qed.

End RecognizeFacts.

Lemma recognize_one_box_witness :
  exists s',
    recognize_ocr_boxes no_text scratch_path (Some 0) true
      (with_backend (fixed_backend []) (a_state [text_box_with_text] [0%nat]))
    = (Ok tt, s')
    /\ heap s' = [set_user_text "" text_box_with_text]
    /\ calls s' = [].
Proof.
  destruct (recognize_one_box no_text scratch_path 0 0%nat "page.png"
              (fixed_backend []) true
              (with_backend (fixed_backend [])
                            (a_state [text_box_with_text] [0%nat])))
    as (s' & Hrun & _ & Hh & Hc & _);
    [reflexivity | reflexivity | reflexivity | reflexivity |].
  exists s'. split; [exact Hrun|]. split; [exact Hh | exact Hc].
Defined.

(** ** Analysis of the page *)

Lemma for_each_assign (v : Z) (refs : list Ref) (s : State) :
  for_each (imap (fun i r => (v + Z.of_nat i, r)) refs)
           (fun ib => update_box (snd ib) (set_order (fst ib))) s
  = (Ok tt, set_heap (assign_from v refs (heap s)) s).
Proof.
  revert v s. induction refs as [|r rest IH]; intros v s.
  - destruct s; reflexivity.
  - rewrite imap_cons. cbn [for_each assign_from].
    rewrite bind_update_box. cbn [fst snd].
    rewrite (imap_ext _ (fun i a => ((v + 1) + Z.of_nat i, a)))
      by (intros i a _; simpl; f_equal; lia).
    rewrite IH. rewrite Z.add_0_r. reflexivity.
Qed.

Lemma length_assign_from (v : Z) (refs : list Ref) (h : list OCRBox) :
  length (assign_from v refs h) = length h.
Proof.
  revert v h. induction refs as [|r rest IH]; intros v h; simpl; [reflexivity|].
  by rewrite IH, length_alter.
Qed.

Lemma assign_from_other (v : Z) (refs : list Ref) (h : list OCRBox) (r : Ref) :
  r ∉ refs -> assign_from v refs h !!! r = h !!! r.
Proof.
  revert v h. induction refs as [|r' rest IH]; intros v h Hn; simpl;
    [reflexivity|].
  apply not_elem_of_cons in Hn as [Hne Hn].
  rewrite IH by exact Hn. by apply list_lookup_total_alter_ne.
Qed.

Lemma assign_from_order (v : Z) (refs : list Ref) (h : list OCRBox)
    (i : nat) (r : Ref) :
  NoDup refs -> (forall r', r' ∈ refs -> (r' < length h)%nat) ->
  refs !! i = Some r ->
  assign_from v refs h !!! r = set_order (v + Z.of_nat i) (h !!! r).
Proof.
  revert v h i. induction refs as [|r' rest IH]; intros v h i Hnd Hin Hi;
    [by rewrite lookup_nil in Hi|].
  apply NoDup_cons in Hnd as [Hnotin Hnd]. simpl.
  destruct i as [|i]; simpl in Hi.
  - injection Hi as ->. rewrite assign_from_other by exact Hnotin.
    rewrite list_lookup_total_alter_eq by (apply Hin; left).
    by rewrite Z.add_0_r.
  - rewrite (IH (v + 1) _ i Hnd); [| | exact Hi].
    + rewrite list_lookup_total_alter_ne.
      * f_equal. lia.
      * intros ->. apply Hnotin. by eapply list_elem_of_lookup_2.
    + intros r'' Hr''. rewrite length_alter. apply Hin. by right.
Qed.

Section AnalyzeFacts.

Variable box_type_value : BoxType -> Z.

Local Abbreviation analyze := (analyze_page box_type_value).
Local Abbreviation passes := (passes box_type_value).

Lemma filters_as_one (settings : option Settings) (by_type by_size : bool)
    (h : list OCRBox) (refs : list Ref) :
  match settings with
  | Some settings =>
      let ocr_boxes :=
        if by_type then
          match box_types settings with
          | Some types =>
              List.filter
                (fun r => existsb (Z.eqb (box_type_value (type (h !!! r))))
                                  types) refs
          | None => refs
          end
        else refs in
      if by_size then
        let xt := default 0 (x_size_threshold settings) in
        let yt := default 0 (y_size_threshold settings) in
        if (0 <? xt) || (0 <? yt) then
          List.filter (fun r => (xt <=? width (h !!! r))
                                && (yt <=? height (h !!! r))) ocr_boxes
        else ocr_boxes
      else ocr_boxes
  | None => refs
  end
  = List.filter (fun r => passes settings by_type by_size (h !!! r)) refs.
Proof.
  assert (Htrue : forall l : list Ref, List.filter (fun _ => true) l = l).
  { induction l as [|a l IH]; simpl; [reflexivity | by rewrite IH]. }
  assert (Hff : forall (f g : Ref -> bool) (l : list Ref),
             List.filter g (List.filter f l)
             = List.filter (fun r => f r && g r) l).
  { intros f g. induction l as [|a l IH]; simpl; [reflexivity|].
    destruct (f a); simpl; [destruct (g a)|]; by rewrite IH. }
  assert (Hr : forall (f : Ref -> bool) (l : list Ref),
             List.filter f l = List.filter (fun r => f r && true) l).
  { intros f l. apply filter_ext. intros a. by rewrite andb_true_r. }
  unfold passes. destruct settings as [st|]; [|by rewrite Htrue].
  cbv zeta.
  destruct by_type, by_size; [destruct (box_types st) | destruct (box_types st)
                             | |];
    try destruct ((0 <? default 0 (x_size_threshold st))
                  || (0 <? default 0 (y_size_threshold st)));
    cbn [andb]; rewrite ?Hff, ?Htrue; try reflexivity; apply Hr.
Qed.

(** X30.  On a page with an image and a backend, [analyze_page] called with a
    region does not return: it raises [AttributeError] at its last call,
    [sort_ocr_boxes_by_order], which [PageLayout] does not define.  By then
    the found boxes that pass the type and size tests of the settings are
    new objects of the store, numbered in the sequence in which the backend
    gave them from the largest order of the layout plus one (from 0 on an
    empty layout), and the layout holds them: after the old boxes when these
    are kept, alone otherwise.  No object that was in the store before is
    changed, and nothing is logged. *)
Theorem analyze_page_replaces_then_raises (settings : option Settings)
    (reg : Region) (keep by_type by_size : bool) (path : string)
    (proc : OCRProcessor) (s : State) :
  image_path_set (page s) = Some path ->
  ocr_processor (page s) = Some proc ->
  (forall r, r ∈ ocr_boxes (layout (page s)) -> (r < length (heap s))%nat) ->
  let found := analyze_layout proc path reg in
  let kept :=
    List.filter
      (fun r => passes settings by_type by_size ((heap s ++ found)%list !!! r))
      (seq (length (heap s)) (length found)) in
  let existing := ocr_boxes (layout (page s)) in
  let max_order :=
    py_max_default (map (fun r => order (heap s !!! r)) existing) (-1) in
  exists s',
    analyze settings (Some reg) keep by_type by_size s
    = (Raise (AttributeError "sort_ocr_boxes_by_order"), s')
    /\ ocr_boxes (layout (page s'))
       = (if keep then existing ++ kept else kept)%list
    /\ (forall r, (r < length (heap s))%nat -> heap s' !!! r = heap s !!! r)
    /\ (forall i r, kept !! i = Some r ->
                    heap s' !!! r
                    = set_order (max_order + 1 + Z.of_nat i)
                                ((heap s ++ found)%list !!! r))
    /\ log s' = log s /\ calls s' = calls s.
Proof.
  intros Hpath Hproc Hwf found kept existing max_order. unfold analyze_page.
  rewrite bind_gets, Hpath, bind_ret, bind_gets, Hproc.
  unfold bind at 1. rewrite alloc_all_run. fold found.
  rewrite bind_gets. cbn [heap set_heap].
  rewrite (filters_as_one settings by_type by_size). fold kept.
  rewrite bind_get_ocr_boxes. cbn [page set_heap]. fold existing.
  set (h1 := (heap s ++ found)%list).
  assert (map (fun r => order (h1 !!! r)) existing
          = map (fun r => order (heap s !!! r)) existing) as ->.
  { apply list_fmap_ext. intros i r Hr. unfold h1.
    rewrite lookup_total_app_l; [reflexivity|].
    apply Hwf. by eapply list_elem_of_lookup_2. }
  fold max_order.
  unfold bind at 1. rewrite for_each_assign.
  assert (NoDup kept) as Hnd
    by (unfold kept;
        apply NoDup_ListNoDup, List.NoDup_filter, NoDup_ListNoDup, NoDup_seq).
  assert (Hin : forall r, r ∈ kept ->
                          (length (heap s) <= r < length h1)%nat).
  { intros r Hr. unfold kept in Hr.
    apply list_elem_of_In, filter_In in Hr as [Hr _].
    apply in_seq in Hr. unfold h1. rewrite length_app. lia. }
  exists (set_page
            (set_layout
               (set_ocr_boxes (if keep then existing ++ kept else kept)%list
                              (layout (page s))) (page s))
            (set_heap (assign_from (max_order + 1) kept h1) s)).
  split; [by destruct keep|].
  cbn [heap page layout ocr_boxes log calls set_heap set_page set_layout
       set_ocr_boxes].
  split; [reflexivity|]. split.
  { intros r Hr. rewrite assign_from_other.
    - by apply lookup_total_app_l.
    - intros Hk. apply Hin in Hk. lia. }
  split; [|split; reflexivity].
  intros i r Hi.
  apply (assign_from_order _ kept h1 i r Hnd); [|exact Hi].
  intros r' Hr'. by apply Hin.
Qed.

End AnalyzeFacts.

Lemma analyze_page_replaces_then_raises_witness :
  exists s',
    analyze_page enum_value
      (Some (size_settings 5 5)) (Some (0, 0, 100, 100)) true true true
      (with_backend (fixed_backend [box_at 0 0 3 9; box_at 1 1 8 8])
                    (a_state [set_order 5 observed_box] [0%nat]))
    = (Raise (AttributeError "sort_ocr_boxes_by_order"), s')
    /\ ocr_boxes (layout (page s')) = [0%nat; 2%nat]
    /\ order (heap s' !!! 2%nat) = 6.
Proof.
  destruct (analyze_page_replaces_then_raises enum_value
              (Some (size_settings 5 5)) (0, 0, 100, 100)
              true true true "page.png"
              (fixed_backend [box_at 0 0 3 9; box_at 1 1 8 8])
              (with_backend (fixed_backend [box_at 0 0 3 9; box_at 1 1 8 8])
                            (a_state [set_order 5 observed_box] [0%nat])))
    as (s' & Hrun & Hb & _ & Ho & _); [reflexivity | reflexivity | |].
  - intros r Hr. cbn in Hr.
    apply elem_of_cons in Hr as [->|Hr]; [cbn; lia|].
    by apply elem_of_nil in Hr.
  - exists s'. split; [exact Hrun|]. split; [exact Hb|].
    by rewrite (Ho 0%nat 2%nat eq_refl).
Defined.
